(** * Cursor move operations

    A shallow embedding of
    [src/vs/editor/common/controller/cursorMoveOperations.ts]
    (class [MoveOperations]) together with the collaborators it calls:
    the read-only buffer view, the string helpers, the column translator
    and the cursor state.

    Numbers are JavaScript integers without wrap-around and are modelled
    as [Z]; strings are sequences of UTF-16 code units; a thrown error is
    the [Throw] outcome of the [result] monad. *)

From Stdlib Require Import ZArith List Bool Lia.
Import ListNotations.
Open Scope Z_scope.

(* ===================================================================== *)
(** ** Outcomes: a returned value or a thrown error *)

Inductive Error : Type :=
| IllegalLineNumber (lineNumber : Z).

Inductive result (A : Type) : Type :=
| Ok (a : A)
| Throw (e : Error).

Arguments Ok {A} a.
Arguments Throw {A} e.

Definition bind {A B : Type} (r : result A) (k : A -> result B) : result B :=
  match r with
  | Ok a => k a
  | Throw e => Throw e
  end.

Notation "'let*' x ':=' r 'in' k" := (bind r (fun x => k))
  (at level 10, x name, r at level 100, k at level 200).

(* ===================================================================== *)
(** ** Strings of UTF-16 code units *)

Definition JSString : Type := list Z.

Definition strlen (s : JSString) : Z := Z.of_nat (List.length s).

(** [s.charCodeAt(i)]; [None] stands for the NaN of an index outside
    the string. *)
Definition charCodeAt (s : JSString) (i : Z) : option Z :=
  if i <? 0 then None else nth_error s (Z.to_nat i).

Module CharCode.
Definition Tab : Z := 9.
Definition Space : Z := 32.
End CharCode.

Module strings.

Definition isHighSurrogate (charCode : Z) : bool :=
  (0xD800 <=? charCode) && (charCode <=? 0xDBFF).

Definition isLowSurrogate (charCode : Z) : bool :=
  (0xDC00 <=? charCode) && (charCode <=? 0xDFFF).

(** Modelled from the spec: the tables of [vs/base/common/strings] that
    say which code units go together as one logical character (the two
    units of a surrogate pair, a base with its combining marks, ...) are
    absent; they are taken as a parameter.  [rule str i] says that the code
    unit at index [i] of [str] continues the logical character of the unit
    before it, that is, no character boundary lies before index [i]. *)
Definition CharacterRule : Type := JSString -> Z -> bool.

(** The start and the end of a string are always boundaries. *)
Definition continuesAt (rule : CharacterRule) (str : JSString) (index : Z)
  : bool :=
  (0 <? index) && (index <? strlen str) && rule str index.

(** The rule of the surrogate pairs alone: a low surrogate continues the
    high surrogate before it. *)
Definition surrogatePairs : CharacterRule :=
  fun str index =>
    match charCodeAt str (index - 1), charCodeAt str index with
    | Some hi, Some lo => isHighSurrogate hi && isLowSurrogate lo
    | _, _ => false
    end.

(** The number of continuing code units from [index] on, forwards. *)
Fixpoint unitsAhead (rule : CharacterRule) (str : JSString) (index : Z)
    (fuel : nat) : Z :=
  match fuel with
  | O => 0
  | S fuel' =>
      if continuesAt rule str index
      then 1 + unitsAhead rule str (index + 1) fuel'
      else 0
  end.

(** The number of continuing code units from [index] on, backwards. *)
Fixpoint unitsBehind (rule : CharacterRule) (str : JSString) (index : Z)
    (fuel : nat) : Z :=
  match fuel with
  | O => 0
  | S fuel' =>
      if continuesAt rule str index
      then 1 + unitsBehind rule str (index - 1) fuel'
      else 0
  end.

(** Modelled from the spec: [strings.nextCharLength] of
    [vs/base/common/strings] is absent.  Section 4.2: a move is "by
    exactly one logical character, treating any multi-code-unit
    character (e.g., a surrogate pair) as a single atomic step".  The
    length of the character at [offset] is the code unit there and every
    code unit after it that continues the character. *)
Definition nextCharLength (rule : CharacterRule) (str : JSString)
    (offset : Z) : Z :=
  1 + unitsAhead rule str (offset + 1) (List.length str).

(** Modelled from the spec: [strings.prevCharLength] of
    [vs/base/common/strings] is absent.  The length of the character
    that ends at [offset] is counted backwards from the code unit before
    [offset] down to the code unit that starts the character. *)
Definition prevCharLength (rule : CharacterRule) (str : JSString)
    (offset : Z) : Z :=
  1 + unitsBehind rule str (offset - 1) (List.length str).

(** Modelled from the spec: the scan behind
    [getLineFirstNonWhitespaceColumn] is absent; blank characters are
    the space and the tab.  The result is the 0-based index of the first
    non-blank code unit counted from [i], or [None] on a blank line. *)
Fixpoint firstNonWhitespaceIndexFrom (str : JSString) (i : Z) : option Z :=
  match str with
  | [] => None
  | chCode :: rest =>
      if (chCode =? CharCode.Space) || (chCode =? CharCode.Tab)
      then firstNonWhitespaceIndexFrom rest (i + 1)
      else Some i
  end.

Definition firstNonWhitespaceIndex (str : JSString) : option Z :=
  firstNonWhitespaceIndexFrom str 0.

End strings.

(* ===================================================================== *)
(** ** The buffer view *)

(** Modelled from the spec: the interface [ICursorSimpleModel] of
    [vs/editor/common/controller/cursorCommon] is absent.  Section 6 lists
    its five accessors; section 3 fixes the min column at 1 and the max
    column at the text length plus 1; section 7 makes a line number
    outside [1, lineCount] a loudly detectable contract violation, here the
    thrown [IllegalLineNumber].  The buffer snapshot is the list of its
    lines. *)
Definition ICursorSimpleModel : Type := list JSString.

Module Model.

Definition getLineCount (model : ICursorSimpleModel) : Z :=
  Z.of_nat (List.length model).

Definition getLineContent (model : ICursorSimpleModel) (lineNumber : Z)
  : result JSString :=
  if (1 <=? lineNumber) && (lineNumber <=? getLineCount model) then
    match nth_error model (Z.to_nat (lineNumber - 1)) with
    | Some text => Ok text
    | None => Throw (IllegalLineNumber lineNumber)
    end
  else Throw (IllegalLineNumber lineNumber).

Definition getLineMinColumn (model : ICursorSimpleModel) (lineNumber : Z)
  : result Z :=
  let* _ := getLineContent model lineNumber in
  Ok 1.

Definition getLineMaxColumn (model : ICursorSimpleModel) (lineNumber : Z)
  : result Z :=
  let* text := getLineContent model lineNumber in
  Ok (strlen text + 1).

(** "integer | none": the column of the first non-blank character. *)
Definition getLineFirstNonWhitespaceColumn
  (model : ICursorSimpleModel) (lineNumber : Z) : result (option Z) :=
  let* text := getLineContent model lineNumber in
  Ok (match strings.firstNonWhitespaceIndex text with
      | Some index => Some (index + 1)
      | None => None
      end).

End Model.

(* ===================================================================== *)
(** ** Positions, selections and the cursor state *)

Module Position.

Record t : Type := mk {
  lineNumber : Z;
  column : Z
}.

Definition equals (a b : t) : bool :=
  (lineNumber a =? lineNumber b) && (column a =? column b).

Definition isBeforeOrEqual (a b : t) : bool :=
  (lineNumber a <? lineNumber b)
  || ((lineNumber a =? lineNumber b) && (column a <=? column b)).

End Position.

(** Modelled from the spec: the class [Selection] is absent.  Section 3:
    "an ordered pair of Positions: an anchor (selectionStart) and a
    floating end (position), plus derived startLineNumber/startColumn and
    endLineNumber/endColumn (the selection normalized into start <= end
    order)". *)
Module Selection.

Record t : Type := mk {
  selectionStartLineNumber : Z;
  selectionStartColumn : Z;
  positionLineNumber : Z;
  positionColumn : Z
}.

Definition anchor (s : t) : Position.t :=
  Position.mk (selectionStartLineNumber s) (selectionStartColumn s).

Definition floatingEnd (s : t) : Position.t :=
  Position.mk (positionLineNumber s) (positionColumn s).

Definition getStartPosition (s : t) : Position.t :=
  if Position.isBeforeOrEqual (anchor s) (floatingEnd s)
  then anchor s else floatingEnd s.

Definition getEndPosition (s : t) : Position.t :=
  if Position.isBeforeOrEqual (anchor s) (floatingEnd s)
  then floatingEnd s else anchor s.

Definition startLineNumber (s : t) : Z :=
  Position.lineNumber (getStartPosition s).
Definition startColumn (s : t) : Z :=
  Position.column (getStartPosition s).
Definition endLineNumber (s : t) : Z :=
  Position.lineNumber (getEndPosition s).
Definition endColumn (s : t) : Z :=
  Position.column (getEndPosition s).

End Selection.

(** Modelled from the spec: the class [SingleCursorState] of
    [vs/editor/common/controller/cursorCommon] is absent.  Section 3 gives
    its fields: the anchor with its leftover, the floating end with its
    leftover, and the sticky end-of-line flag ([cursor.isEnd] in the
    source).  The only anchors the source builds are the collapsed ranges
    [new Range(l, c, l, c)], which are the position [(l, c)] here. *)
Module SingleCursorState.

Record t : Type := mk {
  selectionStart : Position.t;
  selectionStartLeftoverVisibleColumns : Z;
  position : Position.t;
  leftoverVisibleColumns : Z;
  isEnd : bool
}.

Definition selection (cursor : t) : Selection.t :=
  Selection.mk (Position.lineNumber (selectionStart cursor))
               (Position.column (selectionStart cursor))
               (Position.lineNumber (position cursor))
               (Position.column (position cursor)).

(** "A selection with anchor == position represents a bare caret (no
    selection)." *)
Definition hasSelection (cursor : t) : bool :=
  negb (Position.equals (selectionStart cursor) (position cursor)).

(** Modelled from the spec: [SingleCursorState.move] is absent.  Section
    6: "when true, only the floating end moves and the anchor is
    preserved; when false, both anchor and end collapse to the computed
    destination".  The last argument is the sticky flag of the new
    state; the call sites that omit it pass [false] ("does not set
    sticky-end"). *)
Definition move (cursor : t) (inSelectionMode : bool)
    (lineNumber column leftoverVisibleColumns : Z) (isEnd : bool) : t :=
  if inSelectionMode then
    mk (selectionStart cursor)
       (selectionStartLeftoverVisibleColumns cursor)
       (Position.mk lineNumber column)
       leftoverVisibleColumns
       isEnd
  else
    mk (Position.mk lineNumber column)
       leftoverVisibleColumns
       (Position.mk lineNumber column)
       leftoverVisibleColumns
       isEnd.

End SingleCursorState.

Record CursorConfiguration : Type := mkCursorConfiguration {
  tabSize : Z
}.

(* ===================================================================== *)
(** ** The column translator *)

Module CursorColumns.

(** "every non-tab character contributes 1; a tab advances to the next
    multiple of tabSize (i.e., contributes
    tabSize - (currentVisibleColumn % tabSize))". *)
Definition advance (tabSize visibleColumn charCode : Z) : Z :=
  if charCode =? CharCode.Tab
  then visibleColumn + (tabSize - visibleColumn mod tabSize)
  else visibleColumn + 1.

(** Visible width after the first [n] characters of [chars], starting
    from the width [visibleColumn]. *)
Fixpoint visibleWalk (tabSize : Z) (chars : JSString) (n : nat)
    (visibleColumn : Z) {struct n} : Z :=
  match n, chars with
  | S n', charCode :: rest =>
      visibleWalk tabSize rest n' (advance tabSize visibleColumn charCode)
  | _, _ => visibleColumn
  end.

(** Modelled from the spec: [CursorColumns.visibleColumnFromColumn] is
    absent.  Section 4.1: "walks the line's characters from its start up
    to column, accumulating visible width". *)
Definition visibleColumnFromColumn (lineContent : JSString)
    (column tabSize : Z) : Z :=
  visibleWalk tabSize lineContent (Z.to_nat (column - 1)) 0.

(** The walk of [columnFromVisibleColumn]: [i] characters have been
    passed and their visible width is [beforeVisibleColumn]. *)
Fixpoint columnWalk (tabSize visibleColumn : Z) (chars : JSString)
    (i beforeVisibleColumn : Z) : Z :=
  match chars with
  | [] => i + 1
  | charCode :: rest =>
      let afterVisibleColumn :=
        advance tabSize beforeVisibleColumn charCode in
      if afterVisibleColumn >=? visibleColumn then
        if afterVisibleColumn =? visibleColumn then i + 2 else i + 1
      else columnWalk tabSize visibleColumn rest (i + 1) afterVisibleColumn
  end.

(** Modelled from the spec: [CursorColumns.columnFromVisibleColumn] is
    absent.  Section 4.1: "walks characters accumulating visible width
    until it reaches or exceeds targetVisibleColumn, returning the raw
    column at that point"; inside a tab's expansion "the returned column
    is the one whose visible-column value is closest without exceeding
    the target". *)
Definition columnFromVisibleColumn (lineContent : JSString)
    (visibleColumn tabSize : Z) : Z :=
  columnWalk tabSize visibleColumn lineContent 0 0.

(** Modelled from the spec: [CursorColumns.columnFromVisibleColumn2] is
    absent; it is the inverse mapping on the text of line [lineNumber],
    "clamped to [minColumn, maxColumn] of the line". *)
Definition columnFromVisibleColumn2 (config : CursorConfiguration)
    (model : ICursorSimpleModel) (lineNumber visibleColumn : Z)
  : result Z :=
  let* lineContent := Model.getLineContent model lineNumber in
  let column := columnFromVisibleColumn lineContent visibleColumn
                  (tabSize config) in
  let* minColumn := Model.getLineMinColumn model lineNumber in
  if column <? minColumn then Ok minColumn else
  let* maxColumn := Model.getLineMaxColumn model lineNumber in
  if column >? maxColumn then Ok maxColumn else
  Ok column.

End CursorColumns.

(* ===================================================================== *)
(** ** [CursorPosition] and [MoveOperations] *)

Module CursorPosition.

Record t : Type := mk {
  lineNumber : Z;
  column : Z;
  leftoverVisibleColumns : Z
}.

End CursorPosition.

(** JavaScript's [a || b] on an optional column: a missing value and 0 are
    falsy. *)
Definition orElse (a : option Z) (b : Z) : Z :=
  match a with
  | Some v => if v =? 0 then b else v
  | None => b
  end.

(** The static methods of the class [MoveOperations], one definition per
    method and in the order of the source.  A reassigned local
    ([lineNumber], [column]) is rebound by [let]; a buffer accessor that
    may throw is sequenced with [let*] at the place where the source calls
    it.  The horizontal moves take the character rule that the absent
    [strings] helpers consult as their first argument. *)
Module MoveOperations.

Definition leftPosition (rule : strings.CharacterRule)
    (model : ICursorSimpleModel)
    (lineNumber column : Z) : result Position.t :=
  let* minColumn := Model.getLineMinColumn model lineNumber in
  if column >? minColumn then
    let* lineContent := Model.getLineContent model lineNumber in
    Ok (Position.mk lineNumber
          (column - strings.prevCharLength rule lineContent (column - 1)))
  else if lineNumber >? 1 then
    let lineNumber := lineNumber - 1 in
    let* column := Model.getLineMaxColumn model lineNumber in
    Ok (Position.mk lineNumber column)
  else Ok (Position.mk lineNumber column).

Definition left (rule : strings.CharacterRule)
    (config : CursorConfiguration)
    (model : ICursorSimpleModel) (lineNumber column : Z)
  : result CursorPosition.t :=
  let* pos := leftPosition rule model lineNumber column in
  Ok (CursorPosition.mk (Position.lineNumber pos) (Position.column pos) 0).

Definition moveLeft (rule : strings.CharacterRule)
    (config : CursorConfiguration)
    (model : ICursorSimpleModel) (cursor : SingleCursorState.t)
    (inSelectionMode : bool) (noOfColumns : Z)
  : result SingleCursorState.t :=
  let* target :=
    if SingleCursorState.hasSelection cursor && negb inSelectionMode then
      Ok (Position.mk
            (Selection.startLineNumber (SingleCursorState.selection cursor))
            (Selection.startColumn (SingleCursorState.selection cursor)))
    else
      let* r := left rule config model
                  (Position.lineNumber (SingleCursorState.position cursor))
                  (Position.column (SingleCursorState.position cursor)
                   - (noOfColumns - 1)) in
      Ok (Position.mk (CursorPosition.lineNumber r)
                      (CursorPosition.column r)) in
  Ok (SingleCursorState.move cursor inSelectionMode
        (Position.lineNumber target) (Position.column target) 0 false).

Definition rightPosition (rule : strings.CharacterRule)
    (model : ICursorSimpleModel)
    (lineNumber column : Z) : result Position.t :=
  let* maxColumn := Model.getLineMaxColumn model lineNumber in
  if column <? maxColumn then
    let* lineContent := Model.getLineContent model lineNumber in
    Ok (Position.mk lineNumber
          (column + strings.nextCharLength rule lineContent (column - 1)))
  else if lineNumber <? Model.getLineCount model then
    let lineNumber := lineNumber + 1 in
    let* column := Model.getLineMinColumn model lineNumber in
    Ok (Position.mk lineNumber column)
  else Ok (Position.mk lineNumber column).

Definition right (rule : strings.CharacterRule)
    (config : CursorConfiguration)
    (model : ICursorSimpleModel) (lineNumber column : Z)
  : result CursorPosition.t :=
  let* pos := rightPosition rule model lineNumber column in
  Ok (CursorPosition.mk (Position.lineNumber pos) (Position.column pos) 0).

Definition moveRight (rule : strings.CharacterRule)
    (config : CursorConfiguration)
    (model : ICursorSimpleModel) (cursor : SingleCursorState.t)
    (inSelectionMode : bool) (noOfColumns : Z)
  : result SingleCursorState.t :=
  let* target :=
    if SingleCursorState.hasSelection cursor && negb inSelectionMode then
      Ok (Position.mk
            (Selection.endLineNumber (SingleCursorState.selection cursor))
            (Selection.endColumn (SingleCursorState.selection cursor)))
    else
      let* r := right rule config model
                  (Position.lineNumber (SingleCursorState.position cursor))
                  (Position.column (SingleCursorState.position cursor)
                   + (noOfColumns - 1)) in
      Ok (Position.mk (CursorPosition.lineNumber r)
                      (CursorPosition.column r)) in
  Ok (SingleCursorState.move cursor inSelectionMode
        (Position.lineNumber target) (Position.column target) 0 false).

Definition down (config : CursorConfiguration)
    (model : ICursorSimpleModel)
    (lineNumber column leftoverVisibleColumns count : Z)
    (allowMoveOnLastLine : bool) : result CursorPosition.t :=
  let* lineContent := Model.getLineContent model lineNumber in
  let currentVisibleColumn :=
    CursorColumns.visibleColumnFromColumn lineContent column
      (tabSize config) + leftoverVisibleColumns in
  let lineNumber := lineNumber + count in
  let lineCount := Model.getLineCount model in
  let* target :=
    if lineNumber >? lineCount then
      let lineNumber := lineCount in
      if allowMoveOnLastLine then
        let* maxColumn := Model.getLineMaxColumn model lineNumber in
        Ok (Position.mk lineNumber maxColumn)
      else
        let* maxColumn := Model.getLineMaxColumn model lineNumber in
        Ok (Position.mk lineNumber (Z.min maxColumn column))
    else
      let* column := CursorColumns.columnFromVisibleColumn2 config model
                       lineNumber currentVisibleColumn in
      Ok (Position.mk lineNumber column) in
  let lineNumber := Position.lineNumber target in
  let column := Position.column target in
  let* lineContent := Model.getLineContent model lineNumber in
  let leftoverVisibleColumns :=
    currentVisibleColumn
    - CursorColumns.visibleColumnFromColumn lineContent column
        (tabSize config) in
  Ok (CursorPosition.mk lineNumber column leftoverVisibleColumns).

Definition moveDown (config : CursorConfiguration)
    (model : ICursorSimpleModel) (cursor : SingleCursorState.t)
    (inSelectionMode : bool) (linesCount : Z)
  : result SingleCursorState.t :=
  let start :=
    if SingleCursorState.hasSelection cursor && negb inSelectionMode then
      Position.mk
        (Selection.endLineNumber (SingleCursorState.selection cursor))
        (Selection.endColumn (SingleCursorState.selection cursor))
    else SingleCursorState.position cursor in
  let lineNumber := Position.lineNumber start in
  let* column :=
    if SingleCursorState.isEnd cursor
    then Model.getLineMaxColumn model (lineNumber + 1)
    else Ok (Position.column start) in
  let* r := down config model lineNumber column
              (SingleCursorState.leftoverVisibleColumns cursor)
              linesCount true in
  Ok (SingleCursorState.move cursor inSelectionMode
        (CursorPosition.lineNumber r)
        (if SingleCursorState.isEnd cursor
         then column else CursorPosition.column r)
        (CursorPosition.leftoverVisibleColumns r)
        (SingleCursorState.isEnd cursor)).

Definition translateDown (config : CursorConfiguration)
    (model : ICursorSimpleModel) (cursor : SingleCursorState.t)
  : result SingleCursorState.t :=
  let selection := SingleCursorState.selection cursor in
  let* selectionStart :=
    down config model
      (Selection.selectionStartLineNumber selection)
      (Selection.selectionStartColumn selection)
      (SingleCursorState.selectionStartLeftoverVisibleColumns cursor)
      1 false in
  let* position :=
    down config model
      (Selection.positionLineNumber selection)
      (Selection.positionColumn selection)
      (SingleCursorState.leftoverVisibleColumns cursor)
      1 false in
  Ok (SingleCursorState.mk
        (Position.mk (CursorPosition.lineNumber selectionStart)
                     (CursorPosition.column selectionStart))
        (CursorPosition.leftoverVisibleColumns selectionStart)
        (Position.mk (CursorPosition.lineNumber position)
                     (CursorPosition.column position))
        (CursorPosition.leftoverVisibleColumns position)
        false).

Definition up (config : CursorConfiguration)
    (model : ICursorSimpleModel)
    (lineNumber column leftoverVisibleColumns count : Z)
    (allowMoveOnFirstLine : bool) : result CursorPosition.t :=
  let* lineContent := Model.getLineContent model lineNumber in
  let currentVisibleColumn :=
    CursorColumns.visibleColumnFromColumn lineContent column
      (tabSize config) + leftoverVisibleColumns in
  let lineNumber := lineNumber - count in
  let* target :=
    if lineNumber <? 1 then
      let lineNumber := 1 in
      if allowMoveOnFirstLine then
        let* minColumn := Model.getLineMinColumn model lineNumber in
        Ok (Position.mk lineNumber minColumn)
      else
        let* maxColumn := Model.getLineMaxColumn model lineNumber in
        Ok (Position.mk lineNumber (Z.min maxColumn column))
    else
      let* column := CursorColumns.columnFromVisibleColumn2 config model
                       lineNumber currentVisibleColumn in
      Ok (Position.mk lineNumber column) in
  let lineNumber := Position.lineNumber target in
  let column := Position.column target in
  let* lineContent := Model.getLineContent model lineNumber in
  let leftoverVisibleColumns :=
    currentVisibleColumn
    - CursorColumns.visibleColumnFromColumn lineContent column
        (tabSize config) in
  Ok (CursorPosition.mk lineNumber column leftoverVisibleColumns).

Definition moveUp (config : CursorConfiguration)
    (model : ICursorSimpleModel) (cursor : SingleCursorState.t)
    (inSelectionMode : bool) (linesCount : Z)
  : result SingleCursorState.t :=
  let start :=
    if SingleCursorState.hasSelection cursor && negb inSelectionMode then
      Position.mk
        (Selection.startLineNumber (SingleCursorState.selection cursor))
        (Selection.startColumn (SingleCursorState.selection cursor))
    else SingleCursorState.position cursor in
  let lineNumber := Position.lineNumber start in
  let* column :=
    if SingleCursorState.isEnd cursor
    then Model.getLineMaxColumn model (lineNumber - 1)
    else Ok (Position.column start) in
  let* r := up config model lineNumber column
              (SingleCursorState.leftoverVisibleColumns cursor)
              linesCount true in
  Ok (SingleCursorState.move cursor inSelectionMode
        (CursorPosition.lineNumber r)
        (if SingleCursorState.isEnd cursor
         then column else CursorPosition.column r)
        (CursorPosition.leftoverVisibleColumns r)
        (SingleCursorState.isEnd cursor)).

Definition translateUp (config : CursorConfiguration)
    (model : ICursorSimpleModel) (cursor : SingleCursorState.t)
  : result SingleCursorState.t :=
  let selection := SingleCursorState.selection cursor in
  let* selectionStart :=
    up config model
      (Selection.selectionStartLineNumber selection)
      (Selection.selectionStartColumn selection)
      (SingleCursorState.selectionStartLeftoverVisibleColumns cursor)
      1 false in
  let* position :=
    up config model
      (Selection.positionLineNumber selection)
      (Selection.positionColumn selection)
      (SingleCursorState.leftoverVisibleColumns cursor)
      1 false in
  Ok (SingleCursorState.mk
        (Position.mk (CursorPosition.lineNumber selectionStart)
                     (CursorPosition.column selectionStart))
        (CursorPosition.leftoverVisibleColumns selectionStart)
        (Position.mk (CursorPosition.lineNumber position)
                     (CursorPosition.column position))
        (CursorPosition.leftoverVisibleColumns position)
        false).

Definition moveToBeginningOfLine (config : CursorConfiguration)
    (model : ICursorSimpleModel) (cursor : SingleCursorState.t)
    (inSelectionMode : bool) : result SingleCursorState.t :=
  let lineNumber := Position.lineNumber (SingleCursorState.position cursor) in
  let* minColumn := Model.getLineMinColumn model lineNumber in
  let* firstNonWhitespaceColumn :=
    Model.getLineFirstNonWhitespaceColumn model lineNumber in
  let firstNonBlankColumn := orElse firstNonWhitespaceColumn minColumn in
  let relevantColumnNumber :=
    Position.column (SingleCursorState.position cursor) in
  let column :=
    if relevantColumnNumber =? firstNonBlankColumn
    then minColumn else firstNonBlankColumn in
  Ok (SingleCursorState.move cursor inSelectionMode lineNumber column 0
        false).

Definition moveToEndOfLine (config : CursorConfiguration)
    (model : ICursorSimpleModel) (cursor : SingleCursorState.t)
    (inSelectionMode : bool) : result SingleCursorState.t :=
  let lineNumber := Position.lineNumber (SingleCursorState.position cursor) in
  let* maxColumn := Model.getLineMaxColumn model lineNumber in
  Ok (SingleCursorState.move cursor inSelectionMode lineNumber maxColumn 0
        true).

Definition moveToBeginningOfBuffer (config : CursorConfiguration)
    (model : ICursorSimpleModel) (cursor : SingleCursorState.t)
    (inSelectionMode : bool) : result SingleCursorState.t :=
  Ok (SingleCursorState.move cursor inSelectionMode 1 1 0 false).

Definition moveToEndOfBuffer (config : CursorConfiguration)
    (model : ICursorSimpleModel) (cursor : SingleCursorState.t)
    (inSelectionMode : bool) : result SingleCursorState.t :=
  let lastLineNumber := Model.getLineCount model in
  let* lastColumn := Model.getLineMaxColumn model lastLineNumber in
  Ok (SingleCursorState.move cursor inSelectionMode lastLineNumber
        lastColumn 0 false).

End MoveOperations.

(* ===================================================================== *)
(** ** Vocabulary of the statements *)

(** The text of line [lineNumber], for a line number inside the buffer. *)
Definition lineText (model : ICursorSimpleModel) (lineNumber : Z) : JSString :=
  nth (Z.to_nat (lineNumber - 1)) model [].

Definition validLine (model : ICursorSimpleModel) (lineNumber : Z) : bool :=
  (1 <=? lineNumber) && (lineNumber <=? Model.getLineCount model).

Definition maxColumnOf (model : ICursorSimpleModel) (lineNumber : Z) : Z :=
  strlen (lineText model lineNumber) + 1.

(** Section 3: a position is valid when its line is in the buffer and its
    column lies between the min and the max column of that line. *)
Definition validPosition (model : ICursorSimpleModel) (p : Position.t) : bool :=
  validLine model (Position.lineNumber p)
  && (1 <=? Position.column p)
  && (Position.column p <=? maxColumnOf model (Position.lineNumber p)).

Definition isBufferStart (p : Position.t) : bool :=
  Position.equals p (Position.mk 1 1).

Definition isBufferEnd (model : ICursorSimpleModel) (p : Position.t) : bool :=
  Position.equals p
    (Position.mk (Model.getLineCount model)
                 (maxColumnOf model (Model.getLineCount model))).

(** [column] lies strictly inside a logical character of [str]: the code
    unit after it continues the character of the code unit before it. *)
Definition insideCharacter (rule : strings.CharacterRule) (str : JSString)
    (column : Z) : bool :=
  strings.continuesAt rule str (column - 1).


(** A bare caret at [p]: no selection, no leftover, not sticky. *)
Definition caretAt (p : Position.t) : SingleCursorState.t :=
  SingleCursorState.mk p 0 p 0 false.

(** The position a vertical caret move starts from: the near boundary of
    the selection for a plain move over a selection, the floating end
    otherwise. *)
Definition moveDownStart (cursor : SingleCursorState.t)
    (inSelectionMode : bool) : Position.t :=
  if SingleCursorState.hasSelection cursor && negb inSelectionMode
  then Selection.getEndPosition (SingleCursorState.selection cursor)
  else SingleCursorState.position cursor.

Definition moveUpStart (cursor : SingleCursorState.t)
    (inSelectionMode : bool) : Position.t :=
  if SingleCursorState.hasSelection cursor && negb inSelectionMode
  then Selection.getStartPosition (SingleCursorState.selection cursor)
  else SingleCursorState.position cursor.



(** The first non-blank column of a line, its min column when the line is
    blank. *)
Definition firstNonBlankColumnOf (text : JSString) : Z :=
  match strings.firstNonWhitespaceIndex text with
  | Some index => index + 1
  | None => 1
  end.

Definition leftoversNonNegative (cursor : SingleCursorState.t) : Prop :=
  0 <= SingleCursorState.leftoverVisibleColumns cursor
  /\ 0 <= SingleCursorState.selectionStartLeftoverVisibleColumns cursor.

(** The operations of section 6, as commands on a cursor state. *)
Inductive Command : Type :=
| MoveLeft (inSelectionMode : bool) (noOfColumns : Z)
| MoveRight (inSelectionMode : bool) (noOfColumns : Z)
| MoveDown (inSelectionMode : bool) (linesCount : Z)
| TranslateDown
| MoveUp (inSelectionMode : bool) (linesCount : Z)
| TranslateUp
| MoveToBeginningOfLine (inSelectionMode : bool)
| MoveToEndOfLine (inSelectionMode : bool)
| MoveToBeginningOfBuffer (inSelectionMode : bool)
| MoveToEndOfBuffer (inSelectionMode : bool).

Definition execute (rule : strings.CharacterRule)
    (config : CursorConfiguration)
    (model : ICursorSimpleModel) (cursor : SingleCursorState.t)
    (command : Command) : result SingleCursorState.t :=
  match command with
  | MoveLeft sel n => MoveOperations.moveLeft rule config model cursor sel n
  | MoveRight sel n =>
      MoveOperations.moveRight rule config model cursor sel n
  | MoveDown sel n => MoveOperations.moveDown config model cursor sel n
  | TranslateDown => MoveOperations.translateDown config model cursor
  | MoveUp sel n => MoveOperations.moveUp config model cursor sel n
  | TranslateUp => MoveOperations.translateUp config model cursor
  | MoveToBeginningOfLine sel =>
      MoveOperations.moveToBeginningOfLine config model cursor sel
  | MoveToEndOfLine sel =>
      MoveOperations.moveToEndOfLine config model cursor sel
  | MoveToBeginningOfBuffer sel =>
      MoveOperations.moveToBeginningOfBuffer config model cursor sel
  | MoveToEndOfBuffer sel =>
      MoveOperations.moveToEndOfBuffer config model cursor sel
  end.

(** The command is a [moveDown] whose target line lies below the last
    line, so that the step clamps and snaps to the end of the last line. *)
Definition clampsAtLastLine (model : ICursorSimpleModel)
    (cursor : SingleCursorState.t) (command : Command) : bool :=
  match command with
  | MoveDown sel n =>
      Model.getLineCount model
      <? Position.lineNumber (moveDownStart cursor sel) + n
  | _ => false
  end.

(** Vertical steps of the core algorithm, each with its policy flag. *)
Inductive VerticalStep : Type :=
| StepDown (count : Z) (allowMoveOnLastLine : bool)
| StepUp (count : Z) (allowMoveOnFirstLine : bool).

Definition verticalStep (config : CursorConfiguration)
    (model : ICursorSimpleModel) (p : CursorPosition.t) (step : VerticalStep)
  : result CursorPosition.t :=
  match step with
  | StepDown count allow =>
      MoveOperations.down config model (CursorPosition.lineNumber p)
        (CursorPosition.column p) (CursorPosition.leftoverVisibleColumns p)
        count allow
  | StepUp count allow =>
      MoveOperations.up config model (CursorPosition.lineNumber p)
        (CursorPosition.column p) (CursorPosition.leftoverVisibleColumns p)
        count allow
  end.

Fixpoint verticalSteps (config : CursorConfiguration)
    (model : ICursorSimpleModel) (p : CursorPosition.t)
    (steps : list VerticalStep) : result CursorPosition.t :=
  match steps with
  | [] => Ok p
  | step :: rest =>
      let* q := verticalStep config model p step in
      verticalSteps config model q rest
  end.

Definition targetLine (l : Z) (step : VerticalStep) : Z :=
  match step with
  | StepDown count _ => l + count
  | StepUp count _ => l - count
  end.

Definition finalLine (l : Z) (steps : list VerticalStep) : Z :=
  fold_left targetLine steps l.

(** Every step of [steps], taken from line [l], reaches its target line
    inside the buffer, without clamping. *)
Fixpoint staysInBuffer (model : ICursorSimpleModel) (l : Z)
    (steps : list VerticalStep) : bool :=
  match steps with
  | [] => true
  | step :: rest =>
      validLine model (targetLine l step)
      && staysInBuffer model (targetLine l step) rest
  end.

(** Where a vertical step that is not clamped lands on line [l] when the
    desired visible column is [visibleColumn]. *)
Definition landing (config : CursorConfiguration)
    (model : ICursorSimpleModel) (l visibleColumn : Z) : CursorPosition.t :=
  let column :=
    CursorColumns.columnFromVisibleColumn (lineText model l) visibleColumn
      (tabSize config) in
  CursorPosition.mk l column
    (visibleColumn
     - CursorColumns.visibleColumnFromColumn (lineText model l) column
         (tabSize config)).

(* ===================================================================== *)
(** ** Sample buffers *)

Definition tab4 : CursorConfiguration := mkCursorConfiguration 4.

Definition chr_a : Z := 97.

(** A one-line buffer ["a"]. *)
Definition bufferSingle : ICursorSimpleModel := [[chr_a]].

(** Lines of varying length: ["a"; "aaa"; "a"]. *)
Definition bufferVarying : ICursorSimpleModel :=
  [[chr_a]; [chr_a; chr_a; chr_a]; [chr_a]].

(** Two lines ["aa"; "aa"]. *)
Definition bufferTwoLines : ICursorSimpleModel :=
  [[chr_a; chr_a]; [chr_a; chr_a]].

(** One line holding "a" and U+1F600, a surrogate pair. *)
Definition bufferSurrogate : ICursorSimpleModel :=
  [[chr_a; 0xD83D; 0xDE00]].

(** The line "   hello". *)
Definition bufferHello : ICursorSimpleModel :=
  [[32; 32; 32; 104; 101; 108; 108; 111]].

(** ["aaaaaa"; "a"; "<tab><tab>aa"]. *)
Definition bufferTabs : ICursorSimpleModel :=
  [[chr_a; chr_a; chr_a; chr_a; chr_a; chr_a]; [chr_a];
   [CharCode.Tab; CharCode.Tab; chr_a; chr_a]].

(** Three lines "aaaa". *)
Definition bufferFourAs : ICursorSimpleModel :=
  [[chr_a; chr_a; chr_a; chr_a]; [chr_a; chr_a; chr_a; chr_a];
   [chr_a; chr_a; chr_a; chr_a]].

(** One line holding "e", the combining acute accent U+0301 and "x". *)
Definition bufferAccent : ICursorSimpleModel := [[101; 0x301; 120]].

(** A rule under which, besides the surrogate pairs, the combining
    diacritical marks U+0300 to U+036F continue the character before
    them. *)
Definition pairsAndAccents : strings.CharacterRule :=
  fun str index =>
    strings.surrogatePairs str index
    || match charCodeAt str index with
       | Some charCode => (0x300 <=? charCode) && (charCode <=? 0x36F)
       | None => false
       end.

(** A sticky caret, as [moveToEndOfLine] leaves it. *)
Definition stickyCaretAt (p : Position.t) : SingleCursorState.t :=
  SingleCursorState.mk p 0 p 0 true.

(* ===================================================================== *)
(** ** Further vocabulary: order, flags and repeated moves *)

(** [a] comes strictly before [b] in the buffer. *)
Definition Position_isBefore (a b : Position.t) : bool :=
  (Position.lineNumber a <? Position.lineNumber b)
  || ((Position.lineNumber a =? Position.lineNumber b)
      && (Position.column a <? Position.column b)).

(** The extend-selection flag a command is called with; the two translate
    commands take none. *)
Definition selectionModeOf (command : Command) : option bool :=
  match command with
  | MoveLeft sel _ | MoveRight sel _ | MoveDown sel _ | MoveUp sel _
  | MoveToBeginningOfLine sel | MoveToEndOfLine sel
  | MoveToBeginningOfBuffer sel | MoveToEndOfBuffer sel => Some sel
  | TranslateDown | TranslateUp => None
  end.

(** [moveDown] (respectively [moveUp]) by one line, [n] times in a row. *)
Fixpoint moveDownTimes (config : CursorConfiguration)
    (model : ICursorSimpleModel) (n : nat) (inSelectionMode : bool)
    (cursor : SingleCursorState.t) : result SingleCursorState.t :=
  match n with
  | O => Ok cursor
  | S n' =>
      let* next := MoveOperations.moveDown config model cursor
                     inSelectionMode 1 in
      moveDownTimes config model n' inSelectionMode next
  end.

Fixpoint moveUpTimes (config : CursorConfiguration)
    (model : ICursorSimpleModel) (n : nat) (inSelectionMode : bool)
    (cursor : SingleCursorState.t) : result SingleCursorState.t :=
  match n with
  | O => Ok cursor
  | S n' =>
      let* next := MoveOperations.moveUp config model cursor
                     inSelectionMode 1 in
      moveUpTimes config model n' inSelectionMode next
  end.

(** The anchor and the floating end are both valid positions. *)
Definition wellFormed (model : ICursorSimpleModel)
    (cursor : SingleCursorState.t) : bool :=
  validPosition model (SingleCursorState.selectionStart cursor)
  && validPosition model (SingleCursorState.position cursor).

(** Single-character horizontal moves, and vertical caret moves by a
    count that is not negative of a cursor that is not sticky; the other
    commands take no count. *)
Definition singleStepCommand (cursor : SingleCursorState.t)
    (command : Command) : bool :=
  match command with
  | MoveLeft _ n | MoveRight _ n => n =? 1
  | MoveDown _ n | MoveUp _ n =>
      negb (SingleCursorState.isEnd cursor) && (0 <=? n)
  | _ => true
  end.

(** A selection from (1,2) to (3,1) on [bufferTabs], floating end last. *)
Definition selectionOnTabs : SingleCursorState.t :=
  SingleCursorState.mk (Position.mk 1 2) 0 (Position.mk 3 1) 0 false.

(* ===================================================================== *)
(** ** The buffer accessors on valid and invalid line numbers *)

Lemma validLine_bounds model l :
  validLine model l = true <-> 1 <= l <= Model.getLineCount model.
Proof. unfold validLine. rewrite andb_true_iff. lia. Qed.

Lemma getLineContent_valid model l :
  validLine model l = true ->
  Model.getLineContent model l = Ok (lineText model l).
Proof.
  intros H. unfold Model.getLineContent. fold (validLine model l). rewrite H.
  apply validLine_bounds in H. unfold Model.getLineCount in H.
  destruct (nth_error model (Z.to_nat (l - 1))) as [text|] eqn:E.
  - unfold lineText. now rewrite (nth_error_nth _ _ _ E).
  - apply nth_error_None in E. lia.
Qed.

Lemma getLineContent_invalid model l :
  validLine model l = false ->
  Model.getLineContent model l = Throw (IllegalLineNumber l).
Proof.
  intros H. unfold Model.getLineContent. fold (validLine model l).
  now rewrite H.
Qed.

Lemma getLineMaxColumn_valid model l :
  validLine model l = true ->
  Model.getLineMaxColumn model l = Ok (maxColumnOf model l).
Proof.
  intros H. unfold Model.getLineMaxColumn.
  now rewrite (getLineContent_valid _ _ H).
Qed.

Lemma getLineMaxColumn_invalid model l :
  validLine model l = false ->
  Model.getLineMaxColumn model l = Throw (IllegalLineNumber l).
Proof.
  intros H. unfold Model.getLineMaxColumn.
  now rewrite (getLineContent_invalid _ _ H).
Qed.

Lemma getLineMinColumn_valid model l :
  validLine model l = true -> Model.getLineMinColumn model l = Ok 1.
Proof.
  intros H. unfold Model.getLineMinColumn.
  now rewrite (getLineContent_valid _ _ H).
Qed.

Lemma validLine_false_above model l :
  Model.getLineCount model < l -> validLine model l = false.
Proof. intros H. unfold validLine. apply andb_false_iff. lia. Qed.

Lemma validLine_false_below model l : l < 1 -> validLine model l = false.
Proof. intros H. unfold validLine. apply andb_false_iff. lia. Qed.

Lemma maxColumnOf_pos model l : 1 <= maxColumnOf model l.
Proof. unfold maxColumnOf, strlen. lia. Qed.

Ltac line_ok :=
  repeat first
    [ rewrite getLineContent_valid by (apply validLine_bounds; lia)
    | rewrite getLineMaxColumn_valid by (apply validLine_bounds; lia)
    | rewrite getLineMinColumn_valid by (apply validLine_bounds; lia) ];
  cbn [bind].

(* ===================================================================== *)
(** ** Sticky end-of-line and the vertical caret moves *)

Lemma down_unclamped config model l column leftover count allow :
  validLine model l = true ->
  validLine model (l + count) = true ->
  MoveOperations.down config model l column leftover count allow =
  let current :=
    CursorColumns.visibleColumnFromColumn (lineText model l) column
      (tabSize config) + leftover in
  let* target := CursorColumns.columnFromVisibleColumn2 config model
                   (l + count) current in
  Ok (CursorPosition.mk (l + count) target
        (current - CursorColumns.visibleColumnFromColumn
                     (lineText model (l + count)) target (tabSize config))).
Proof.
  intros Hl Hc. unfold MoveOperations.down.
  rewrite (getLineContent_valid _ _ Hl). cbn [bind].
  apply validLine_bounds in Hc.
  replace (l + count >? Model.getLineCount model) with false
    by (symmetry; rewrite Z.gtb_ltb; apply Z.ltb_ge; lia).
  destruct (CursorColumns.columnFromVisibleColumn2 _ _ _ _) as [c|e];
    cbn [bind Position.lineNumber Position.column]; [|reflexivity].
  now line_ok.
Qed.

Lemma up_unclamped config model l column leftover count allow :
  validLine model l = true ->
  validLine model (l - count) = true ->
  MoveOperations.up config model l column leftover count allow =
  let current :=
    CursorColumns.visibleColumnFromColumn (lineText model l) column
      (tabSize config) + leftover in
  let* target := CursorColumns.columnFromVisibleColumn2 config model
                   (l - count) current in
  Ok (CursorPosition.mk (l - count) target
        (current - CursorColumns.visibleColumnFromColumn
                     (lineText model (l - count)) target (tabSize config))).
Proof.
  intros Hl Hc. unfold MoveOperations.up.
  rewrite (getLineContent_valid _ _ Hl). cbn [bind].
  apply validLine_bounds in Hc.
  replace (l - count <? 1) with false by (symmetry; apply Z.ltb_ge; lia).
  destruct (CursorColumns.columnFromVisibleColumn2 _ _ _ _) as [c|e];
    cbn [bind Position.lineNumber Position.column]; [|reflexivity].
  now line_ok.
Qed.

Lemma columnFromVisibleColumn2_returns config model l visibleColumn :
  validLine model l = true ->
  exists c,
    CursorColumns.columnFromVisibleColumn2 config model l visibleColumn
    = Ok c.
Proof.
  intros Hl. unfold CursorColumns.columnFromVisibleColumn2.
  rewrite (getLineContent_valid _ _ Hl), (getLineMinColumn_valid _ _ Hl),
    (getLineMaxColumn_valid _ _ Hl). cbn [bind].
  destruct (_ <? 1); [eauto|]. destruct (_ >? _); eauto.
Qed.

Lemma moveDown_start_eq cursor inSelectionMode :
  (if SingleCursorState.hasSelection cursor && negb inSelectionMode
   then Position.mk
          (Selection.endLineNumber (SingleCursorState.selection cursor))
          (Selection.endColumn (SingleCursorState.selection cursor))
   else SingleCursorState.position cursor)
  = moveDownStart cursor inSelectionMode.
Proof.
  unfold moveDownStart, Selection.endLineNumber, Selection.endColumn.
  destruct (_ && _); [|reflexivity].
  now destruct (Selection.getEndPosition _).
Qed.

Lemma moveUp_start_eq cursor inSelectionMode :
  (if SingleCursorState.hasSelection cursor && negb inSelectionMode
   then Position.mk
          (Selection.startLineNumber (SingleCursorState.selection cursor))
          (Selection.startColumn (SingleCursorState.selection cursor))
   else SingleCursorState.position cursor)
  = moveUpStart cursor inSelectionMode.
Proof.
  unfold moveUpStart, Selection.startLineNumber, Selection.startColumn.
  destruct (_ && _); [|reflexivity].
  now destruct (Selection.getStartPosition _).
Qed.

Lemma position_of_move cursor inSelectionMode l c leftover sticky :
  SingleCursorState.position
    (SingleCursorState.move cursor inSelectionMode l c leftover sticky)
  = Position.mk l c.
Proof. unfold SingleCursorState.move. now destruct inSelectionMode. Qed.

Lemma isEnd_of_move cursor inSelectionMode l c leftover sticky :
  SingleCursorState.isEnd
    (SingleCursorState.move cursor inSelectionMode l c leftover sticky)
  = sticky.
Proof. unfold SingleCursorState.move. now destruct inSelectionMode. Qed.

Lemma leftover_of_move cursor inSelectionMode l c leftover sticky :
  SingleCursorState.leftoverVisibleColumns
    (SingleCursorState.move cursor inSelectionMode l c leftover sticky)
  = leftover.
Proof. unfold SingleCursorState.move. now destruct inSelectionMode. Qed.

Lemma Position_equals_refl p : Position.equals p p = true.
Proof. unfold Position.equals. now rewrite !Z.eqb_refl. Qed.

Lemma moveStart_of_plain_move cursor l c leftover sticky sel :
  moveDownStart (SingleCursorState.move cursor false l c leftover sticky) sel
  = Position.mk l c
  /\ moveUpStart (SingleCursorState.move cursor false l c leftover sticky) sel
     = Position.mk l c.
Proof.
  unfold moveDownStart, moveUpStart, SingleCursorState.hasSelection.
  cbn. now rewrite Position_equals_refl.
Qed.

(** C1 (as amended).  For a sticky cursor whose starting line [l] has a
    line below it, [moveDown] by one line takes as its column the max
    column of line [l + 1], the destination, not of the line the cursor
    occupies; it returns exactly that column on line [l + 1] and the cursor
    stays sticky.  Symmetrically [moveUp] by one line uses and returns the
    max column of line [l - 1]. *)
Theorem sticky_single_line_move_lands_on_destination_max_column :
  forall config model cursor inSelectionMode,
    SingleCursorState.isEnd cursor = true ->
    (let l := Position.lineNumber (moveDownStart cursor inSelectionMode) in
     validLine model l = true -> validLine model (l + 1) = true ->
     exists cursor',
       MoveOperations.moveDown config model cursor inSelectionMode 1
       = Ok cursor'
       /\ SingleCursorState.position cursor'
          = Position.mk (l + 1) (maxColumnOf model (l + 1))
       /\ SingleCursorState.isEnd cursor' = true)
    /\
    (let l := Position.lineNumber (moveUpStart cursor inSelectionMode) in
     validLine model l = true -> validLine model (l - 1) = true ->
     exists cursor',
       MoveOperations.moveUp config model cursor inSelectionMode 1
       = Ok cursor'
       /\ SingleCursorState.position cursor'
          = Position.mk (l - 1) (maxColumnOf model (l - 1))
       /\ SingleCursorState.isEnd cursor' = true).
Proof.
  intros config model cursor inSelectionMode Hsticky. split.
  - intros l Hl Hnext. unfold MoveOperations.moveDown.
    rewrite moveDown_start_eq. fold l. rewrite Hsticky.
    rewrite (getLineMaxColumn_valid _ _ Hnext). cbn [bind].
    rewrite (down_unclamped _ _ _ _ _ _ _ Hl Hnext). cbn zeta.
    destruct (columnFromVisibleColumn2_returns config model (l + 1)
                (CursorColumns.visibleColumnFromColumn (lineText model l)
                   (maxColumnOf model (l + 1)) (tabSize config)
                 + SingleCursorState.leftoverVisibleColumns cursor) Hnext)
      as [c ->]. cbn [bind].
    eexists. split; [reflexivity|].
    now rewrite position_of_move, isEnd_of_move.
  - intros l Hl Hprev. unfold MoveOperations.moveUp.
    rewrite moveUp_start_eq. fold l. rewrite Hsticky.
    rewrite (getLineMaxColumn_valid _ _ Hprev). cbn [bind].
    rewrite (up_unclamped _ _ _ _ _ _ _ Hl Hprev). cbn zeta.
    destruct (columnFromVisibleColumn2_returns config model (l - 1)
                (CursorColumns.visibleColumnFromColumn (lineText model l)
                   (maxColumnOf model (l - 1)) (tabSize config)
                 + SingleCursorState.leftoverVisibleColumns cursor) Hprev)
      as [c ->]. cbn [bind].
    eexists. split; [reflexivity|].
    now rewrite position_of_move, isEnd_of_move.
Qed.

Lemma sticky_single_line_move_witness :
  SingleCursorState.isEnd (stickyCaretAt (Position.mk 2 4)) = true
  /\ validLine bufferVarying 2 = true
  /\ validLine bufferVarying 3 = true
  /\ validLine bufferVarying 1 = true
  /\ (exists cursor',
        MoveOperations.moveDown tab4 bufferVarying
          (stickyCaretAt (Position.mk 2 4)) false 1 = Ok cursor'
        /\ SingleCursorState.position cursor' = Position.mk 3 2
        /\ SingleCursorState.isEnd cursor' = true)
  /\ (exists cursor',
        MoveOperations.moveUp tab4 bufferVarying
          (stickyCaretAt (Position.mk 2 4)) false 1 = Ok cursor'
        /\ SingleCursorState.position cursor' = Position.mk 1 2
        /\ SingleCursorState.isEnd cursor' = true).
Proof.
  destruct (sticky_single_line_move_lands_on_destination_max_column
              tab4 bufferVarying (stickyCaretAt (Position.mk 2 4)) false
              eq_refl) as [Hdown Hup].
  split; [reflexivity|]. split; [reflexivity|]. split; [reflexivity|].
  split; [reflexivity|]. split.
  - exact (Hdown eq_refl eq_refl).
  - exact (Hup eq_refl eq_refl).
Defined.

(** C1 as stated fails: the sticky caret at the end of line 1 of
    ["a"; "aaa"; "a"] moves down one line, unclamped, to column 4, the max
    column of line 2, while the max column of the line it occupied is 2. *)
Lemma sticky_moveDown_column_is_not_current_line_max_column :
  exists cursor',
    MoveOperations.moveDown tab4 bufferVarying
      (stickyCaretAt (Position.mk 1 2)) false 1 = Ok cursor'
    /\ SingleCursorState.isEnd cursor' = true
    /\ Position.column (SingleCursorState.position cursor')
       <> maxColumnOf bufferVarying 1.
Proof.
  eexists. split; [reflexivity|]. split; [reflexivity|].
  vm_compute. discriminate.
Qed.

(** C2 (the code at the failing input).  On ["a"; "aaa"; "a"],
    [moveToEndOfLine] from (1,1) gives the sticky caret (1,2) with leftover
    0; [moveDown] by two lines from it reaches line 3 without clamping but
    returns column 4, the max column of line 2, although line 3 ends at
    column 2. *)
Theorem sticky_moveDown_two_lines_misses_landing_line_end :
  MoveOperations.moveToEndOfLine tab4 bufferVarying
    (caretAt (Position.mk 1 1)) false
  = Ok (stickyCaretAt (Position.mk 1 2))
  /\ MoveOperations.moveDown tab4 bufferVarying
       (stickyCaretAt (Position.mk 1 2)) false 2
     = Ok (stickyCaretAt (Position.mk 3 4))
  /\ maxColumnOf bufferVarying 3 = 2.
Proof. repeat split. Qed.

(** C3.  A sticky cursor whose starting line is the last line of the
    buffer makes [moveDown] ask the buffer for the max column of line
    [lineCount + 1], and one whose starting line is line 1 makes [moveUp]
    ask for line 0; both line numbers lie outside [1, lineCount] and the
    accessor throws.  The branch is reachable: from any cursor on the last
    (first) line, [moveToEndOfLine] followed by [moveDown] ([moveUp])
    throws. *)
Theorem sticky_vertical_move_queries_line_outside_buffer :
  forall config model cursor inSelectionMode linesCount,
    (SingleCursorState.isEnd cursor = true ->
     Position.lineNumber (moveDownStart cursor inSelectionMode)
     = Model.getLineCount model ->
     MoveOperations.moveDown config model cursor inSelectionMode linesCount
     = Throw (IllegalLineNumber (Model.getLineCount model + 1)))
    /\
    (SingleCursorState.isEnd cursor = true ->
     Position.lineNumber (moveUpStart cursor inSelectionMode) = 1 ->
     MoveOperations.moveUp config model cursor inSelectionMode linesCount
     = Throw (IllegalLineNumber 0))
    /\
    (1 <= Model.getLineCount model ->
     Position.lineNumber (SingleCursorState.position cursor)
     = Model.getLineCount model ->
     (let* sticky := MoveOperations.moveToEndOfLine config model cursor
                       false in
      MoveOperations.moveDown config model sticky false linesCount)
     = Throw (IllegalLineNumber (Model.getLineCount model + 1)))
    /\
    (1 <= Model.getLineCount model ->
     Position.lineNumber (SingleCursorState.position cursor) = 1 ->
     (let* sticky := MoveOperations.moveToEndOfLine config model cursor
                       false in
      MoveOperations.moveUp config model sticky false linesCount)
     = Throw (IllegalLineNumber 0)).
Proof.
  intros config model cursor inSelectionMode linesCount.
  assert (Hdown : forall c sel,
    SingleCursorState.isEnd c = true ->
    Position.lineNumber (moveDownStart c sel) = Model.getLineCount model ->
    MoveOperations.moveDown config model c sel linesCount
    = Throw (IllegalLineNumber (Model.getLineCount model + 1))).
  { intros c sel Hsticky Hlast. unfold MoveOperations.moveDown.
    rewrite moveDown_start_eq, Hsticky, Hlast.
    rewrite getLineMaxColumn_invalid; [reflexivity|].
    apply validLine_false_above. lia. }
  assert (Hup : forall c sel,
    SingleCursorState.isEnd c = true ->
    Position.lineNumber (moveUpStart c sel) = 1 ->
    MoveOperations.moveUp config model c sel linesCount
    = Throw (IllegalLineNumber 0)).
  { intros c sel Hsticky Hfirst. unfold MoveOperations.moveUp.
    rewrite moveUp_start_eq, Hsticky, Hfirst.
    rewrite getLineMaxColumn_invalid; [reflexivity|].
    apply validLine_false_below. lia. }
  split; [apply Hdown|]. split; [apply Hup|]. split.
  - intros Hlines Hlast. unfold MoveOperations.moveToEndOfLine.
    rewrite Hlast. line_ok. apply Hdown; [apply isEnd_of_move|].
    now rewrite (proj1 (moveStart_of_plain_move _ _ _ _ _ _)).
  - intros Hlines Hfirst. unfold MoveOperations.moveToEndOfLine.
    rewrite Hfirst. line_ok. apply Hup; [apply isEnd_of_move|].
    now rewrite (proj2 (moveStart_of_plain_move _ _ _ _ _ _)).
Qed.

Lemma sticky_vertical_move_queries_line_outside_buffer_witness :
  SingleCursorState.isEnd (stickyCaretAt (Position.mk 3 2)) = true
  /\ Position.lineNumber (moveDownStart (stickyCaretAt (Position.mk 3 2)) false)
     = Model.getLineCount bufferVarying
  /\ MoveOperations.moveDown tab4 bufferVarying
       (stickyCaretAt (Position.mk 3 2)) false 1
     = Throw (IllegalLineNumber 4)
  /\ SingleCursorState.isEnd (stickyCaretAt (Position.mk 1 2)) = true
  /\ Position.lineNumber (moveUpStart (stickyCaretAt (Position.mk 1 2)) false)
     = 1
  /\ MoveOperations.moveUp tab4 bufferVarying
       (stickyCaretAt (Position.mk 1 2)) false 1
     = Throw (IllegalLineNumber 0)
  /\ 1 <= Model.getLineCount bufferVarying
  /\ (let* sticky := MoveOperations.moveToEndOfLine tab4 bufferVarying
                        (caretAt (Position.mk 3 1)) false in
      MoveOperations.moveDown tab4 bufferVarying sticky false 1)
     = Throw (IllegalLineNumber 4)
  /\ (let* sticky := MoveOperations.moveToEndOfLine tab4 bufferVarying
                        (caretAt (Position.mk 1 1)) false in
      MoveOperations.moveUp tab4 bufferVarying sticky false 1)
     = Throw (IllegalLineNumber 0).
Proof.
  assert (Hlines : 1 <= Model.getLineCount bufferVarying)
    by (vm_compute; discriminate).
  split; [reflexivity|]. split; [reflexivity|]. split.
  { exact (proj1 (sticky_vertical_move_queries_line_outside_buffer
                    tab4 bufferVarying (stickyCaretAt (Position.mk 3 2))
                    false 1) eq_refl eq_refl). }
  split; [reflexivity|]. split; [reflexivity|]. split.
  { exact (proj1 (proj2 (sticky_vertical_move_queries_line_outside_buffer
                           tab4 bufferVarying
                           (stickyCaretAt (Position.mk 1 2)) false 1))
             eq_refl eq_refl). }
  split; [exact Hlines|]. split.
  { exact (proj1 (proj2 (proj2
             (sticky_vertical_move_queries_line_outside_buffer
                tab4 bufferVarying (caretAt (Position.mk 3 1)) false 1)))
             Hlines eq_refl). }
  exact (proj2 (proj2 (proj2
           (sticky_vertical_move_queries_line_outside_buffer
              tab4 bufferVarying (caretAt (Position.mk 1 1)) false 1)))
           Hlines eq_refl).
Defined.

(* ===================================================================== *)
(** ** Leaving a selection with a plain horizontal move *)

Lemma Position_eta p :
  Position.mk (Position.lineNumber p) (Position.column p) = p.
Proof. now destruct p. Qed.

(** C8.  When the cursor holds a non-empty selection, a non-extending
    [moveLeft] returns a bare caret at the selection's normalized start and
    a non-extending [moveRight] a bare caret at its normalized end,
    whatever the floating end and [noOfColumns] are. *)
Theorem plain_horizontal_move_collapses_selection :
  forall rule config model cursor noOfColumns,
    SingleCursorState.hasSelection cursor = true ->
    MoveOperations.moveLeft rule config model cursor false noOfColumns
    = Ok (caretAt (Selection.getStartPosition
                     (SingleCursorState.selection cursor)))
    /\ MoveOperations.moveRight rule config model cursor false noOfColumns
       = Ok (caretAt (Selection.getEndPosition
                        (SingleCursorState.selection cursor))).
Proof.
  intros rule config model cursor noOfColumns Hsel.
  unfold MoveOperations.moveLeft, MoveOperations.moveRight.
  rewrite Hsel. cbn [andb negb bind Position.lineNumber Position.column].
  unfold Selection.startLineNumber, Selection.startColumn,
    Selection.endLineNumber, Selection.endColumn, SingleCursorState.move,
    caretAt.
  now rewrite !Position_eta.
Qed.

Lemma plain_horizontal_move_collapses_selection_witness :
  SingleCursorState.hasSelection
    (SingleCursorState.mk (Position.mk 1 5) 0 (Position.mk 1 1) 0 false)
  = true
  /\ MoveOperations.moveLeft strings.surrogatePairs tab4 bufferHello
       (SingleCursorState.mk (Position.mk 1 5) 0 (Position.mk 1 1) 0 false)
       false 3
     = Ok (caretAt (Position.mk 1 1))
  /\ MoveOperations.moveRight strings.surrogatePairs tab4 bufferHello
       (SingleCursorState.mk (Position.mk 1 5) 0 (Position.mk 1 1) 0 false)
       false 3
     = Ok (caretAt (Position.mk 1 5)).
Proof.
  split; [reflexivity|].
  exact (plain_horizontal_move_collapses_selection strings.surrogatePairs tab4
           bufferHello
           (SingleCursorState.mk (Position.mk 1 5) 0 (Position.mk 1 1) 0
              false) 3 eq_refl).
Defined.

(* ===================================================================== *)
(** ** The first line as a boundary of the vertical step *)

(** C10.  For every [count >= 1] the vertical step [up] from line 1 stays
    on line 1; with the boundary-snap flag off the column is the given one
    bounded by the max column of line 1, with the flag on it is the min
    column.  The caret move [moveUp] of a cursor that is not sticky, which
    passes the flag on, therefore ends at (1, 1). *)
Theorem up_from_first_line_stays_on_first_line :
  forall config model column leftover count allowMoveOnFirstLine,
    1 <= count ->
    1 <= Model.getLineCount model ->
    (let column' :=
       if allowMoveOnFirstLine : bool then 1
       else Z.min (maxColumnOf model 1) column in
     MoveOperations.up config model 1 column leftover count
       allowMoveOnFirstLine
     = Ok (CursorPosition.mk 1 column'
             (CursorColumns.visibleColumnFromColumn (lineText model 1)
                column (tabSize config) + leftover
              - CursorColumns.visibleColumnFromColumn (lineText model 1)
                  column' (tabSize config))))
    /\
    (forall cursor inSelectionMode,
       SingleCursorState.isEnd cursor = false ->
       Position.lineNumber (moveUpStart cursor inSelectionMode) = 1 ->
       exists cursor',
         MoveOperations.moveUp config model cursor inSelectionMode count
         = Ok cursor'
         /\ SingleCursorState.position cursor' = Position.mk 1 1).
Proof.
  intros config model column leftover count allow Hcount Hlines.
  assert (Hup : forall col lo flag,
    MoveOperations.up config model 1 col lo count flag
    = Ok (CursorPosition.mk 1
            (if flag then 1 else Z.min (maxColumnOf model 1) col)
            (CursorColumns.visibleColumnFromColumn (lineText model 1)
               col (tabSize config) + lo
             - CursorColumns.visibleColumnFromColumn (lineText model 1)
                 (if flag then 1 else Z.min (maxColumnOf model 1) col)
                 (tabSize config)))).
  { intros col lo flag. unfold MoveOperations.up. line_ok.
    replace (1 - count <? 1) with true by (symmetry; apply Z.ltb_lt; lia).
    destruct flag; line_ok; cbn [Position.lineNumber Position.column];
      now line_ok. }
  split; [apply Hup|].
  intros cursor inSelectionMode Hsticky Hfirst.
  unfold MoveOperations.moveUp.
  rewrite moveUp_start_eq, Hsticky, Hfirst. cbn [bind].
  rewrite Hup. cbn [bind]. eexists. split; [reflexivity|].
  now rewrite position_of_move.
Qed.

Lemma up_from_first_line_stays_on_first_line_witness :
  1 <= 5 /\ 1 <= Model.getLineCount bufferVarying
  /\ MoveOperations.up tab4 bufferVarying 1 7 0 5 false
     = Ok (CursorPosition.mk 1 2 0)
  /\ MoveOperations.up tab4 bufferVarying 1 2 0 5 true
     = Ok (CursorPosition.mk 1 1 1)
  /\ SingleCursorState.isEnd (caretAt (Position.mk 1 2)) = false
  /\ Position.lineNumber (moveUpStart (caretAt (Position.mk 1 2)) false) = 1
  /\ (exists cursor',
        MoveOperations.moveUp tab4 bufferVarying (caretAt (Position.mk 1 2))
          false 5 = Ok cursor'
        /\ SingleCursorState.position cursor' = Position.mk 1 1).
Proof.
  assert (Hcount : 1 <= 5) by lia.
  assert (Hlines : 1 <= Model.getLineCount bufferVarying)
    by (vm_compute; discriminate).
  split; [exact Hcount|]. split; [exact Hlines|]. split.
  { exact (proj1 (up_from_first_line_stays_on_first_line tab4 bufferVarying
                    7 0 5 false Hcount Hlines)). }
  split.
  { exact (proj1 (up_from_first_line_stays_on_first_line tab4 bufferVarying
                    2 0 5 true Hcount Hlines)). }
  split; [reflexivity|]. split; [reflexivity|].
  exact (proj2 (up_from_first_line_stays_on_first_line tab4 bufferVarying
                  2 0 5 true Hcount Hlines)
           (caretAt (Position.mk 1 2)) false eq_refl eq_refl).
Defined.

(* ===================================================================== *)
(** ** Smart home *)

Lemma firstNonWhitespaceIndexFrom_lower str : forall i k,
  strings.firstNonWhitespaceIndexFrom str i = Some k -> i <= k.
Proof.
  induction str as [|chCode rest IH]; intros i k; cbn; [discriminate|].
  destruct (_ || _).
  - intros H. apply IH in H. lia.
  - intros [= <-]. lia.
Qed.

Lemma firstNonBlankColumnOf_pos text : 1 <= firstNonBlankColumnOf text.
Proof.
  unfold firstNonBlankColumnOf, strings.firstNonWhitespaceIndex.
  destruct (strings.firstNonWhitespaceIndexFrom text 0) as [k|] eqn:E;
    [|lia].
  apply firstNonWhitespaceIndexFrom_lower in E. lia.
Qed.

Lemma getLineFirstNonWhitespaceColumn_orElse model l :
  validLine model l = true ->
  (let* found := Model.getLineFirstNonWhitespaceColumn model l in
   Ok (orElse found 1))
  = Ok (firstNonBlankColumnOf (lineText model l)).
Proof.
  intros Hl. unfold Model.getLineFirstNonWhitespaceColumn.
  rewrite (getLineContent_valid _ _ Hl). cbn [bind].
  pose proof (firstNonBlankColumnOf_pos (lineText model l)) as Hpos.
  unfold firstNonBlankColumnOf in *.
  destruct (strings.firstNonWhitespaceIndex _) as [k|]; cbn [orElse];
    [|reflexivity].
  now replace (k + 1 =? 0) with false by (symmetry; apply Z.eqb_neq; lia).
Qed.

Lemma moveToBeginningOfLine_valid config model cursor inSelectionMode :
  let l := Position.lineNumber (SingleCursorState.position cursor) in
  let firstNonBlank := firstNonBlankColumnOf (lineText model l) in
  validLine model l = true ->
  MoveOperations.moveToBeginningOfLine config model cursor inSelectionMode
  = Ok (SingleCursorState.move cursor inSelectionMode l
          (if Position.column (SingleCursorState.position cursor)
              =? firstNonBlank
           then 1 else firstNonBlank) 0 false).
Proof.
  intros l firstNonBlank Hl. unfold MoveOperations.moveToBeginningOfLine.
  fold l. rewrite (getLineMinColumn_valid _ _ Hl). cbn [bind].
  pose proof (getLineFirstNonWhitespaceColumn_orElse model l Hl) as H.
  destruct (Model.getLineFirstNonWhitespaceColumn model l) as [found|e];
    cbn [bind] in *; [|discriminate].
  injection H as ->. reflexivity.
Qed.

(** C9.  On a line of the buffer, [moveToBeginningOfLine] takes the line's
    first non-blank column (the min column 1 when the line is blank) and
    returns the min column when the caret's column is that first non-blank
    column, the first non-blank column otherwise, with leftover 0.  Invoked
    again it toggles: from the first non-blank column the two invocations
    give the min column and then the first non-blank column again; from any
    other column they give the first non-blank column and then the min
    column. *)
Theorem smart_home_toggles_between_first_non_blank_and_min_column :
  forall config model cursor inSelectionMode inSelectionMode',
    let l := Position.lineNumber (SingleCursorState.position cursor) in
    let c := Position.column (SingleCursorState.position cursor) in
    let firstNonBlank := firstNonBlankColumnOf (lineText model l) in
    validLine model l = true ->
    MoveOperations.moveToBeginningOfLine config model cursor inSelectionMode
    = Ok (SingleCursorState.move cursor inSelectionMode l
            (if c =? firstNonBlank then 1 else firstNonBlank) 0 false)
    /\
    exists once twice,
      MoveOperations.moveToBeginningOfLine config model cursor
        inSelectionMode = Ok once
      /\ MoveOperations.moveToBeginningOfLine config model once
           inSelectionMode' = Ok twice
      /\ SingleCursorState.position once
         = Position.mk l (if c =? firstNonBlank then 1 else firstNonBlank)
      /\ SingleCursorState.position twice
         = Position.mk l (if c =? firstNonBlank then firstNonBlank else 1).
Proof.
  intros config model cursor sel sel' l c firstNonBlank Hl.
  pose proof (moveToBeginningOfLine_valid config model cursor sel Hl) as H1.
  split; [exact H1|].
  set (once := SingleCursorState.move cursor sel l
                 (if c =? firstNonBlank then 1 else firstNonBlank) 0 false).
  assert (Hpos : SingleCursorState.position once
                 = Position.mk l
                     (if c =? firstNonBlank then 1 else firstNonBlank))
    by apply position_of_move.
  assert (Hl' : validLine model
                  (Position.lineNumber (SingleCursorState.position once))
                = true) by now rewrite Hpos.
  pose proof (moveToBeginningOfLine_valid config model once sel' Hl') as H2.
  exists once. eexists. split; [exact H1|]. split; [exact H2|].
  split; [exact Hpos|].
  rewrite position_of_move, Hpos. cbn [Position.lineNumber Position.column].
  fold firstNonBlank. f_equal.
  destruct (c =? firstNonBlank) eqn:E.
  - destruct (1 =? firstNonBlank) eqn:E1; [|reflexivity].
    apply Z.eqb_eq in E1. now rewrite <- E1.
  - now rewrite Z.eqb_refl.
Qed.

Lemma smart_home_toggles_witness :
  validLine bufferHello 1 = true
  /\ MoveOperations.moveToBeginningOfLine tab4 bufferHello
       (caretAt (Position.mk 1 9)) false
     = Ok (caretAt (Position.mk 1 4))
  /\ MoveOperations.moveToBeginningOfLine tab4 bufferHello
       (caretAt (Position.mk 1 4)) false
     = Ok (caretAt (Position.mk 1 1))
  /\ MoveOperations.moveToBeginningOfLine tab4 bufferHello
       (caretAt (Position.mk 1 1)) false
     = Ok (caretAt (Position.mk 1 4)).
Proof.
  split; [reflexivity|]. split; [|split].
  - exact (proj1 (smart_home_toggles_between_first_non_blank_and_min_column
                    tab4 bufferHello (caretAt (Position.mk 1 9)) false false
                    eq_refl)).
  - exact (proj1 (smart_home_toggles_between_first_non_blank_and_min_column
                    tab4 bufferHello (caretAt (Position.mk 1 4)) false false
                    eq_refl)).
  - exact (proj1 (smart_home_toggles_between_first_non_blank_and_min_column
                    tab4 bufferHello (caretAt (Position.mk 1 1)) false false
                    eq_refl)).
Defined.

(* ===================================================================== *)
(** ** One logical character to the left and to the right *)

Lemma continuesAt_range rule str i :
  strings.continuesAt rule str i = true -> 0 < i < strlen str.
Proof.
  unfold strings.continuesAt. rewrite !andb_true_iff, !Z.ltb_lt. tauto.
Qed.




Lemma unitsAhead_nonneg rule str : forall fuel i,
  0 <= strings.unitsAhead rule str i fuel.
Proof.
  induction fuel as [|fuel IH]; intros i;
    cbn [strings.unitsAhead strings.unitsBehind]; [lia|].
  destruct (strings.continuesAt rule str i); [|lia].
  specialize (IH (i + 1)). lia.
Qed.

Lemma unitsBehind_nonneg rule str : forall fuel i,
  0 <= strings.unitsBehind rule str i fuel.
Proof.
  induction fuel as [|fuel IH]; intros i;
    cbn [strings.unitsAhead strings.unitsBehind]; [lia|].
  destruct (strings.continuesAt rule str i); [|lia].
  specialize (IH (i - 1)). lia.
Qed.

Lemma unitsAhead_all rule str : forall fuel i j,
  i <= j < i + strings.unitsAhead rule str i fuel ->
  strings.continuesAt rule str j = true.
Proof.
  induction fuel as [|fuel IH]; intros i j;
    cbn [strings.unitsAhead strings.unitsBehind]; [lia|].
  destruct (strings.continuesAt rule str i) eqn:E; [|lia].
  intros H. destruct (Z.eq_dec j i) as [->|Hne]; [exact E|].
  apply (IH (i + 1)). lia.
Qed.

Lemma unitsBehind_all rule str : forall fuel i j,
  i - strings.unitsBehind rule str i fuel < j <= i ->
  strings.continuesAt rule str j = true.
Proof.
  induction fuel as [|fuel IH]; intros i j;
    cbn [strings.unitsAhead strings.unitsBehind]; [lia|].
  destruct (strings.continuesAt rule str i) eqn:E; [|lia].
  intros H. destruct (Z.eq_dec j i) as [->|Hne]; [exact E|].
  apply (IH (i - 1)). lia.
Qed.



Lemma unitsAhead_exact rule str : forall fuel i (n : nat),
  (n <= fuel)%nat ->
  (forall j, i <= j < i + Z.of_nat n ->
             strings.continuesAt rule str j = true) ->
  strings.continuesAt rule str (i + Z.of_nat n) = false ->
  strings.unitsAhead rule str i fuel = Z.of_nat n.
Proof.
  induction fuel as [|fuel IH]; intros i n Hn Hall Hstop.
  - assert (n = 0%nat) as -> by lia. reflexivity.
  - destruct n as [|n]; cbn [strings.unitsAhead].
    + cbn in Hstop. rewrite Z.add_0_r in Hstop. now rewrite Hstop.
    + rewrite (Hall i) by lia.
      rewrite (IH (i + 1) n); [lia|lia| |].
      * intros j Hj. apply Hall. lia.
      * now replace (i + 1 + Z.of_nat n) with (i + Z.of_nat (S n)) by lia.
Qed.

Lemma unitsBehind_exact rule str : forall fuel i (n : nat),
  (n <= fuel)%nat ->
  (forall j, i - Z.of_nat n < j <= i ->
             strings.continuesAt rule str j = true) ->
  strings.continuesAt rule str (i - Z.of_nat n) = false ->
  strings.unitsBehind rule str i fuel = Z.of_nat n.
Proof.
  induction fuel as [|fuel IH]; intros i n Hn Hall Hstop.
  - assert (n = 0%nat) as -> by lia. reflexivity.
  - destruct n as [|n]; cbn [strings.unitsBehind].
    + cbn in Hstop. rewrite Z.sub_0_r in Hstop. now rewrite Hstop.
    + rewrite (Hall i) by lia.
      rewrite (IH (i - 1) n); [lia|lia| |].
      * intros j Hj. apply Hall. lia.
      * now replace (i - 1 - Z.of_nat n) with (i - Z.of_nat (S n)) by lia.
Qed.

(** What [nextCharLength] and [prevCharLength] return, for every rule:
    the step ends on a boundary and passes only continuing code units. *)
Lemma nextCharLength_pos rule str offset :
  1 <= strings.nextCharLength rule str offset.
Proof.
  unfold strings.nextCharLength.
  pose proof (unitsAhead_nonneg rule str (length str) (offset + 1)). lia.
Qed.

Lemma prevCharLength_pos rule str offset :
  1 <= strings.prevCharLength rule str offset.
Proof.
  unfold strings.prevCharLength.
  pose proof (unitsBehind_nonneg rule str (length str) (offset - 1)). lia.
Qed.



Lemma nextCharLength_between rule str offset j :
  offset < j < offset + strings.nextCharLength rule str offset ->
  strings.continuesAt rule str j = true.
Proof.
  unfold strings.nextCharLength. intros H.
  apply (unitsAhead_all rule str (length str) (offset + 1)). lia.
Qed.

Lemma prevCharLength_between rule str offset j :
  offset - strings.prevCharLength rule str offset < j < offset ->
  strings.continuesAt rule str j = true.
Proof.
  unfold strings.prevCharLength. intros H.
  apply (unitsBehind_all rule str (length str) (offset - 1)). lia.
Qed.

Lemma nextCharLength_in_line rule str offset :
  0 <= offset < strlen str ->
  offset + strings.nextCharLength rule str offset <= strlen str.
Proof.
  intros H. pose proof (nextCharLength_pos rule str offset) as Hpos.
  destruct (Z.eq_dec (strings.nextCharLength rule str offset) 1) as [E|E];
    [lia|].
  pose proof (nextCharLength_between rule str offset
                (offset + strings.nextCharLength rule str offset - 1)
                ltac:(lia)) as Hc.
  apply continuesAt_range in Hc. lia.
Qed.

Lemma prevCharLength_in_line rule str offset :
  1 <= offset ->
  0 <= offset - strings.prevCharLength rule str offset.
Proof.
  intros H. pose proof (prevCharLength_pos rule str offset) as Hpos.
  destruct (Z.eq_dec (strings.prevCharLength rule str offset) 1) as [E|E];
    [lia|].
  pose proof (prevCharLength_between rule str offset
                (offset - strings.prevCharLength rule str offset + 1)
                ltac:(lia)) as Hc.
  apply continuesAt_range in Hc. lia.
Qed.

Lemma nextCharLength_exact rule str offset finish :
  offset < finish ->
  (forall j, offset < j < finish ->
             strings.continuesAt rule str j = true) ->
  strings.continuesAt rule str finish = false ->
  strings.nextCharLength rule str offset = finish - offset.
Proof.
  intros Hlt Hall Hstop. unfold strings.nextCharLength.
  rewrite (unitsAhead_exact rule str (length str) (offset + 1)
             (Z.to_nat (finish - offset - 1))).
  - lia.
  - destruct (Z.eq_dec (finish - offset - 1) 0) as [E|E]; [lia|].
    pose proof (continuesAt_range _ _ _ (Hall (offset + 1) ltac:(lia))).
    pose proof (continuesAt_range _ _ _ (Hall (finish - 1) ltac:(lia))).
    unfold strlen in *. lia.
  - intros j Hj. apply Hall. lia.
  - now replace (offset + 1 + Z.of_nat (Z.to_nat (finish - offset - 1)))
      with finish by lia.
Qed.

Lemma prevCharLength_exact rule str offset start :
  start < offset ->
  (forall j, start < j < offset ->
             strings.continuesAt rule str j = true) ->
  strings.continuesAt rule str start = false ->
  strings.prevCharLength rule str offset = offset - start.
Proof.
  intros Hlt Hall Hstop. unfold strings.prevCharLength.
  rewrite (unitsBehind_exact rule str (length str) (offset - 1)
             (Z.to_nat (offset - start - 1))).
  - lia.
  - destruct (Z.eq_dec (offset - start - 1) 0) as [E|E]; [lia|].
    pose proof (continuesAt_range _ _ _ (Hall (offset - 1) ltac:(lia))).
    pose proof (continuesAt_range _ _ _ (Hall (start + 1) ltac:(lia))).
    unfold strlen in *. lia.
  - intros j Hj. apply Hall. lia.
  - now replace (offset - 1 - Z.of_nat (Z.to_nat (offset - start - 1)))
      with start by lia.
Qed.

Lemma leftPosition_inside rule model l c :
  validLine model l = true -> 1 < c ->
  MoveOperations.leftPosition rule model l c
  = Ok (Position.mk l
          (c - strings.prevCharLength rule (lineText model l) (c - 1))).
Proof.
  intros Hl Hc. unfold MoveOperations.leftPosition.
  rewrite (getLineMinColumn_valid _ _ Hl). cbn [bind].
  replace (c >? 1) with true
    by (symmetry; rewrite Z.gtb_ltb; apply Z.ltb_lt; lia).
  now rewrite (getLineContent_valid _ _ Hl).
Qed.

Lemma leftPosition_wrap rule model l :
  validLine model l = true -> 1 < l ->
  MoveOperations.leftPosition rule model l 1
  = Ok (Position.mk (l - 1) (maxColumnOf model (l - 1))).
Proof.
  intros Hl Hgt. unfold MoveOperations.leftPosition.
  rewrite (getLineMinColumn_valid _ _ Hl). cbn [bind].
  replace (1 >? 1) with false by reflexivity.
  replace (l >? 1) with true
    by (symmetry; rewrite Z.gtb_ltb; apply Z.ltb_lt; lia).
  apply validLine_bounds in Hl. now line_ok.
Qed.

Lemma rightPosition_inside rule model l c :
  validLine model l = true -> c < maxColumnOf model l ->
  MoveOperations.rightPosition rule model l c
  = Ok (Position.mk l
          (c + strings.nextCharLength rule (lineText model l) (c - 1))).
Proof.
  intros Hl Hc. unfold MoveOperations.rightPosition.
  rewrite (getLineMaxColumn_valid _ _ Hl). cbn [bind].
  replace (c <? maxColumnOf model l) with true
    by (symmetry; apply Z.ltb_lt; lia).
  now rewrite (getLineContent_valid _ _ Hl).
Qed.

Lemma rightPosition_wrap rule model l :
  validLine model l = true -> l < Model.getLineCount model ->
  MoveOperations.rightPosition rule model l (maxColumnOf model l)
  = Ok (Position.mk (l + 1) 1).
Proof.
  intros Hl Hlt. unfold MoveOperations.rightPosition.
  rewrite (getLineMaxColumn_valid _ _ Hl). cbn [bind].
  rewrite Z.ltb_irrefl.
  replace (l <? Model.getLineCount model) with true
    by (symmetry; apply Z.ltb_lt; lia).
  apply validLine_bounds in Hl. now line_ok.
Qed.

Lemma validPosition_bounds model p :
  validPosition model p = true <->
  validLine model (Position.lineNumber p) = true
  /\ 1 <= Position.column p <= maxColumnOf model (Position.lineNumber p).
Proof.
  unfold validPosition. rewrite !andb_true_iff, !Z.leb_le. tauto.
Qed.

Lemma Position_equals_false p l c :
  Position.equals p (Position.mk l c) = false ->
  Position.lineNumber p <> l \/ Position.column p <> c.
Proof.
  unfold Position.equals. cbn. intros H.
  apply andb_false_iff in H as [H|H]; apply Z.eqb_neq in H; tauto.
Qed.

(** C6 (as amended).  Whatever code units the character rule joins into
    one logical character, for every valid position [p] that does not lie
    strictly inside a logical character (between two code units of one
    multi-code-unit character): if [p] is not the start of the buffer,
    [rightPosition] after [leftPosition] returns [p]; if [p] is not the end
    of the buffer, [leftPosition] after [rightPosition] returns [p]. *)
Theorem horizontal_round_trip_on_character_boundaries :
  forall rule model p,
    validPosition model p = true ->
    insideCharacter rule (lineText model (Position.lineNumber p))
      (Position.column p) = false ->
    (isBufferStart p = false ->
     (let* q := MoveOperations.leftPosition rule model
                  (Position.lineNumber p) (Position.column p) in
      MoveOperations.rightPosition rule model
        (Position.lineNumber q) (Position.column q))
     = Ok p)
    /\
    (isBufferEnd model p = false ->
     (let* q := MoveOperations.rightPosition rule model
                  (Position.lineNumber p) (Position.column p) in
      MoveOperations.leftPosition rule model
        (Position.lineNumber q) (Position.column q))
     = Ok p).
Proof.
  intros rule model [l c] Hvalid Hboundary.
  apply validPosition_bounds in Hvalid as [Hl Hc].
  unfold insideCharacter in Hboundary.
  cbn [Position.lineNumber Position.column] in *.
  pose proof (proj1 (validLine_bounds _ _) Hl) as Hlb.
  set (text := lineText model l) in *.
  assert (Hmax : maxColumnOf model l = strlen text + 1) by reflexivity.
  split.
  - intros Hstart. apply Position_equals_false in Hstart. cbn in Hstart.
    destruct (Z.eq_dec c 1) as [->|Hne].
    + rewrite leftPosition_wrap by (assumption || lia). cbn [bind].
      cbn [Position.lineNumber Position.column].
      rewrite rightPosition_wrap by (try apply validLine_bounds; lia).
      f_equal. f_equal. lia.
    + rewrite leftPosition_inside by (assumption || lia). cbn [bind].
      cbn [Position.lineNumber Position.column]. fold text.
      pose proof (prevCharLength_pos rule text (c - 1)) as Hpos.
      pose proof (prevCharLength_in_line rule text (c - 1) ltac:(lia))
        as Hlow.
      set (k := strings.prevCharLength rule text (c - 1)) in *.
      rewrite rightPosition_inside by (assumption || lia). fold text.
      rewrite (nextCharLength_exact rule text (c - k - 1) (c - 1)).
      * f_equal. f_equal. lia.
      * lia.
      * intros j Hj. apply (prevCharLength_between rule text (c - 1)).
        fold k. lia.
      * exact Hboundary.
  - intros Hend. apply Position_equals_false in Hend. cbn in Hend.
    destruct (Z.eq_dec c (maxColumnOf model l)) as [->|Hne].
    + assert (l < Model.getLineCount model) as Hlt.
      { destruct (Z.eq_dec l (Model.getLineCount model)) as [->|]; [|lia].
        destruct Hend; congruence. }
      rewrite rightPosition_wrap by (assumption || lia). cbn [bind].
      cbn [Position.lineNumber Position.column].
      rewrite leftPosition_wrap by (try apply validLine_bounds; lia).
      f_equal. f_equal; [lia|]. f_equal. lia.
    + rewrite rightPosition_inside by (assumption || lia). cbn [bind].
      cbn [Position.lineNumber Position.column]. fold text.
      pose proof (nextCharLength_pos rule text (c - 1)) as Hpos.
      set (k := strings.nextCharLength rule text (c - 1)) in *.
      rewrite leftPosition_inside by (assumption || lia). fold text.
      rewrite (prevCharLength_exact rule text (c + k - 1) (c - 1)).
      * f_equal. f_equal. lia.
      * lia.
      * intros j Hj. apply (nextCharLength_between rule text (c - 1)).
        fold k. lia.
      * exact Hboundary.
Qed.

Lemma horizontal_round_trip_witness :
  validPosition bufferAccent (Position.mk 1 3) = true
  /\ insideCharacter pairsAndAccents (lineText bufferAccent 1) 3 = false
  /\ isBufferStart (Position.mk 1 3) = false
  /\ isBufferEnd bufferAccent (Position.mk 1 3) = false
  /\ MoveOperations.leftPosition pairsAndAccents bufferAccent 1 3
     = Ok (Position.mk 1 1)
  /\ (let* q := MoveOperations.leftPosition pairsAndAccents bufferAccent
                  1 3 in
      MoveOperations.rightPosition pairsAndAccents bufferAccent
        (Position.lineNumber q) (Position.column q))
     = Ok (Position.mk 1 3)
  /\ (let* q := MoveOperations.rightPosition pairsAndAccents bufferAccent
                  1 3 in
      MoveOperations.leftPosition pairsAndAccents bufferAccent
        (Position.lineNumber q) (Position.column q))
     = Ok (Position.mk 1 3)
  /\ validPosition bufferSurrogate (Position.mk 1 2) = true
  /\ insideCharacter strings.surrogatePairs (lineText bufferSurrogate 1) 2
     = false
  /\ (let* q := MoveOperations.rightPosition strings.surrogatePairs
                  bufferSurrogate 1 2 in
      MoveOperations.leftPosition strings.surrogatePairs bufferSurrogate
        (Position.lineNumber q) (Position.column q))
     = Ok (Position.mk 1 2).
Proof.
  destruct (horizontal_round_trip_on_character_boundaries pairsAndAccents
              bufferAccent (Position.mk 1 3) eq_refl eq_refl)
    as [Hleft Hright].
  destruct (horizontal_round_trip_on_character_boundaries
              strings.surrogatePairs bufferSurrogate (Position.mk 1 2)
              eq_refl eq_refl) as [_ Hright'].
  split; [reflexivity|]. split; [reflexivity|]. split; [reflexivity|].
  split; [reflexivity|]. split; [reflexivity|].
  split; [exact (Hleft eq_refl)|]. split; [exact (Hright eq_refl)|].
  split; [reflexivity|]. split; [reflexivity|].
  exact (Hright' eq_refl).
Defined.

(** C6 as stated fails: in the line "a" followed by a surrogate pair,
    column 3 is a valid column strictly inside the buffer, yet going left
    and then right ends at column 4 and going right and then left ends at
    column 2. *)
Lemma horizontal_round_trip_fails_inside_surrogate_pair :
  validPosition bufferSurrogate (Position.mk 1 3) = true
  /\ isBufferStart (Position.mk 1 3) = false
  /\ isBufferEnd bufferSurrogate (Position.mk 1 3) = false
  /\ (let* q := MoveOperations.leftPosition strings.surrogatePairs
                  bufferSurrogate 1 3 in
      MoveOperations.rightPosition strings.surrogatePairs bufferSurrogate
        (Position.lineNumber q) (Position.column q))
     <> Ok (Position.mk 1 3)
  /\ (let* q := MoveOperations.rightPosition strings.surrogatePairs
                  bufferSurrogate 1 3 in
      MoveOperations.leftPosition strings.surrogatePairs bufferSurrogate
        (Position.lineNumber q) (Position.column q))
     <> Ok (Position.mk 1 3).
Proof.
  split; [reflexivity|]. split; [reflexivity|]. split; [reflexivity|].
  split; vm_compute; discriminate.
Qed.

(* ===================================================================== *)
(** ** [moveLeft] and [moveRight] by several columns *)












(* ===================================================================== *)
(** ** The column translator *)

Section Translator.

Variable tab : Z.
Hypothesis tab_pos : 1 <= tab.

Lemma advance_increases acc charCode :
  acc + 1 <= CursorColumns.advance tab acc charCode.
Proof.
  unfold CursorColumns.advance. destruct (_ =? _); [|lia].
  pose proof (Z.mod_pos_bound acc tab ltac:(lia)). lia.
Qed.

Lemma visibleWalk_nil n acc : CursorColumns.visibleWalk tab [] n acc = acc.
Proof. now destruct n. Qed.

Lemma visibleWalk_grows chars : forall n acc,
  acc + Z.of_nat (Nat.min n (length chars))
  <= CursorColumns.visibleWalk tab chars n acc.
Proof.
  induction chars as [|charCode rest IH]; intros n acc.
  - rewrite visibleWalk_nil. cbn. lia.
  - destruct n as [|n]; cbn [CursorColumns.visibleWalk]; [cbn; lia|].
    specialize (IH n (CursorColumns.advance tab acc charCode)).
    pose proof (advance_increases acc charCode).
    cbn [length Nat.min] in *. lia.
Qed.

Lemma visibleWalk_monotone chars : forall n m acc,
  (n <= m)%nat ->
  CursorColumns.visibleWalk tab chars n acc
  <= CursorColumns.visibleWalk tab chars m acc.
Proof.
  induction chars as [|charCode rest IH]; intros n m acc Hnm.
  - rewrite !visibleWalk_nil. lia.
  - destruct n as [|n].
    + pose proof (visibleWalk_grows (charCode :: rest) m acc).
      cbn [CursorColumns.visibleWalk] in *. lia.
    + destruct m as [|m]; [lia|]. cbn [CursorColumns.visibleWalk].
      apply IH. lia.
Qed.

Lemma columnWalk_range target chars : forall i acc,
  i + 1 <= CursorColumns.columnWalk tab target chars i acc
        <= i + 1 + strlen chars.
Proof.
  unfold strlen.
  induction chars as [|charCode rest IH]; intros i acc;
    cbn [CursorColumns.columnWalk length].
  - lia.
  - destruct (_ >=? _); [destruct (_ =? _); lia|].
    specialize (IH (i + 1) (CursorColumns.advance tab acc charCode)). lia.
Qed.

(** The column found for a target is the one whose visible column is the
    closest without exceeding it. *)
Lemma columnWalk_below target chars : forall i acc,
  acc <= target ->
  CursorColumns.visibleWalk tab chars
    (Z.to_nat (CursorColumns.columnWalk tab target chars i acc - i - 1)) acc
  <= target.
Proof.
  induction chars as [|charCode rest IH]; intros i acc Hacc;
    cbn [CursorColumns.columnWalk].
  - rewrite visibleWalk_nil. lia.
  - destruct (_ >=? _) eqn:Hge.
    + destruct (_ =? _) eqn:Heq.
      * replace (Z.to_nat (i + 2 - i - 1)) with 1%nat by lia.
        cbn [CursorColumns.visibleWalk]. apply Z.eqb_eq in Heq. lia.
      * replace (Z.to_nat (i + 1 - i - 1)) with 0%nat by lia.
        cbn [CursorColumns.visibleWalk]. lia.
    + rewrite Z.geb_leb in Hge. apply Z.leb_gt in Hge.
      pose proof (columnWalk_range target rest (i + 1)
                    (CursorColumns.advance tab acc charCode)) as Hr.
      set (r := CursorColumns.columnWalk tab target rest (i + 1)
                  (CursorColumns.advance tab acc charCode)) in *.
      replace (Z.to_nat (r - i - 1))
        with (S (Z.to_nat (r - (i + 1) - 1))) by lia.
      cbn [CursorColumns.visibleWalk]. apply IH. lia.
Qed.

(** Walking back from the visible column of the [n]-th boundary finds
    that boundary. *)
Lemma columnWalk_exact chars : forall (n : nat) i acc,
  (n <= length chars)%nat ->
  CursorColumns.columnWalk tab
    (CursorColumns.visibleWalk tab chars n acc) chars i acc
  = i + 1 + Z.of_nat n.
Proof.
  induction chars as [|charCode rest IH]; intros n i acc Hn.
  - cbn in Hn. assert (n = 0%nat) as -> by lia. cbn. lia.
  - destruct n as [|n]; cbn [CursorColumns.visibleWalk CursorColumns.columnWalk].
    + pose proof (advance_increases acc charCode).
      replace (_ >=? acc) with true
        by (symmetry; rewrite Z.geb_leb; apply Z.leb_le; lia).
      replace (_ =? acc) with false by (symmetry; apply Z.eqb_neq; lia).
      lia.
    + cbn [length] in Hn.
      pose proof (visibleWalk_grows rest n
                    (CursorColumns.advance tab acc charCode)) as Hg.
      set (after := CursorColumns.advance tab acc charCode) in *.
      set (target := CursorColumns.visibleWalk tab rest n after) in *.
      destruct (after >=? target) eqn:Hge.
      * rewrite Z.geb_leb in Hge. apply Z.leb_le in Hge.
        assert (n = 0%nat) as -> by lia.
        replace (after =? target) with true
          by (symmetry; apply Z.eqb_eq; lia). lia.
      * unfold target. rewrite IH by lia. lia.
Qed.

Lemma visibleColumnFromColumn_nonneg text column :
  0 <= CursorColumns.visibleColumnFromColumn text column tab.
Proof.
  unfold CursorColumns.visibleColumnFromColumn.
  pose proof (visibleWalk_grows text (Z.to_nat (column - 1)) 0). lia.
Qed.

Lemma visibleColumnFromColumn_monotone text c c' :
  c <= c' ->
  CursorColumns.visibleColumnFromColumn text c tab
  <= CursorColumns.visibleColumnFromColumn text c' tab.
Proof.
  intros H. unfold CursorColumns.visibleColumnFromColumn.
  apply visibleWalk_monotone. lia.
Qed.

Lemma columnFromVisibleColumn_range text target :
  1 <= CursorColumns.columnFromVisibleColumn text target tab
    <= strlen text + 1.
Proof.
  unfold CursorColumns.columnFromVisibleColumn.
  pose proof (columnWalk_range target text 0 0). lia.
Qed.

Lemma visible_of_columnFromVisibleColumn_below text target :
  0 <= target ->
  CursorColumns.visibleColumnFromColumn text
    (CursorColumns.columnFromVisibleColumn text target tab) tab
  <= target.
Proof.
  intros H.
  unfold CursorColumns.visibleColumnFromColumn,
    CursorColumns.columnFromVisibleColumn.
  pose proof (columnWalk_below target text 0 0 H) as Hb.
  now replace (CursorColumns.columnWalk tab target text 0 0 - 0 - 1)
    with (CursorColumns.columnWalk tab target text 0 0 - 1) in Hb by lia.
Qed.

Lemma columnFromVisibleColumn_of_visible text c :
  1 <= c <= strlen text + 1 ->
  CursorColumns.columnFromVisibleColumn text
    (CursorColumns.visibleColumnFromColumn text c tab) tab
  = c.
Proof.
  intros H.
  unfold CursorColumns.visibleColumnFromColumn,
    CursorColumns.columnFromVisibleColumn.
  rewrite columnWalk_exact by (unfold strlen in H; lia). lia.
Qed.

End Translator.

Lemma columnFromVisibleColumn2_valid config model l visibleColumn :
  validLine model l = true ->
  CursorColumns.columnFromVisibleColumn2 config model l visibleColumn
  = Ok (CursorColumns.columnFromVisibleColumn (lineText model l)
          visibleColumn (tabSize config)).
Proof.
  intros Hl. unfold CursorColumns.columnFromVisibleColumn2.
  rewrite (getLineContent_valid _ _ Hl), (getLineMinColumn_valid _ _ Hl),
    (getLineMaxColumn_valid _ _ Hl). cbn [bind].
  pose proof (columnFromVisibleColumn_range (tabSize config)
                (lineText model l) visibleColumn) as Hr.
  replace (_ <? 1) with false by (symmetry; apply Z.ltb_ge; lia).
  unfold maxColumnOf.
  now replace (_ >? _) with false
    by (symmetry; rewrite Z.gtb_ltb; apply Z.ltb_ge; lia).
Qed.

Lemma columnFromVisibleColumn2_invalid config model l visibleColumn :
  validLine model l = false ->
  CursorColumns.columnFromVisibleColumn2 config model l visibleColumn
  = Throw (IllegalLineNumber l).
Proof.
  intros Hl. unfold CursorColumns.columnFromVisibleColumn2.
  now rewrite (getLineContent_invalid _ _ Hl).
Qed.

(* ===================================================================== *)
(** ** The sign of the leftover *)

Lemma down_validLine config model l c lo count allow r :
  MoveOperations.down config model l c lo count allow = Ok r ->
  validLine model l = true.
Proof.
  unfold MoveOperations.down. destruct (validLine model l) eqn:E;
    [reflexivity|].
  rewrite (getLineContent_invalid _ _ E). discriminate.
Qed.

Lemma up_validLine config model l c lo count allow r :
  MoveOperations.up config model l c lo count allow = Ok r ->
  validLine model l = true.
Proof.
  unfold MoveOperations.up. destruct (validLine model l) eqn:E;
    [reflexivity|].
  rewrite (getLineContent_invalid _ _ E). discriminate.
Qed.

Lemma down_leftover_nonneg config model l c lo count allow r :
  1 <= tabSize config -> 0 <= lo ->
  MoveOperations.down config model l c lo count allow = Ok r ->
  l + count <= Model.getLineCount model
  \/ (allow = false /\ l = Model.getLineCount model) ->
  0 <= CursorPosition.leftoverVisibleColumns r.
Proof.
  intros Htab Hlo Hdown Hcase.
  pose proof (down_validLine _ _ _ _ _ _ _ _ Hdown) as Hl.
  pose proof (visibleColumnFromColumn_nonneg (tabSize config) Htab
                (lineText model l) c) as Hvis.
  destruct (Z_le_gt_dec (l + count) (Model.getLineCount model)) as [Hin|Hout].
  - destruct (validLine model (l + count)) eqn:Ht.
    + rewrite (down_unclamped _ _ _ _ _ _ _ Hl Ht) in Hdown. cbn zeta in Hdown.
      rewrite (columnFromVisibleColumn2_valid _ _ _ _ Ht) in Hdown.
      injection Hdown as <-. cbn [CursorPosition.leftoverVisibleColumns].
      pose proof (visible_of_columnFromVisibleColumn_below (tabSize config)
                    (lineText model (l + count))
                    (CursorColumns.visibleColumnFromColumn (lineText model l)
                       c (tabSize config) + lo) ltac:(lia)). lia.
    + unfold MoveOperations.down in Hdown.
      rewrite (getLineContent_valid _ _ Hl) in Hdown. cbn [bind] in Hdown.
      replace (l + count >? Model.getLineCount model) with false in Hdown
        by (symmetry; rewrite Z.gtb_ltb; apply Z.ltb_ge; lia).
      rewrite (columnFromVisibleColumn2_invalid _ _ _ _ Ht) in Hdown.
      discriminate.
  - destruct Hcase as [Hin|[Hallow Hlast]]; [lia|]. subst allow.
    unfold MoveOperations.down in Hdown. rewrite <- Hlast in Hdown.
    rewrite (getLineContent_valid _ _ Hl) in Hdown. cbn [bind] in Hdown.
    replace (l + count >? l) with true in Hdown
      by (symmetry; rewrite Z.gtb_ltb; apply Z.ltb_lt; lia).
    rewrite (getLineMaxColumn_valid _ _ Hl) in Hdown.
    cbn [bind Position.lineNumber Position.column] in Hdown.
    rewrite (getLineContent_valid _ _ Hl) in Hdown. cbn [bind] in Hdown.
    injection Hdown as <-. cbn [CursorPosition.leftoverVisibleColumns].
    pose proof (visibleColumnFromColumn_monotone (tabSize config) Htab
                  (lineText model l) (Z.min (maxColumnOf model l) c) c
                  ltac:(lia)). lia.
Qed.

Lemma up_leftover_nonneg config model l c lo count allow r :
  1 <= tabSize config -> 0 <= lo ->
  MoveOperations.up config model l c lo count allow = Ok r ->
  1 <= l - count \/ allow = true \/ l = 1 ->
  0 <= CursorPosition.leftoverVisibleColumns r.
Proof.
  intros Htab Hlo Hup Hcase.
  pose proof (up_validLine _ _ _ _ _ _ _ _ Hup) as Hl.
  pose proof (visibleColumnFromColumn_nonneg (tabSize config) Htab
                (lineText model l) c) as Hvis.
  destruct (Z_le_gt_dec 1 (l - count)) as [Hin|Hout].
  - destruct (validLine model (l - count)) eqn:Ht.
    + rewrite (up_unclamped _ _ _ _ _ _ _ Hl Ht) in Hup. cbn zeta in Hup.
      rewrite (columnFromVisibleColumn2_valid _ _ _ _ Ht) in Hup.
      injection Hup as <-. cbn [CursorPosition.leftoverVisibleColumns].
      pose proof (visible_of_columnFromVisibleColumn_below (tabSize config)
                    (lineText model (l - count))
                    (CursorColumns.visibleColumnFromColumn (lineText model l)
                       c (tabSize config) + lo) ltac:(lia)). lia.
    + unfold MoveOperations.up in Hup.
      rewrite (getLineContent_valid _ _ Hl) in Hup. cbn [bind] in Hup.
      replace (l - count <? 1) with false in Hup
        by (symmetry; apply Z.ltb_ge; lia).
      rewrite (columnFromVisibleColumn2_invalid _ _ _ _ Ht) in Hup.
      discriminate.
  - assert (H1 : validLine model 1 = true).
    { apply validLine_bounds. apply validLine_bounds in Hl. lia. }
    unfold MoveOperations.up in Hup.
    rewrite (getLineContent_valid _ _ Hl) in Hup. cbn [bind] in Hup.
    replace (l - count <? 1) with true in Hup
      by (symmetry; apply Z.ltb_lt; lia).
    destruct allow.
    + rewrite (getLineMinColumn_valid _ _ H1) in Hup.
      cbn [bind Position.lineNumber Position.column] in Hup.
      rewrite (getLineContent_valid _ _ H1) in Hup. cbn [bind] in Hup.
      injection Hup as <-. cbn [CursorPosition.leftoverVisibleColumns].
      change (CursorColumns.visibleColumnFromColumn (lineText model 1) 1
                (tabSize config)) with 0. lia.
    + destruct Hcase as [Hin|[Hallow| ->]]; [lia|discriminate|].
      rewrite (getLineMaxColumn_valid _ _ H1) in Hup.
      cbn [bind Position.lineNumber Position.column] in Hup.
      rewrite (getLineContent_valid _ _ H1) in Hup. cbn [bind] in Hup.
      injection Hup as <-. cbn [CursorPosition.leftoverVisibleColumns].
      pose proof (visibleColumnFromColumn_monotone (tabSize config) Htab
                    (lineText model 1) (Z.min (maxColumnOf model 1) c) c
                    ltac:(lia)). lia.
Qed.

Lemma leftoversNonNegative_move cursor inSelectionMode l c lo sticky :
  leftoversNonNegative cursor -> 0 <= lo ->
  leftoversNonNegative
    (SingleCursorState.move cursor inSelectionMode l c lo sticky).
Proof.
  intros [H1 H2] Hlo. unfold leftoversNonNegative, SingleCursorState.move.
  destruct inSelectionMode; cbn; lia.
Qed.

Ltac bind_ok H x Hx :=
  match type of H with
  | bind ?r _ = Ok _ =>
      destruct r as [x|] eqn:Hx; cbn [bind] in H; [|discriminate]
  end.

(** C5 (as amended).  With [tabSize >= 1], every operation applied to a
    cursor state whose two leftovers are non-negative returns a state whose
    two leftovers are non-negative, except a [moveDown] whose target line
    lies below the last line: that move snaps to the end of the last line
    and its leftover is the signed difference between the desired visible
    column and the visible column of the line end. *)
Theorem leftovers_stay_non_negative_unless_moveDown_clamps :
  forall rule config model cursor command cursor',
    1 <= tabSize config ->
    leftoversNonNegative cursor ->
    clampsAtLastLine model cursor command = false ->
    execute rule config model cursor command = Ok cursor' ->
    leftoversNonNegative cursor'.
Proof.
  intros rule config model cursor command cursor' Htab Hnn Hclamp Hrun.
  pose proof Hnn as [Hlo Hslo].
  destruct command as [sel n|sel n|sel n| |sel n| |sel|sel|sel|sel];
    cbn [execute clampsAtLastLine] in *.
  - unfold MoveOperations.moveLeft in Hrun. bind_ok Hrun q Hq.
    injection Hrun as <-. apply leftoversNonNegative_move; [assumption|lia].
  - unfold MoveOperations.moveRight in Hrun. bind_ok Hrun q Hq.
    injection Hrun as <-. apply leftoversNonNegative_move; [assumption|lia].
  - unfold MoveOperations.moveDown in Hrun.
    rewrite moveDown_start_eq in Hrun.
    bind_ok Hrun column Hcolumn. bind_ok Hrun r Hr.
    injection Hrun as <-. apply leftoversNonNegative_move; [assumption|].
    apply (down_leftover_nonneg _ _ _ _ _ _ _ _ Htab Hlo Hr).
    left. apply Z.ltb_ge in Hclamp. lia.
  - unfold MoveOperations.translateDown in Hrun.
    bind_ok Hrun a Ha. bind_ok Hrun b Hb. injection Hrun as <-.
    pose proof (down_validLine _ _ _ _ _ _ _ _ Ha) as Hla.
    pose proof (down_validLine _ _ _ _ _ _ _ _ Hb) as Hlb.
    apply validLine_bounds in Hla, Hlb.
    split; cbn [SingleCursorState.leftoverVisibleColumns
                SingleCursorState.selectionStartLeftoverVisibleColumns].
    + apply (down_leftover_nonneg _ _ _ _ _ _ _ _ Htab Hlo Hb). lia.
    + apply (down_leftover_nonneg _ _ _ _ _ _ _ _ Htab Hslo Ha). lia.
  - unfold MoveOperations.moveUp in Hrun.
    rewrite moveUp_start_eq in Hrun.
    bind_ok Hrun column Hcolumn. bind_ok Hrun r Hr.
    injection Hrun as <-. apply leftoversNonNegative_move; [assumption|].
    apply (up_leftover_nonneg _ _ _ _ _ _ _ _ Htab Hlo Hr). tauto.
  - unfold MoveOperations.translateUp in Hrun.
    bind_ok Hrun a Ha. bind_ok Hrun b Hb. injection Hrun as <-.
    pose proof (up_validLine _ _ _ _ _ _ _ _ Ha) as Hla.
    pose proof (up_validLine _ _ _ _ _ _ _ _ Hb) as Hlb.
    apply validLine_bounds in Hla, Hlb.
    split; cbn [SingleCursorState.leftoverVisibleColumns
                SingleCursorState.selectionStartLeftoverVisibleColumns].
    + apply (up_leftover_nonneg _ _ _ _ _ _ _ _ Htab Hlo Hb). lia.
    + apply (up_leftover_nonneg _ _ _ _ _ _ _ _ Htab Hslo Ha). lia.
  - unfold MoveOperations.moveToBeginningOfLine in Hrun.
    bind_ok Hrun minColumn Hmin. bind_ok Hrun found Hfound.
    injection Hrun as <-. apply leftoversNonNegative_move; [assumption|lia].
  - unfold MoveOperations.moveToEndOfLine in Hrun.
    bind_ok Hrun maxColumn Hmax.
    injection Hrun as <-. apply leftoversNonNegative_move; [assumption|lia].
  - unfold MoveOperations.moveToBeginningOfBuffer in Hrun.
    injection Hrun as <-. apply leftoversNonNegative_move; [assumption|lia].
  - unfold MoveOperations.moveToEndOfBuffer in Hrun.
    bind_ok Hrun lastColumn Hlast.
    injection Hrun as <-. apply leftoversNonNegative_move; [assumption|lia].
Qed.

Lemma leftovers_stay_non_negative_witness :
  1 <= tabSize tab4
  /\ leftoversNonNegative (caretAt (Position.mk 1 6))
  /\ clampsAtLastLine bufferTabs (caretAt (Position.mk 1 6))
       (MoveDown false 1) = false
  /\ execute strings.surrogatePairs tab4 bufferTabs (caretAt (Position.mk 1 6)) (MoveDown false 1)
     = Ok (SingleCursorState.mk (Position.mk 2 2) 4 (Position.mk 2 2) 4 false)
  /\ leftoversNonNegative
       (SingleCursorState.mk (Position.mk 2 2) 4 (Position.mk 2 2) 4 false).
Proof.
  assert (H1 : 1 <= tabSize tab4) by (cbn; lia).
  assert (H2 : leftoversNonNegative (caretAt (Position.mk 1 6)))
    by (split; cbn; lia).
  split; [exact H1|]. split; [exact H2|]. split; [reflexivity|].
  split; [reflexivity|].
  exact (leftovers_stay_non_negative_unless_moveDown_clamps
           strings.surrogatePairs tab4 bufferTabs
           (caretAt (Position.mk 1 6)) (MoveDown false 1) _ H1 H2 eq_refl
           eq_refl).
Defined.

(** C5 as stated fails: on the one-line buffer "   hello" the caret (1,1),
    which [moveToBeginningOfBuffer] produces with leftover 0, is moved by
    [moveDown] to the end of the line, column 9, with leftover
    0 - 8 = -8. *)
Lemma moveDown_on_last_line_leaves_negative_leftover :
  MoveOperations.moveToBeginningOfBuffer tab4 bufferHello
    (caretAt (Position.mk 1 5)) false
  = Ok (caretAt (Position.mk 1 1))
  /\ leftoversNonNegative (caretAt (Position.mk 1 1))
  /\ MoveOperations.moveDown tab4 bufferHello (caretAt (Position.mk 1 1))
       false 1
     = Ok (SingleCursorState.mk (Position.mk 1 9) (-8) (Position.mk 1 9)
             (-8) false)
  /\ ~ leftoversNonNegative
         (SingleCursorState.mk (Position.mk 1 9) (-8) (Position.mk 1 9)
            (-8) false).
Proof.
  split; [reflexivity|]. split; [split; cbn; lia|]. split; [reflexivity|].
  intros [H _]. cbn in H. lia.
Qed.

(* ===================================================================== *)
(** ** The desired visible column across vertical steps *)

Lemma verticalStep_landing config model p step :
  validLine model (CursorPosition.lineNumber p) = true ->
  validLine model (targetLine (CursorPosition.lineNumber p) step) = true ->
  verticalStep config model p step
  = Ok (landing config model
          (targetLine (CursorPosition.lineNumber p) step)
          (CursorColumns.visibleColumnFromColumn
             (lineText model (CursorPosition.lineNumber p))
             (CursorPosition.column p) (tabSize config)
           + CursorPosition.leftoverVisibleColumns p)).
Proof.
  intros Hl Ht. destruct step as [count allow|count allow];
    cbn [verticalStep targetLine] in *.
  - rewrite (down_unclamped _ _ _ _ _ _ _ Hl Ht). cbn zeta.
    now rewrite (columnFromVisibleColumn2_valid _ _ _ _ Ht).
  - rewrite (up_unclamped _ _ _ _ _ _ _ Hl Ht). cbn zeta.
    now rewrite (columnFromVisibleColumn2_valid _ _ _ _ Ht).
Qed.

Lemma landing_lineNumber config model l v :
  CursorPosition.lineNumber (landing config model l v) = l.
Proof. reflexivity. Qed.

Lemma landing_desired config model l v :
  CursorColumns.visibleColumnFromColumn (lineText model l)
    (CursorPosition.column (landing config model l v)) (tabSize config)
  + CursorPosition.leftoverVisibleColumns (landing config model l v)
  = v.
Proof.
  unfold landing.
  cbn [CursorPosition.column CursorPosition.leftoverVisibleColumns]. lia.
Qed.

Lemma verticalSteps_landing config model : forall steps p,
  steps <> [] ->
  validLine model (CursorPosition.lineNumber p) = true ->
  staysInBuffer model (CursorPosition.lineNumber p) steps = true ->
  verticalSteps config model p steps
  = Ok (landing config model
          (finalLine (CursorPosition.lineNumber p) steps)
          (CursorColumns.visibleColumnFromColumn
             (lineText model (CursorPosition.lineNumber p))
             (CursorPosition.column p) (tabSize config)
           + CursorPosition.leftoverVisibleColumns p)).
Proof.
  induction steps as [|step rest IH]; intros p Hne Hl Hstay;
    [congruence|].
  cbn [staysInBuffer] in Hstay. apply andb_true_iff in Hstay as [Ht Hrest].
  cbn [verticalSteps]. rewrite (verticalStep_landing _ _ _ _ Hl Ht).
  cbn [bind]. destruct rest as [|step' rest'].
  - reflexivity.
  - rewrite IH; [|discriminate|exact Ht|exact Hrest].
    now rewrite landing_lineNumber, landing_desired.
Qed.

Lemma landing_attained config model l c v :
  1 <= tabSize config ->
  1 <= c <= maxColumnOf model l ->
  CursorColumns.visibleColumnFromColumn (lineText model l) c (tabSize config)
  = v ->
  landing config model l v = CursorPosition.mk l c 0.
Proof.
  intros Htab Hc <-. unfold landing.
  rewrite (columnFromVisibleColumn_of_visible _ Htab _ _ Hc).
  f_equal. lia.
Qed.

(** C7 (as amended).  With [tabSize >= 1], take a caret with leftover 0
    at a valid position [(l, c)] and let [v] be its visible column.  The
    step down by [count] lines followed by the step up by [count] lines,
    when line [l + count] is a line of the buffer so that neither step is
    clamped, returns column [c] on line [l] with leftover 0.  More
    generally, after any non-empty sequence of steps that stay inside the
    buffer the caret is where the line reached places the visible column
    [v]: its visible column plus its leftover is [v], the leftover is not
    negative, and on a line that has a column of visible column [v] the
    caret is on that column with leftover 0, however short the lines in
    between were. *)
Theorem vertical_steps_keep_the_desired_visible_column :
  forall config model l c,
    1 <= tabSize config ->
    validLine model l = true ->
    1 <= c <= maxColumnOf model l ->
    let v := CursorColumns.visibleColumnFromColumn (lineText model l) c
               (tabSize config) in
    (forall count allowMoveOnLastLine allowMoveOnFirstLine,
       validLine model (l + count) = true ->
       (let* r := MoveOperations.down config model l c 0 count
                    allowMoveOnLastLine in
        MoveOperations.up config model (CursorPosition.lineNumber r)
          (CursorPosition.column r) (CursorPosition.leftoverVisibleColumns r)
          count allowMoveOnFirstLine)
       = Ok (CursorPosition.mk l c 0))
    /\
    (forall steps,
       steps <> [] ->
       staysInBuffer model l steps = true ->
       let reached := finalLine l steps in
       let r := landing config model reached v in
       verticalSteps config model (CursorPosition.mk l c 0) steps = Ok r
       /\ CursorColumns.visibleColumnFromColumn (lineText model reached)
            (CursorPosition.column r) (tabSize config)
          + CursorPosition.leftoverVisibleColumns r = v
       /\ 0 <= CursorPosition.leftoverVisibleColumns r
       /\ (forall c',
             1 <= c' <= maxColumnOf model reached ->
             CursorColumns.visibleColumnFromColumn (lineText model reached)
               c' (tabSize config) = v ->
             r = CursorPosition.mk reached c' 0)).
Proof.
  intros config model l c Htab Hl Hc v.
  assert (Hsteps : forall steps,
    steps <> [] -> staysInBuffer model l steps = true ->
    verticalSteps config model (CursorPosition.mk l c 0) steps
    = Ok (landing config model (finalLine l steps) v)).
  { intros steps Hne Hstay.
    rewrite (verticalSteps_landing config model steps
               (CursorPosition.mk l c 0) Hne Hl Hstay).
    cbn [CursorPosition.lineNumber CursorPosition.column
         CursorPosition.leftoverVisibleColumns].
    fold v. f_equal. f_equal. lia. }
  split.
  - intros count allowDown allowUp Ht.
    specialize (Hsteps [StepDown count allowDown; StepUp count allowUp]
                  ltac:(discriminate)).
    cbn [staysInBuffer targetLine verticalSteps verticalStep
         CursorPosition.lineNumber CursorPosition.column
         CursorPosition.leftoverVisibleColumns] in Hsteps.
    replace (l + count - count) with l in Hsteps by lia.
    rewrite Ht, Hl in Hsteps. specialize (Hsteps eq_refl).
    destruct (MoveOperations.down config model l c 0 count allowDown)
      as [r|e]; cbn [bind] in *; [|discriminate].
    destruct (MoveOperations.up config model _ _ _ count allowUp)
      as [r'|e]; cbn [bind] in *; [|discriminate].
    rewrite Hsteps. unfold finalLine. cbn [fold_left targetLine].
    replace (l + count - count) with l by lia.
    f_equal. now apply landing_attained.
  - intros steps Hne Hstay reached r.
    split; [now apply Hsteps|]. unfold r, landing.
    cbn [CursorPosition.column CursorPosition.leftoverVisibleColumns].
    split; [lia|]. split.
    + pose proof (visibleColumnFromColumn_nonneg (tabSize config) Htab
                    (lineText model l) c) as Hv. fold v in Hv.
      pose proof (visible_of_columnFromVisibleColumn_below (tabSize config)
                    (lineText model reached) v Hv). lia.
    + intros c' Hc' Hv. now apply landing_attained.
Qed.

Lemma vertical_steps_keep_the_desired_visible_column_witness :
  1 <= tabSize tab4
  /\ validLine bufferTabs 1 = true
  /\ 1 <= 5 <= maxColumnOf bufferTabs 1
  /\ validLine bufferTabs (1 + 2) = true
  /\ (let* r := MoveOperations.down tab4 bufferTabs 1 5 0 2 true in
      MoveOperations.up tab4 bufferTabs (CursorPosition.lineNumber r)
        (CursorPosition.column r) (CursorPosition.leftoverVisibleColumns r)
        2 true)
     = Ok (CursorPosition.mk 1 5 0)
  /\ staysInBuffer bufferTabs 1 [StepDown 1 true; StepDown 1 true] = true
  /\ MoveOperations.down tab4 bufferTabs 1 5 0 1 true
     = Ok (CursorPosition.mk 2 2 3)
  /\ verticalSteps tab4 bufferTabs (CursorPosition.mk 1 5 0)
       [StepDown 1 true; StepDown 1 true]
     = Ok (CursorPosition.mk 3 2 0).
Proof.
  assert (H1 : 1 <= tabSize tab4) by (cbn; lia).
  assert (H2 : 1 <= 5 <= maxColumnOf bufferTabs 1)
    by (split; vm_compute; discriminate).
  destruct (vertical_steps_keep_the_desired_visible_column tab4 bufferTabs
              1 5 H1 eq_refl H2) as [Hround Hseq].
  split; [exact H1|]. split; [reflexivity|]. split; [exact H2|].
  split; [reflexivity|]. split; [exact (Hround 2 true true eq_refl)|].
  split; [reflexivity|]. split; [reflexivity|].
  exact (proj1 (Hseq [StepDown 1 true; StepDown 1 true]
                  ltac:(discriminate) eq_refl)).
Defined.

(** C7 as stated fails: on three lines "aaaa" the caret (2,3) has visible
    column 2, which every line attains.  The step down by 5 lines is
    clamped at line 3, where the caret move snaps to the max column 5; the
    step up by 5 lines is clamped at line 1, where it snaps to column 1.
    The two steps return line 1, column 1, not the original column 3. *)
Lemma clamped_down_then_up_does_not_return_to_the_column :
  CursorColumns.visibleColumnFromColumn (lineText bufferFourAs 2) 3
    (tabSize tab4) = 2
  /\ CursorColumns.visibleColumnFromColumn (lineText bufferFourAs 1) 3
       (tabSize tab4) = 2
  /\ CursorColumns.visibleColumnFromColumn (lineText bufferFourAs 3) 3
       (tabSize tab4) = 2
  /\ MoveOperations.down tab4 bufferFourAs 2 3 0 5 true
     = Ok (CursorPosition.mk 3 5 (-2))
  /\ MoveOperations.up tab4 bufferFourAs 3 5 (-2) 5 true
     = Ok (CursorPosition.mk 1 1 2)
  /\ (let* r := MoveOperations.down tab4 bufferFourAs 2 3 0 5 true in
      MoveOperations.up tab4 bufferFourAs (CursorPosition.lineNumber r)
        (CursorPosition.column r) (CursorPosition.leftoverVisibleColumns r)
        5 true)
     <> Ok (CursorPosition.mk 2 3 0).
Proof.
  split; [reflexivity|]. split; [reflexivity|]. split; [reflexivity|].
  split; [reflexivity|]. split; [reflexivity|].
  vm_compute. discriminate.
Qed.

(* ===================================================================== *)
(** ** Further properties of the horizontal steps *)

Lemma validPosition_intro model l c :
  1 <= l <= Model.getLineCount model ->
  1 <= c <= maxColumnOf model l ->
  validPosition model (Position.mk l c) = true.
Proof.
  intros Hl Hc. apply validPosition_bounds. split; [|exact Hc].
  now apply validLine_bounds.
Qed.

Lemma leftPosition_at_buffer_start rule model c :
  validLine model 1 = true -> c <= 1 ->
  MoveOperations.leftPosition rule model 1 c = Ok (Position.mk 1 c).
Proof.
  intros Hl Hc. unfold MoveOperations.leftPosition.
  rewrite (getLineMinColumn_valid _ _ Hl). cbn [bind].
  replace (c >? 1) with false
    by (symmetry; rewrite Z.gtb_ltb; apply Z.ltb_ge; lia).
  reflexivity.
Qed.

Lemma rightPosition_at_buffer_end rule model c :
  validLine model (Model.getLineCount model) = true ->
  maxColumnOf model (Model.getLineCount model) <= c ->
  MoveOperations.rightPosition rule model (Model.getLineCount model) c
  = Ok (Position.mk (Model.getLineCount model) c).
Proof.
  intros Hl Hc. unfold MoveOperations.rightPosition.
  rewrite (getLineMaxColumn_valid _ _ Hl). cbn [bind].
  replace (c <? _) with false by (symmetry; apply Z.ltb_ge; lia).
  now rewrite Z.ltb_irrefl.
Qed.

(** The three ways a left step from a valid position ends. *)
Lemma leftPosition_cases rule model l c :
  validPosition model (Position.mk l c) = true ->
  (1 < c
   /\ exists k, 1 <= k /\ 1 <= c - k
      /\ MoveOperations.leftPosition rule model l c
         = Ok (Position.mk l (c - k)))
  \/ (c = 1 /\ 1 < l
      /\ MoveOperations.leftPosition rule model l c
         = Ok (Position.mk (l - 1) (maxColumnOf model (l - 1))))
  \/ (c = 1 /\ l = 1
      /\ MoveOperations.leftPosition rule model l c = Ok (Position.mk 1 1)).
Proof.
  intros Hvalid. apply validPosition_bounds in Hvalid as [Hl Hc].
  cbn [Position.lineNumber Position.column] in *.
  pose proof (proj1 (validLine_bounds _ _) Hl) as Hlb.
  destruct (Z.eq_dec c 1) as [->|Hne].
  - right. destruct (Z.eq_dec l 1) as [->|Hl1].
    + right. split; [reflexivity|]. split; [reflexivity|].
      now apply leftPosition_at_buffer_start.
    + left. split; [reflexivity|]. split; [lia|].
      apply leftPosition_wrap; [assumption|lia].
  - left. split; [lia|].
    rewrite leftPosition_inside by (assumption || lia).
    pose proof (prevCharLength_pos rule (lineText model l) (c - 1)).
    pose proof (prevCharLength_in_line rule (lineText model l) (c - 1)
                  ltac:(lia)).
    eexists. split; [|split; [|reflexivity]]; lia.
Qed.

Lemma rightPosition_cases rule model l c :
  validPosition model (Position.mk l c) = true ->
  (c < maxColumnOf model l
   /\ exists k, 1 <= k /\ c + k <= maxColumnOf model l
      /\ MoveOperations.rightPosition rule model l c
         = Ok (Position.mk l (c + k)))
  \/ (c = maxColumnOf model l /\ l < Model.getLineCount model
      /\ MoveOperations.rightPosition rule model l c
         = Ok (Position.mk (l + 1) 1))
  \/ (c = maxColumnOf model l /\ l = Model.getLineCount model
      /\ MoveOperations.rightPosition rule model l c
         = Ok (Position.mk l c)).
Proof.
  intros Hvalid. apply validPosition_bounds in Hvalid as [Hl Hc].
  cbn [Position.lineNumber Position.column] in *.
  pose proof (proj1 (validLine_bounds _ _) Hl) as Hlb.
  destruct (Z.eq_dec c (maxColumnOf model l)) as [->|Hne].
  - right. destruct (Z.eq_dec l (Model.getLineCount model)) as [->|Hlast].
    + right. split; [reflexivity|]. split; [reflexivity|].
      apply rightPosition_at_buffer_end; [assumption|lia].
    + left. split; [reflexivity|]. split; [lia|].
      apply rightPosition_wrap; [assumption|lia].
  - left. split; [lia|].
    rewrite rightPosition_inside by (assumption || lia).
    pose proof (nextCharLength_pos rule (lineText model l) (c - 1)).
    pose proof (nextCharLength_in_line rule (lineText model l) (c - 1)
                  ltac:(unfold maxColumnOf in *; lia)).
    unfold maxColumnOf in *.
    eexists. split; [|split; [|reflexivity]]; lia.
Qed.

(** X1.  A left step and a right step from a valid position return, and
    the position they return is valid again: its line is in the buffer and
    its column lies between that line's min and max column. *)
Theorem horizontal_step_keeps_position_valid :
  forall rule model p,
    validPosition model p = true ->
    (exists q,
       MoveOperations.leftPosition rule model (Position.lineNumber p)
         (Position.column p) = Ok q
       /\ validPosition model q = true)
    /\ (exists q,
          MoveOperations.rightPosition rule model (Position.lineNumber p)
            (Position.column p) = Ok q
          /\ validPosition model q = true).
Proof.
  intros rule model [l c] Hvalid.
  pose proof (proj1 (validPosition_bounds _ _) Hvalid) as [Hl Hc].
  cbn [Position.lineNumber Position.column] in *.
  pose proof (proj1 (validLine_bounds _ _) Hl) as Hlb.
  split.
  - destruct (leftPosition_cases rule _ _ _ Hvalid)
      as [(Hgt & k & Hk & Hlow & ->)|[(-> & Hgt & ->)|(-> & -> & ->)]];
      eexists; (split; [reflexivity|]).
    + apply validPosition_intro; lia.
    + apply validPosition_intro; [lia|].
      pose proof (maxColumnOf_pos model (l - 1)). lia.
    + exact Hvalid.
  - destruct (rightPosition_cases rule _ _ _ Hvalid)
      as [(Hlt & k & Hk & Hhigh & ->)|[(-> & Hlt & ->)|(-> & -> & ->)]];
      eexists; (split; [reflexivity|]).
    + apply validPosition_intro; lia.
    + apply validPosition_intro; [lia|].
      pose proof (maxColumnOf_pos model (l + 1)). lia.
    + exact Hvalid.
Qed.

Lemma horizontal_step_keeps_position_valid_witness :
  validPosition bufferSurrogate (Position.mk 1 4) = true
  /\ (exists q,
        MoveOperations.leftPosition strings.surrogatePairs bufferSurrogate 1 4 = Ok q
        /\ validPosition bufferSurrogate q = true)
  /\ (exists q,
        MoveOperations.rightPosition strings.surrogatePairs bufferSurrogate 1 4 = Ok q
        /\ validPosition bufferSurrogate q = true).
Proof.
  split; [reflexivity|].
  exact (horizontal_step_keeps_position_valid strings.surrogatePairs
           bufferSurrogate
           (Position.mk 1 4) eq_refl).
Defined.

(** X2.  From a valid position a left step returns a position strictly
    before it, except at the start of the buffer, where it returns the
    position itself; a right step returns a position strictly after it,
    except at the end of the buffer, where it returns the position
    itself. *)
Theorem horizontal_step_progresses_except_at_buffer_boundary :
  forall rule model p,
    validPosition model p = true ->
    (exists q,
       MoveOperations.leftPosition rule model (Position.lineNumber p)
         (Position.column p) = Ok q
       /\ (if isBufferStart p then q = p
           else Position_isBefore q p = true))
    /\ (exists q,
          MoveOperations.rightPosition rule model (Position.lineNumber p)
            (Position.column p) = Ok q
          /\ (if isBufferEnd model p then q = p
              else Position_isBefore p q = true)).
Proof.
  intros rule model [l c] Hvalid.
  pose proof (proj1 (validPosition_bounds _ _) Hvalid) as [Hl Hc].
  cbn [Position.lineNumber Position.column] in *.
  unfold isBufferStart, isBufferEnd, Position.equals, Position_isBefore.
  cbn [Position.lineNumber Position.column].
  split.
  - destruct (leftPosition_cases rule _ _ _ Hvalid)
      as [(Hgt & k & Hk & Hlow & ->)|[(-> & Hgt & ->)|(-> & -> & ->)]];
      eexists; (split; [reflexivity|]);
      cbn [Position.lineNumber Position.column].
    + replace (c =? 1) with false by (symmetry; apply Z.eqb_neq; lia).
      rewrite andb_false_r, Z.ltb_irrefl, Z.eqb_refl. cbn.
      apply Z.ltb_lt. lia.
    + replace (l =? 1) with false by (symmetry; apply Z.eqb_neq; lia).
      cbn. replace (l - 1 <? l) with true
        by (symmetry; apply Z.ltb_lt; lia). reflexivity.
    + reflexivity.
  - destruct (rightPosition_cases rule _ _ _ Hvalid)
      as [(Hlt & k & Hk & Hhigh & ->)|[(-> & Hlt & ->)|(-> & Hlast & ->)]];
      eexists; (split; [reflexivity|]);
      cbn [Position.lineNumber Position.column].
    + assert (Hnot : (l =? Model.getLineCount model)
                     && (c =? maxColumnOf model (Model.getLineCount model))
                     = false).
      { apply andb_false_iff.
        destruct (Z.eq_dec l (Model.getLineCount model)) as [E|E].
        - right. rewrite <- E. apply Z.eqb_neq. lia.
        - left. now apply Z.eqb_neq. }
      rewrite Hnot, Z.ltb_irrefl, Z.eqb_refl. cbn. apply Z.ltb_lt. lia.
    + replace (l =? Model.getLineCount model) with false
        by (symmetry; apply Z.eqb_neq; lia).
      cbn. replace (l <? l + 1) with true
        by (symmetry; apply Z.ltb_lt; lia). reflexivity.
    + rewrite <- Hlast, !Z.eqb_refl. reflexivity.
Qed.

Lemma horizontal_step_progresses_witness :
  validPosition bufferTwoLines (Position.mk 2 1) = true
  /\ (exists q,
        MoveOperations.leftPosition strings.surrogatePairs bufferTwoLines 2 1 = Ok q
        /\ Position_isBefore q (Position.mk 2 1) = true)
  /\ validPosition bufferTwoLines (Position.mk 2 3) = true
  /\ (exists q,
        MoveOperations.rightPosition strings.surrogatePairs bufferTwoLines 2 3 = Ok q
        /\ q = Position.mk 2 3).
Proof.
  split; [reflexivity|]. split.
  { exact (proj1 (horizontal_step_progresses_except_at_buffer_boundary
                    strings.surrogatePairs bufferTwoLines (Position.mk 2 1) eq_refl)). }
  split; [reflexivity|].
  exact (proj2 (horizontal_step_progresses_except_at_buffer_boundary
                  strings.surrogatePairs bufferTwoLines (Position.mk 2 3) eq_refl)).
Defined.

(* ===================================================================== *)
(** ** Further properties of the vertical steps *)

Lemma getLineContent_Ok model l text :
  Model.getLineContent model l = Ok text ->
  validLine model l = true /\ text = lineText model l.
Proof.
  intros H. destruct (validLine model l) eqn:E.
  - rewrite (getLineContent_valid _ _ E) in H. now injection H as <-.
  - rewrite (getLineContent_invalid _ _ E) in H. discriminate.
Qed.

Lemma down_clamped config model l c lo count allow :
  validLine model l = true ->
  Model.getLineCount model < l + count ->
  let last := Model.getLineCount model in
  let column' :=
    if allow : bool then maxColumnOf model last
    else Z.min (maxColumnOf model last) c in
  MoveOperations.down config model l c lo count allow
  = Ok (CursorPosition.mk last column'
          (CursorColumns.visibleColumnFromColumn (lineText model l) c
             (tabSize config) + lo
           - CursorColumns.visibleColumnFromColumn (lineText model last)
               column' (tabSize config))).
Proof.
  intros Hl Hout last column'. unfold MoveOperations.down.
  rewrite (getLineContent_valid _ _ Hl). cbn [bind].
  replace (l + count >? Model.getLineCount model) with true
    by (symmetry; rewrite Z.gtb_ltb; apply Z.ltb_lt; lia).
  assert (Hlast : validLine model last = true).
  { apply validLine_bounds. apply validLine_bounds in Hl. unfold last. lia. }
  fold last. unfold column'.
  destruct allow; rewrite (getLineMaxColumn_valid _ _ Hlast);
    cbn [bind Position.lineNumber Position.column];
    now rewrite (getLineContent_valid _ _ Hlast).
Qed.

Lemma up_clamped config model l c lo count allow :
  validLine model l = true ->
  l - count < 1 ->
  let column' :=
    if allow : bool then 1 else Z.min (maxColumnOf model 1) c in
  MoveOperations.up config model l c lo count allow
  = Ok (CursorPosition.mk 1 column'
          (CursorColumns.visibleColumnFromColumn (lineText model l) c
             (tabSize config) + lo
           - CursorColumns.visibleColumnFromColumn (lineText model 1)
               column' (tabSize config))).
Proof.
  intros Hl Hout column'. unfold MoveOperations.up.
  rewrite (getLineContent_valid _ _ Hl). cbn [bind].
  replace (l - count <? 1) with true by (symmetry; apply Z.ltb_lt; lia).
  assert (Hfirst : validLine model 1 = true).
  { apply validLine_bounds. apply validLine_bounds in Hl. lia. }
  unfold column'.
  destruct allow;
    [rewrite (getLineMinColumn_valid _ _ Hfirst)
    |rewrite (getLineMaxColumn_valid _ _ Hfirst)];
    cbn [bind Position.lineNumber Position.column];
    now rewrite (getLineContent_valid _ _ Hfirst).
Qed.

(** X4.  A [moveDown] by [linesCount >= 0] lines of a cursor that is not
    sticky and starts on a line of the buffer returns; the caret lands on
    line [min (l + linesCount) lineCount] at a valid position, at the max
    column of the last line when the target lay below the buffer, and the
    cursor is still not sticky. *)
Theorem moveDown_lands_on_clamped_line_at_valid_position :
  forall config model cursor inSelectionMode linesCount,
    let l := Position.lineNumber (moveDownStart cursor inSelectionMode) in
    SingleCursorState.isEnd cursor = false ->
    validLine model l = true ->
    0 <= linesCount ->
    exists cursor',
      MoveOperations.moveDown config model cursor inSelectionMode linesCount
      = Ok cursor'
      /\ Position.lineNumber (SingleCursorState.position cursor')
         = Z.min (l + linesCount) (Model.getLineCount model)
      /\ validPosition model (SingleCursorState.position cursor') = true
      /\ (Model.getLineCount model < l + linesCount ->
          Position.column (SingleCursorState.position cursor')
          = maxColumnOf model (Model.getLineCount model))
      /\ SingleCursorState.isEnd cursor' = false.
Proof.
  intros config model cursor sel n l Hsticky Hl Hn.
  pose proof (proj1 (validLine_bounds _ _) Hl) as Hlb.
  unfold MoveOperations.moveDown.
  rewrite moveDown_start_eq, Hsticky. fold l. cbn [bind].
  destruct (Z_lt_le_dec (Model.getLineCount model) (l + n)) as [Hout|Hin].
  - rewrite (down_clamped _ _ _ _ _ _ true Hl Hout). cbn [bind].
    eexists. split; [reflexivity|].
    rewrite position_of_move, isEnd_of_move.
    cbn [CursorPosition.lineNumber CursorPosition.column
         Position.lineNumber Position.column].
    split; [lia|]. split; [|split; [reflexivity|reflexivity]].
    apply validPosition_intro; [lia|].
    pose proof (maxColumnOf_pos model (Model.getLineCount model)). lia.
  - assert (Ht : validLine model (l + n) = true)
      by (apply validLine_bounds; lia).
    rewrite (down_unclamped _ _ _ _ _ _ _ Hl Ht). cbn zeta.
    rewrite (columnFromVisibleColumn2_valid _ _ _ _ Ht). cbn [bind].
    eexists. split; [reflexivity|].
    rewrite position_of_move, isEnd_of_move.
    cbn [CursorPosition.lineNumber CursorPosition.column
         Position.lineNumber Position.column].
    split; [lia|]. split; [|split; [lia|reflexivity]].
    apply validPosition_intro; [lia|].
    apply columnFromVisibleColumn_range.
Qed.

Lemma moveDown_lands_witness :
  SingleCursorState.isEnd selectionOnTabs = false
  /\ validLine bufferTabs
       (Position.lineNumber (moveDownStart selectionOnTabs false)) = true
  /\ 0 <= 7
  /\ exists cursor',
       MoveOperations.moveDown tab4 bufferTabs selectionOnTabs false 7
       = Ok cursor'
       /\ SingleCursorState.position cursor' = Position.mk 3 5.
Proof.
  split; [reflexivity|]. split; [reflexivity|]. split; [lia|].
  destruct (moveDown_lands_on_clamped_line_at_valid_position tab4 bufferTabs
              selectionOnTabs false 7 eq_refl eq_refl ltac:(lia))
    as (cursor' & Hrun & _).
  exists cursor'. split; [exact Hrun|].
  cbn in Hrun. injection Hrun as <-. reflexivity.
Defined.

(** X5.  A [moveUp] by [linesCount >= 0] lines of a cursor that is not
    sticky and starts on a line of the buffer returns; the caret lands on
    line [max (l - linesCount) 1] at a valid position, at column 1 when the
    target lay above the buffer, and the cursor is still not sticky. *)
Theorem moveUp_lands_on_clamped_line_at_valid_position :
  forall config model cursor inSelectionMode linesCount,
    let l := Position.lineNumber (moveUpStart cursor inSelectionMode) in
    SingleCursorState.isEnd cursor = false ->
    validLine model l = true ->
    0 <= linesCount ->
    exists cursor',
      MoveOperations.moveUp config model cursor inSelectionMode linesCount
      = Ok cursor'
      /\ Position.lineNumber (SingleCursorState.position cursor')
         = Z.max (l - linesCount) 1
      /\ validPosition model (SingleCursorState.position cursor') = true
      /\ (l - linesCount < 1 ->
          Position.column (SingleCursorState.position cursor') = 1)
      /\ SingleCursorState.isEnd cursor' = false.
Proof.
  intros config model cursor sel n l Hsticky Hl Hn.
  pose proof (proj1 (validLine_bounds _ _) Hl) as Hlb.
  unfold MoveOperations.moveUp.
  rewrite moveUp_start_eq, Hsticky. fold l. cbn [bind].
  destruct (Z_lt_le_dec (l - n) 1) as [Hout|Hin].
  - rewrite (up_clamped _ _ _ _ _ _ true Hl Hout). cbn [bind].
    eexists. split; [reflexivity|].
    rewrite position_of_move, isEnd_of_move.
    cbn [CursorPosition.lineNumber CursorPosition.column
         Position.lineNumber Position.column].
    split; [lia|]. split; [|split; [reflexivity|reflexivity]].
    apply validPosition_intro; [lia|].
    pose proof (maxColumnOf_pos model 1). lia.
  - assert (Ht : validLine model (l - n) = true)
      by (apply validLine_bounds; lia).
    rewrite (up_unclamped _ _ _ _ _ _ _ Hl Ht). cbn zeta.
    rewrite (columnFromVisibleColumn2_valid _ _ _ _ Ht). cbn [bind].
    eexists. split; [reflexivity|].
    rewrite position_of_move, isEnd_of_move.
    cbn [CursorPosition.lineNumber CursorPosition.column
         Position.lineNumber Position.column].
    split; [lia|]. split; [|split; [lia|reflexivity]].
    apply validPosition_intro; [lia|].
    apply columnFromVisibleColumn_range.
Qed.

Lemma moveUp_lands_witness :
  SingleCursorState.isEnd selectionOnTabs = false
  /\ validLine bufferTabs
       (Position.lineNumber (moveUpStart selectionOnTabs false)) = true
  /\ 0 <= 7
  /\ exists cursor',
       MoveOperations.moveUp tab4 bufferTabs selectionOnTabs false 7
       = Ok cursor'
       /\ SingleCursorState.position cursor' = Position.mk 1 1.
Proof.
  split; [reflexivity|]. split; [reflexivity|]. split; [lia|].
  destruct (moveUp_lands_on_clamped_line_at_valid_position tab4 bufferTabs
              selectionOnTabs false 7 eq_refl eq_refl ltac:(lia))
    as (cursor' & Hrun & _).
  exists cursor'. split; [exact Hrun|].
  cbn in Hrun. injection Hrun as <-. reflexivity.
Defined.

Lemma moveStart_of_caret p sel :
  moveDownStart (caretAt p) sel = p /\ moveUpStart (caretAt p) sel = p.
Proof.
  unfold moveDownStart, moveUpStart, SingleCursorState.hasSelection, caretAt.
  cbn. now rewrite Position_equals_refl.
Qed.

Lemma up_as_step config model l c lo count allow :
  MoveOperations.up config model l c lo count allow
  = verticalStep config model (CursorPosition.mk l c lo) (StepUp count allow).
Proof. reflexivity. Qed.

Lemma down_as_step config model l c lo count allow :
  MoveOperations.down config model l c lo count allow
  = verticalStep config model (CursorPosition.mk l c lo)
      (StepDown count allow).
Proof. reflexivity. Qed.

(** X6.  With [tabSize >= 1], a caret at a valid position [(l, c)] that
    [moveDown] sends below the buffer is snapped to the end of the last
    line, and the [moveUp] that brings it back to line [l] restores column
    [c] with leftover 0; likewise a [moveUp] clamped at line 1 is undone by
    the [moveDown] back to line [l]. *)
Theorem clamped_vertical_move_is_undone_by_the_move_back :
  forall config model l c linesCount,
    1 <= tabSize config ->
    validPosition model (Position.mk l c) = true ->
    (Model.getLineCount model < l + linesCount ->
     (let* below := MoveOperations.moveDown config model
                      (caretAt (Position.mk l c)) false linesCount in
      MoveOperations.moveUp config model below false
        (Model.getLineCount model - l))
     = Ok (caretAt (Position.mk l c)))
    /\
    (l - linesCount < 1 ->
     (let* above := MoveOperations.moveUp config model
                      (caretAt (Position.mk l c)) false linesCount in
      MoveOperations.moveDown config model above false (l - 1))
     = Ok (caretAt (Position.mk l c))).
Proof.
  intros config model l c n Htab Hvalid.
  apply validPosition_bounds in Hvalid as [Hl Hc].
  cbn [Position.lineNumber Position.column] in *.
  pose proof (proj1 (validLine_bounds _ _) Hl) as Hlb.
  set (v := CursorColumns.visibleColumnFromColumn (lineText model l) c
              (tabSize config)).
  pose proof (landing_attained config model l c v Htab Hc eq_refl) as Hland.
  split; intros Hout.
  - unfold MoveOperations.moveDown at 1.
    rewrite moveDown_start_eq, (proj1 (moveStart_of_caret _ _)).
    cbn [SingleCursorState.isEnd caretAt bind Position.lineNumber
         Position.column SingleCursorState.leftoverVisibleColumns].
    rewrite (down_clamped _ _ _ _ _ _ true Hl Hout). cbn [bind].
    cbn [CursorPosition.lineNumber CursorPosition.column
         CursorPosition.leftoverVisibleColumns].
    unfold MoveOperations.moveUp.
    rewrite moveUp_start_eq, isEnd_of_move, leftover_of_move,
      (proj2 (moveStart_of_plain_move _ _ _ _ _ _)).
    cbn [bind Position.lineNumber Position.column].
    rewrite up_as_step, verticalStep_landing;
      cbn [CursorPosition.lineNumber CursorPosition.column
           CursorPosition.leftoverVisibleColumns targetLine];
      try (apply validLine_bounds; lia).
    replace (Model.getLineCount model - (Model.getLineCount model - l))
      with l by lia.
    fold v.
    replace (_ + (v + 0 - _)) with v by lia.
    rewrite Hland. reflexivity.
  - unfold MoveOperations.moveUp at 1.
    rewrite moveUp_start_eq, (proj2 (moveStart_of_caret _ _)).
    cbn [SingleCursorState.isEnd caretAt bind Position.lineNumber
         Position.column SingleCursorState.leftoverVisibleColumns].
    rewrite (up_clamped _ _ _ _ _ _ true Hl Hout). cbn [bind].
    cbn [CursorPosition.lineNumber CursorPosition.column
         CursorPosition.leftoverVisibleColumns].
    unfold MoveOperations.moveDown.
    rewrite moveDown_start_eq, isEnd_of_move, leftover_of_move,
      (proj1 (moveStart_of_plain_move _ _ _ _ _ _)).
    cbn [bind Position.lineNumber Position.column].
    rewrite down_as_step, verticalStep_landing;
      cbn [CursorPosition.lineNumber CursorPosition.column
           CursorPosition.leftoverVisibleColumns targetLine];
      try (apply validLine_bounds; lia).
    replace (1 + (l - 1)) with l by lia.
    fold v.
    replace (_ + (v + 0 - _)) with v by lia.
    rewrite Hland. reflexivity.
Qed.

Lemma clamped_vertical_move_is_undone_witness :
  1 <= tabSize tab4
  /\ validPosition bufferTabs (Position.mk 2 1) = true
  /\ Model.getLineCount bufferTabs < 2 + 4
  /\ MoveOperations.moveDown tab4 bufferTabs (caretAt (Position.mk 2 1))
       false 4
     = Ok (SingleCursorState.mk (Position.mk 3 5) (-10) (Position.mk 3 5)
             (-10) false)
  /\ MoveOperations.moveUp tab4 bufferTabs
       (SingleCursorState.mk (Position.mk 3 5) (-10) (Position.mk 3 5)
          (-10) false) false 1
     = Ok (caretAt (Position.mk 2 1)).
Proof.
  assert (H1 : 1 <= tabSize tab4) by (cbn; lia).
  assert (H3 : Model.getLineCount bufferTabs < 2 + 4)
    by (vm_compute; reflexivity).
  split; [exact H1|]. split; [reflexivity|]. split; [exact H3|].
  split; [reflexivity|].
  exact (proj1 (clamped_vertical_move_is_undone_by_the_move_back tab4
                  bufferTabs 2 1 4 H1 eq_refl) H3).
Defined.

(** X7.  Vertical steps that are not clamped compose: two steps in a row,
    down or up in any mix, return exactly what any single step returns
    that reaches the same line, whatever the column and leftover at the
    start and however short the line in between. *)
Theorem unclamped_vertical_steps_compose :
  forall config model p first second single,
    let l := CursorPosition.lineNumber p in
    validLine model l = true ->
    validLine model (targetLine l first) = true ->
    validLine model (targetLine (targetLine l first) second) = true ->
    targetLine l single = targetLine (targetLine l first) second ->
    verticalSteps config model p [first; second]
    = verticalStep config model p single.
Proof.
  intros config model p first second single l Hl H1 H2 Hsame.
  cbn [verticalSteps].
  rewrite (verticalStep_landing _ _ _ first Hl H1). cbn [bind].
  rewrite (verticalStep_landing _ _ _ second);
    rewrite ?landing_lineNumber; try assumption.
  rewrite landing_desired.
  rewrite (verticalStep_landing _ _ _ single Hl); fold l;
    [|now rewrite Hsame].
  now rewrite Hsame.
Qed.

Lemma unclamped_vertical_steps_compose_witness :
  validLine bufferTabs 1 = true
  /\ validLine bufferTabs (1 + 1) = true
  /\ validLine bufferTabs (1 + 1 + 1) = true
  /\ (let* q := MoveOperations.down tab4 bufferTabs 1 6 0 1 true in
      MoveOperations.down tab4 bufferTabs (CursorPosition.lineNumber q)
        (CursorPosition.column q) (CursorPosition.leftoverVisibleColumns q)
        1 true)
     = MoveOperations.down tab4 bufferTabs 1 6 0 2 false.
Proof.
  split; [reflexivity|]. split; [reflexivity|]. split; [reflexivity|].
  pose proof (unclamped_vertical_steps_compose tab4 bufferTabs
                (CursorPosition.mk 1 6 0) (StepDown 1 true)
                (StepDown 1 true) (StepDown 2 false)
                eq_refl eq_refl eq_refl eq_refl) as H.
  cbn [verticalSteps verticalStep CursorPosition.lineNumber
       CursorPosition.column CursorPosition.leftoverVisibleColumns] in H.
  destruct (MoveOperations.down tab4 bufferTabs 1 6 0 1 true) as [q|e];
    cbn [bind] in *; [|exact H].
  destruct (MoveOperations.down tab4 bufferTabs
              (CursorPosition.lineNumber q) (CursorPosition.column q)
              (CursorPosition.leftoverVisibleColumns q) 1 true);
    exact H.
Defined.

(** X8.  The vertical steps clamp at one boundary only: [down] with a
    target line above line 1 (a negative count) and [up] with a target line
    below the last line are not clamped but throw on the line number they
    computed. *)
Theorem vertical_step_throws_past_the_opposite_boundary :
  forall config model l c lo count allow,
    validLine model l = true ->
    (l + count < 1 ->
     MoveOperations.down config model l c lo count allow
     = Throw (IllegalLineNumber (l + count)))
    /\ (Model.getLineCount model < l - count ->
        MoveOperations.up config model l c lo count allow
        = Throw (IllegalLineNumber (l - count))).
Proof.
  intros config model l c lo count allow Hl.
  pose proof (proj1 (validLine_bounds _ _) Hl) as Hlb.
  split; intros Hout.
  - unfold MoveOperations.down.
    rewrite (getLineContent_valid _ _ Hl). cbn [bind].
    replace (l + count >? Model.getLineCount model) with false
      by (symmetry; rewrite Z.gtb_ltb; apply Z.ltb_ge; lia).
    rewrite columnFromVisibleColumn2_invalid; [reflexivity|].
    apply validLine_false_below. lia.
  - unfold MoveOperations.up.
    rewrite (getLineContent_valid _ _ Hl). cbn [bind].
    replace (l - count <? 1) with false by (symmetry; apply Z.ltb_ge; lia).
    rewrite columnFromVisibleColumn2_invalid; [reflexivity|].
    apply validLine_false_above. lia.
Qed.

Lemma vertical_step_throws_past_the_opposite_boundary_witness :
  validLine bufferTabs 2 = true
  /\ 2 + -5 < 1
  /\ MoveOperations.down tab4 bufferTabs 2 1 0 (-5) true
     = Throw (IllegalLineNumber (-3))
  /\ Model.getLineCount bufferTabs < 2 - -5
  /\ MoveOperations.up tab4 bufferTabs 2 1 0 (-5) true
     = Throw (IllegalLineNumber 7).
Proof.
  assert (H1 : 2 + -5 < 1) by lia.
  assert (H2 : Model.getLineCount bufferTabs < 2 - -5)
    by (vm_compute; reflexivity).
  split; [reflexivity|]. split; [exact H1|]. split.
  { exact (proj1 (vertical_step_throws_past_the_opposite_boundary tab4
                    bufferTabs 2 1 0 (-5) true eq_refl) H1). }
  split; [exact H2|].
  exact (proj2 (vertical_step_throws_past_the_opposite_boundary tab4
                  bufferTabs 2 1 0 (-5) true eq_refl) H2).
Defined.

(* ===================================================================== *)
(** ** Translating the two ends of a selection by one line *)

Lemma selection_fields cursor :
  Selection.selectionStartLineNumber (SingleCursorState.selection cursor)
  = Position.lineNumber (SingleCursorState.selectionStart cursor)
  /\ Selection.selectionStartColumn (SingleCursorState.selection cursor)
     = Position.column (SingleCursorState.selectionStart cursor)
  /\ Selection.positionLineNumber (SingleCursorState.selection cursor)
     = Position.lineNumber (SingleCursorState.position cursor)
  /\ Selection.positionColumn (SingleCursorState.selection cursor)
     = Position.column (SingleCursorState.position cursor).
Proof. repeat split. Qed.

Lemma down_on_last_line_keeps_column config model c lo :
  validLine model (Model.getLineCount model) = true ->
  c <= maxColumnOf model (Model.getLineCount model) ->
  MoveOperations.down config model (Model.getLineCount model) c lo 1 false
  = Ok (CursorPosition.mk (Model.getLineCount model) c lo).
Proof.
  intros Hl Hc.
  rewrite (down_clamped _ _ _ _ _ _ false Hl) by lia. cbn zeta.
  rewrite Z.min_r by lia. f_equal. f_equal. lia.
Qed.

Lemma up_on_first_line_keeps_column config model c lo :
  validLine model 1 = true ->
  c <= maxColumnOf model 1 ->
  MoveOperations.up config model 1 c lo 1 false
  = Ok (CursorPosition.mk 1 c lo).
Proof.
  intros Hl Hc.
  rewrite (up_clamped _ _ _ _ _ _ false Hl) by lia. cbn zeta.
  rewrite Z.min_r by lia. f_equal. f_equal. lia.
Qed.

(** X9.  [translateDown] of a cursor whose anchor and floating end are
    both on the last line, at columns not beyond its max column, changes
    neither position nor leftover (it only returns a cursor that is not
    sticky); [translateUp] does the same on line 1. *)
Theorem translate_at_buffer_boundary_keeps_both_ends :
  forall config model cursor,
    let a := SingleCursorState.selectionStart cursor in
    let p := SingleCursorState.position cursor in
    let unchanged :=
      SingleCursorState.mk a
        (SingleCursorState.selectionStartLeftoverVisibleColumns cursor)
        p (SingleCursorState.leftoverVisibleColumns cursor) false in
    1 <= Model.getLineCount model ->
    (Position.lineNumber a = Model.getLineCount model ->
     Position.lineNumber p = Model.getLineCount model ->
     Position.column a <= maxColumnOf model (Model.getLineCount model) ->
     Position.column p <= maxColumnOf model (Model.getLineCount model) ->
     MoveOperations.translateDown config model cursor = Ok unchanged)
    /\
    (Position.lineNumber a = 1 ->
     Position.lineNumber p = 1 ->
     Position.column a <= maxColumnOf model 1 ->
     Position.column p <= maxColumnOf model 1 ->
     MoveOperations.translateUp config model cursor = Ok unchanged).
Proof.
  intros config model cursor a p unchanged Hlines.
  destruct (selection_fields cursor) as (E1 & E2 & E3 & E4).
  split; intros Ha Hp Hca Hcp.
  - assert (Hl : validLine model (Model.getLineCount model) = true)
      by (apply validLine_bounds; lia).
    unfold MoveOperations.translateDown. rewrite E1, E2, E3, E4.
    fold a p. rewrite Ha, Hp.
    rewrite !down_on_last_line_keeps_column by assumption. cbn [bind].
    cbn [CursorPosition.lineNumber CursorPosition.column
         CursorPosition.leftoverVisibleColumns].
    rewrite <- Ha at 1. rewrite <- Hp at 1. now rewrite !Position_eta.
  - assert (Hl : validLine model 1 = true) by (apply validLine_bounds; lia).
    unfold MoveOperations.translateUp. rewrite E1, E2, E3, E4.
    fold a p. rewrite Ha, Hp.
    rewrite !up_on_first_line_keeps_column by assumption. cbn [bind].
    cbn [CursorPosition.lineNumber CursorPosition.column
         CursorPosition.leftoverVisibleColumns].
    rewrite <- Ha at 1. rewrite <- Hp at 1. now rewrite !Position_eta.
Qed.

Lemma translate_at_buffer_boundary_witness :
  1 <= Model.getLineCount bufferHello
  /\ MoveOperations.translateDown tab4 bufferHello
       (SingleCursorState.mk (Position.mk 1 2) 3 (Position.mk 1 6) 4 true)
     = Ok (SingleCursorState.mk (Position.mk 1 2) 3 (Position.mk 1 6) 4
             false)
  /\ MoveOperations.translateUp tab4 bufferHello
       (SingleCursorState.mk (Position.mk 1 2) 3 (Position.mk 1 6) 4 true)
     = Ok (SingleCursorState.mk (Position.mk 1 2) 3 (Position.mk 1 6) 4
             false).
Proof.
  assert (H1 : 1 <= Model.getLineCount bufferHello)
    by (vm_compute; discriminate).
  destruct (translate_at_buffer_boundary_keeps_both_ends tab4 bufferHello
              (SingleCursorState.mk (Position.mk 1 2) 3 (Position.mk 1 6) 4
                 true) H1) as [Hdown Hup].
  split; [exact H1|]. split.
  - apply Hdown; try reflexivity; vm_compute; discriminate.
  - apply Hup; try reflexivity; vm_compute; discriminate.
Defined.

(** X10.  With [tabSize >= 1], for a cursor whose anchor and floating end
    are valid positions above the last line and whose two leftovers are 0,
    [translateUp] after [translateDown] returns the anchor and the floating
    end where they were, with both leftovers 0. *)
Theorem translateUp_undoes_translateDown :
  forall config model cursor,
    let a := SingleCursorState.selectionStart cursor in
    let p := SingleCursorState.position cursor in
    1 <= tabSize config ->
    validPosition model a = true ->
    validPosition model p = true ->
    Position.lineNumber a < Model.getLineCount model ->
    Position.lineNumber p < Model.getLineCount model ->
    SingleCursorState.selectionStartLeftoverVisibleColumns cursor = 0 ->
    SingleCursorState.leftoverVisibleColumns cursor = 0 ->
    (let* below := MoveOperations.translateDown config model cursor in
     MoveOperations.translateUp config model below)
    = Ok (SingleCursorState.mk a 0 p 0 false).
Proof.
  intros config model cursor a p Htab Hva Hvp Hla Hlp Hslo Hlo.
  apply validPosition_bounds in Hva as [Hal Hac].
  apply validPosition_bounds in Hvp as [Hpl Hpc].
  pose proof (proj1 (validLine_bounds _ _) Hal) as Halb.
  pose proof (proj1 (validLine_bounds _ _) Hpl) as Hplb.
  destruct (selection_fields cursor) as (E1 & E2 & E3 & E4).
  unfold MoveOperations.translateDown. rewrite E1, E2, E3, E4, Hslo, Hlo.
  fold a p.
  rewrite !down_as_step.
  rewrite !verticalStep_landing
    by (cbn [CursorPosition.lineNumber targetLine];
        (assumption || (apply validLine_bounds; lia))).
  cbn [bind CursorPosition.lineNumber CursorPosition.column
       CursorPosition.leftoverVisibleColumns targetLine].
  rewrite !Z.add_0_r.
  set (va := CursorColumns.visibleColumnFromColumn
               (lineText model (Position.lineNumber a)) (Position.column a)
               (tabSize config)).
  set (vp := CursorColumns.visibleColumnFromColumn
               (lineText model (Position.lineNumber p)) (Position.column p)
               (tabSize config)).
  unfold MoveOperations.translateUp.
  destruct (selection_fields
              (SingleCursorState.mk
                 (Position.mk
                    (CursorPosition.lineNumber
                       (landing config model (Position.lineNumber a + 1) va))
                    (CursorPosition.column
                       (landing config model (Position.lineNumber a + 1) va)))
                 (CursorPosition.leftoverVisibleColumns
                    (landing config model (Position.lineNumber a + 1) va))
                 (Position.mk
                    (CursorPosition.lineNumber
                       (landing config model (Position.lineNumber p + 1) vp))
                    (CursorPosition.column
                       (landing config model (Position.lineNumber p + 1) vp)))
                 (CursorPosition.leftoverVisibleColumns
                    (landing config model (Position.lineNumber p + 1) vp))
                 false)) as (F1 & F2 & F3 & F4).
  rewrite F1, F2, F3, F4.
  cbn [SingleCursorState.selectionStart SingleCursorState.position
       SingleCursorState.selectionStartLeftoverVisibleColumns
       SingleCursorState.leftoverVisibleColumns
       Position.lineNumber Position.column].
  rewrite !up_as_step.
  rewrite !verticalStep_landing
    by (cbn [CursorPosition.lineNumber targetLine];
        rewrite ?landing_lineNumber; apply validLine_bounds; lia).
  cbn [CursorPosition.lineNumber CursorPosition.column
       CursorPosition.leftoverVisibleColumns targetLine].
  rewrite !landing_lineNumber, !landing_desired.
  replace (Position.lineNumber a + 1 - 1) with (Position.lineNumber a)
    by lia.
  replace (Position.lineNumber p + 1 - 1) with (Position.lineNumber p)
    by lia.
  rewrite (landing_attained config model _ _ va Htab Hac eq_refl).
  rewrite (landing_attained config model _ _ vp Htab Hpc eq_refl).
  cbn [bind CursorPosition.lineNumber CursorPosition.column
       CursorPosition.leftoverVisibleColumns].
  now rewrite !Position_eta.
Qed.

Lemma translateUp_undoes_translateDown_witness :
  1 <= tabSize tab4
  /\ validPosition bufferTabs (Position.mk 1 6) = true
  /\ validPosition bufferTabs (Position.mk 2 2) = true
  /\ MoveOperations.translateDown tab4 bufferTabs
       (SingleCursorState.mk (Position.mk 1 6) 0 (Position.mk 2 2) 0 false)
     = Ok (SingleCursorState.mk (Position.mk 2 2) 4 (Position.mk 3 1) 1
             false)
  /\ MoveOperations.translateUp tab4 bufferTabs
       (SingleCursorState.mk (Position.mk 2 2) 4 (Position.mk 3 1) 1 false)
     = Ok (SingleCursorState.mk (Position.mk 1 6) 0 (Position.mk 2 2) 0
             false).
Proof.
  assert (H1 : 1 <= tabSize tab4) by (cbn; lia).
  split; [exact H1|]. split; [reflexivity|]. split; [reflexivity|].
  split; [reflexivity|].
  exact (translateUp_undoes_translateDown tab4 bufferTabs
           (SingleCursorState.mk (Position.mk 1 6) 0 (Position.mk 2 2) 0
              false)
           H1 eq_refl eq_refl ltac:(vm_compute; reflexivity)
           ltac:(vm_compute; reflexivity) eq_refl eq_refl).
Defined.

Lemma down_lands config model l c lo count allow :
  validLine model l = true ->
  0 <= count ->
  allow = true \/ 1 <= c ->
  exists r,
    MoveOperations.down config model l c lo count allow = Ok r
    /\ CursorPosition.lineNumber r
       = Z.min (l + count) (Model.getLineCount model)
    /\ validPosition model
         (Position.mk (CursorPosition.lineNumber r) (CursorPosition.column r))
       = true.
Proof.
  intros Hl Hcount Hcol.
  pose proof (proj1 (validLine_bounds _ _) Hl) as Hlb.
  destruct (Z_lt_le_dec (Model.getLineCount model) (l + count)) as [Hout|Hin].
  - rewrite (down_clamped _ _ _ _ _ _ allow Hl Hout). cbn zeta.
    eexists. split; [reflexivity|].
    cbn [CursorPosition.lineNumber CursorPosition.column].
    split; [lia|]. apply validPosition_intro; [lia|].
    pose proof (maxColumnOf_pos model (Model.getLineCount model)).
    destruct allow; [lia|]. destruct Hcol; [discriminate|lia].
  - assert (Ht : validLine model (l + count) = true)
      by (apply validLine_bounds; lia).
    rewrite (down_unclamped _ _ _ _ _ _ _ Hl Ht). cbn zeta.
    rewrite (columnFromVisibleColumn2_valid _ _ _ _ Ht). cbn [bind].
    eexists. split; [reflexivity|].
    cbn [CursorPosition.lineNumber CursorPosition.column].
    split; [lia|]. apply validPosition_intro; [lia|].
    apply columnFromVisibleColumn_range.
Qed.

Lemma up_lands config model l c lo count allow :
  validLine model l = true ->
  0 <= count ->
  allow = true \/ 1 <= c ->
  exists r,
    MoveOperations.up config model l c lo count allow = Ok r
    /\ CursorPosition.lineNumber r = Z.max (l - count) 1
    /\ validPosition model
         (Position.mk (CursorPosition.lineNumber r) (CursorPosition.column r))
       = true.
Proof.
  intros Hl Hcount Hcol.
  pose proof (proj1 (validLine_bounds _ _) Hl) as Hlb.
  destruct (Z_lt_le_dec (l - count) 1) as [Hout|Hin].
  - rewrite (up_clamped _ _ _ _ _ _ allow Hl Hout). cbn zeta.
    eexists. split; [reflexivity|].
    cbn [CursorPosition.lineNumber CursorPosition.column].
    split; [lia|]. apply validPosition_intro; [lia|].
    pose proof (maxColumnOf_pos model 1).
    destruct allow; [lia|]. destruct Hcol; [discriminate|lia].
  - assert (Ht : validLine model (l - count) = true)
      by (apply validLine_bounds; lia).
    rewrite (up_unclamped _ _ _ _ _ _ _ Hl Ht). cbn zeta.
    rewrite (columnFromVisibleColumn2_valid _ _ _ _ Ht). cbn [bind].
    eexists. split; [reflexivity|].
    cbn [CursorPosition.lineNumber CursorPosition.column].
    split; [lia|]. apply validPosition_intro; [lia|].
    apply columnFromVisibleColumn_range.
Qed.

(** X11.  When the anchor and the floating end are on lines of the buffer
    at columns >= 1, [translateDown] and [translateUp] return; each end is
    moved on its own, to line [min (l + 1) lineCount] (respectively
    [max (l - 1) 1]) of its own line [l], and both returned ends are valid
    positions. *)
Theorem translate_moves_each_end_one_line_to_a_valid_position :
  forall config model cursor,
    let a := SingleCursorState.selectionStart cursor in
    let p := SingleCursorState.position cursor in
    validLine model (Position.lineNumber a) = true ->
    validLine model (Position.lineNumber p) = true ->
    1 <= Position.column a ->
    1 <= Position.column p ->
    (exists cursor',
       MoveOperations.translateDown config model cursor = Ok cursor'
       /\ Position.lineNumber (SingleCursorState.selectionStart cursor')
          = Z.min (Position.lineNumber a + 1) (Model.getLineCount model)
       /\ Position.lineNumber (SingleCursorState.position cursor')
          = Z.min (Position.lineNumber p + 1) (Model.getLineCount model)
       /\ validPosition model (SingleCursorState.selectionStart cursor')
          = true
       /\ validPosition model (SingleCursorState.position cursor') = true)
    /\
    (exists cursor',
       MoveOperations.translateUp config model cursor = Ok cursor'
       /\ Position.lineNumber (SingleCursorState.selectionStart cursor')
          = Z.max (Position.lineNumber a - 1) 1
       /\ Position.lineNumber (SingleCursorState.position cursor')
          = Z.max (Position.lineNumber p - 1) 1
       /\ validPosition model (SingleCursorState.selectionStart cursor')
          = true
       /\ validPosition model (SingleCursorState.position cursor') = true).
Proof.
  intros config model cursor a p Hal Hpl Hac Hpc.
  destruct (selection_fields cursor) as (E1 & E2 & E3 & E4).
  split.
  - unfold MoveOperations.translateDown. rewrite E1, E2, E3, E4. fold a p.
    destruct (down_lands config model (Position.lineNumber a)
                (Position.column a)
                (SingleCursorState.selectionStartLeftoverVisibleColumns
                   cursor) 1 false Hal ltac:(lia) (or_intror Hac))
      as (ra & -> & Hra & Hva).
    destruct (down_lands config model (Position.lineNumber p)
                (Position.column p)
                (SingleCursorState.leftoverVisibleColumns cursor)
                1 false Hpl ltac:(lia) (or_intror Hpc))
      as (rp & -> & Hrp & Hvp).
    cbn [bind]. eexists. split; [reflexivity|].
    cbn [SingleCursorState.selectionStart SingleCursorState.position
         Position.lineNumber].
    repeat split; assumption.
  - unfold MoveOperations.translateUp. rewrite E1, E2, E3, E4. fold a p.
    destruct (up_lands config model (Position.lineNumber a)
                (Position.column a)
                (SingleCursorState.selectionStartLeftoverVisibleColumns
                   cursor) 1 false Hal ltac:(lia) (or_intror Hac))
      as (ra & -> & Hra & Hva).
    destruct (up_lands config model (Position.lineNumber p)
                (Position.column p)
                (SingleCursorState.leftoverVisibleColumns cursor)
                1 false Hpl ltac:(lia) (or_intror Hpc))
      as (rp & -> & Hrp & Hvp).
    cbn [bind]. eexists. split; [reflexivity|].
    cbn [SingleCursorState.selectionStart SingleCursorState.position
         Position.lineNumber].
    repeat split; assumption.
Qed.

Lemma translate_moves_each_end_witness :
  validLine bufferTabs (Position.lineNumber (Position.mk 1 2)) = true
  /\ validLine bufferTabs (Position.lineNumber (Position.mk 3 1)) = true
  /\ 1 <= 2 /\ 1 <= 1
  /\ (exists cursor',
        MoveOperations.translateDown tab4 bufferTabs selectionOnTabs
        = Ok cursor'
        /\ Position.lineNumber (SingleCursorState.selectionStart cursor')
           = 2
        /\ Position.lineNumber (SingleCursorState.position cursor') = 3).
Proof.
  split; [reflexivity|]. split; [reflexivity|].
  split; [lia|]. split; [lia|].
  destruct (proj1 (translate_moves_each_end_one_line_to_a_valid_position
                     tab4 bufferTabs selectionOnTabs eq_refl eq_refl
                     ltac:(cbn; lia) ltac:(cbn; lia)))
    as (cursor' & Hrun & Ha & Hp & _).
  exists cursor'. split; [exact Hrun|]. split; [exact Ha|exact Hp].
Defined.

(* ===================================================================== *)
(** ** The anchor across all operations *)

Lemma move_anchor cursor inSelectionMode l c lo sticky :
  let cursor' :=
    SingleCursorState.move cursor inSelectionMode l c lo sticky in
  if inSelectionMode then
    SingleCursorState.selectionStart cursor'
    = SingleCursorState.selectionStart cursor
    /\ SingleCursorState.selectionStartLeftoverVisibleColumns cursor'
       = SingleCursorState.selectionStartLeftoverVisibleColumns cursor
  else
    SingleCursorState.selectionStart cursor'
    = SingleCursorState.position cursor'
    /\ SingleCursorState.selectionStartLeftoverVisibleColumns cursor'
       = SingleCursorState.leftoverVisibleColumns cursor'
    /\ SingleCursorState.hasSelection cursor' = false.
Proof.
  destruct inSelectionMode; cbn; [tauto|].
  unfold SingleCursorState.hasSelection. cbn.
  now rewrite Position_equals_refl.
Qed.

(** X12.  Every operation that takes the extend-selection flag treats the
    anchor the same way.  Called with the flag set it returns the anchor
    and the anchor's leftover unchanged; called without it, it returns a
    cursor with no selection, whose anchor is its floating end and whose
    two leftovers are equal. *)
Theorem operations_keep_or_collapse_the_anchor :
  forall rule config model cursor command cursor',
    execute rule config model cursor command = Ok cursor' ->
    match selectionModeOf command with
    | Some true =>
        SingleCursorState.selectionStart cursor'
        = SingleCursorState.selectionStart cursor
        /\ SingleCursorState.selectionStartLeftoverVisibleColumns cursor'
           = SingleCursorState.selectionStartLeftoverVisibleColumns cursor
    | Some false =>
        SingleCursorState.selectionStart cursor'
        = SingleCursorState.position cursor'
        /\ SingleCursorState.selectionStartLeftoverVisibleColumns cursor'
           = SingleCursorState.leftoverVisibleColumns cursor'
        /\ SingleCursorState.hasSelection cursor' = false
    | None => True
    end.
Proof.
  intros rule config model cursor command cursor' Hrun.
  destruct command as [sel n|sel n|sel n| |sel n| |sel|sel|sel|sel];
    cbn [execute selectionModeOf] in *; try exact I.
  - unfold MoveOperations.moveLeft in Hrun. bind_ok Hrun q Hq.
    injection Hrun as <-. apply move_anchor.
  - unfold MoveOperations.moveRight in Hrun. bind_ok Hrun q Hq.
    injection Hrun as <-. apply move_anchor.
  - unfold MoveOperations.moveDown in Hrun.
    bind_ok Hrun column Hcolumn. bind_ok Hrun r Hr.
    injection Hrun as <-. apply move_anchor.
  - unfold MoveOperations.moveUp in Hrun.
    bind_ok Hrun column Hcolumn. bind_ok Hrun r Hr.
    injection Hrun as <-. apply move_anchor.
  - unfold MoveOperations.moveToBeginningOfLine in Hrun.
    bind_ok Hrun minColumn Hmin. bind_ok Hrun found Hfound.
    injection Hrun as <-. apply move_anchor.
  - unfold MoveOperations.moveToEndOfLine in Hrun.
    bind_ok Hrun maxColumn Hmax. injection Hrun as <-. apply move_anchor.
  - unfold MoveOperations.moveToBeginningOfBuffer in Hrun.
    injection Hrun as <-. apply move_anchor.
  - unfold MoveOperations.moveToEndOfBuffer in Hrun.
    bind_ok Hrun lastColumn Hlast. injection Hrun as <-. apply move_anchor.
Qed.

Lemma operations_keep_or_collapse_the_anchor_witness :
  execute strings.surrogatePairs tab4 bufferTabs selectionOnTabs (MoveUp true 1)
  = Ok (SingleCursorState.mk (Position.mk 1 2) 0 (Position.mk 2 1) 0 false)
  /\ SingleCursorState.selectionStart
       (SingleCursorState.mk (Position.mk 1 2) 0 (Position.mk 2 1) 0 false)
     = SingleCursorState.selectionStart selectionOnTabs
  /\ SingleCursorState.selectionStartLeftoverVisibleColumns
       (SingleCursorState.mk (Position.mk 1 2) 0 (Position.mk 2 1) 0 false)
     = SingleCursorState.selectionStartLeftoverVisibleColumns
         selectionOnTabs.
Proof.
  split; [reflexivity|].
  exact (operations_keep_or_collapse_the_anchor strings.surrogatePairs tab4
           bufferTabs
           selectionOnTabs (MoveUp true 1) _ eq_refl).
Defined.

(* ===================================================================== *)
(** ** The absolute moves *)

Lemma move_twice cursor sel l c lo sticky l' c' lo' sticky' :
  SingleCursorState.move
    (SingleCursorState.move cursor sel l c lo sticky) sel l' c' lo' sticky'
  = SingleCursorState.move cursor sel l' c' lo' sticky'.
Proof. now destruct sel. Qed.

(** X14.  [moveToEndOfLine], [moveToBeginningOfBuffer] and
    [moveToEndOfBuffer] are idempotent: invoked a second time with the same
    extend-selection flag, each returns what its first invocation
    returned, a thrown error included. *)
Theorem absolute_moves_are_idempotent :
  forall config model cursor inSelectionMode,
    (let* once := MoveOperations.moveToEndOfLine config model cursor
                    inSelectionMode in
     MoveOperations.moveToEndOfLine config model once inSelectionMode)
    = MoveOperations.moveToEndOfLine config model cursor inSelectionMode
    /\ (let* once := MoveOperations.moveToBeginningOfBuffer config model
                       cursor inSelectionMode in
        MoveOperations.moveToBeginningOfBuffer config model once
          inSelectionMode)
       = MoveOperations.moveToBeginningOfBuffer config model cursor
           inSelectionMode
    /\ (let* once := MoveOperations.moveToEndOfBuffer config model cursor
                       inSelectionMode in
        MoveOperations.moveToEndOfBuffer config model once inSelectionMode)
       = MoveOperations.moveToEndOfBuffer config model cursor
           inSelectionMode.
Proof.
  intros config model cursor sel. split; [|split].
  - unfold MoveOperations.moveToEndOfLine.
    destruct (Model.getLineMaxColumn model
                (Position.lineNumber (SingleCursorState.position cursor)))
      as [maxColumn|e] eqn:E; cbn [bind]; [|reflexivity].
    rewrite position_of_move. cbn [Position.lineNumber].
    rewrite E. cbn [bind]. now rewrite move_twice.
  - unfold MoveOperations.moveToBeginningOfBuffer. cbn [bind].
    now rewrite move_twice.
  - unfold MoveOperations.moveToEndOfBuffer.
    destruct (Model.getLineMaxColumn model (Model.getLineCount model))
      as [lastColumn|e]; cbn [bind]; [|reflexivity].
    now rewrite move_twice.
Qed.

(** X15.  On a buffer with at least one line, a [moveLeft] by one column
    right after [moveToBeginningOfBuffer], and a [moveRight] by one column
    right after [moveToEndOfBuffer], called with the same extend-selection
    flag, leave the cursor as the buffer move returned it. *)
Theorem horizontal_move_at_buffer_boundary_changes_nothing :
  forall rule config model cursor inSelectionMode,
    1 <= Model.getLineCount model ->
    (let* start := MoveOperations.moveToBeginningOfBuffer config model
                     cursor inSelectionMode in
     MoveOperations.moveLeft rule config model start inSelectionMode 1)
    = MoveOperations.moveToBeginningOfBuffer config model cursor
        inSelectionMode
    /\ (let* finish := MoveOperations.moveToEndOfBuffer config model cursor
                         inSelectionMode in
        MoveOperations.moveRight rule config model finish inSelectionMode 1)
       = MoveOperations.moveToEndOfBuffer config model cursor
           inSelectionMode.
Proof.
  intros rule config model cursor sel Hlines.
  assert (Hfirst : validLine model 1 = true) by (apply validLine_bounds; lia).
  assert (Hlast : validLine model (Model.getLineCount model) = true)
    by (apply validLine_bounds; lia).
  assert (Hplain : forall l c lo sticky,
    SingleCursorState.hasSelection
      (SingleCursorState.move cursor sel l c lo sticky) && negb sel = false).
  { intros l c lo sticky. destruct sel; [apply andb_false_r|].
    unfold SingleCursorState.hasSelection. cbn.
    now rewrite Position_equals_refl. }
  split.
  - unfold MoveOperations.moveToBeginningOfBuffer. cbn [bind].
    unfold MoveOperations.moveLeft, MoveOperations.left.
    rewrite Hplain, position_of_move.
    cbn [Position.lineNumber Position.column].
    rewrite leftPosition_at_buffer_start by (assumption || lia).
    cbn [bind CursorPosition.lineNumber CursorPosition.column
         Position.lineNumber Position.column].
    now rewrite move_twice.
  - unfold MoveOperations.moveToEndOfBuffer.
    rewrite (getLineMaxColumn_valid _ _ Hlast). cbn [bind].
    unfold MoveOperations.moveRight, MoveOperations.right.
    rewrite Hplain, position_of_move.
    cbn [Position.lineNumber Position.column].
    replace (maxColumnOf model (Model.getLineCount model) + (1 - 1))
      with (maxColumnOf model (Model.getLineCount model)) by lia.
    rewrite rightPosition_at_buffer_end by (assumption || lia).
    cbn [bind CursorPosition.lineNumber CursorPosition.column
         Position.lineNumber Position.column].
    now rewrite move_twice.
Qed.

Lemma horizontal_move_at_buffer_boundary_witness :
  1 <= Model.getLineCount bufferTabs
  /\ MoveOperations.moveToEndOfBuffer tab4 bufferTabs selectionOnTabs true
     = Ok (SingleCursorState.mk (Position.mk 1 2) 0 (Position.mk 3 5) 0
             false)
  /\ MoveOperations.moveRight strings.surrogatePairs tab4 bufferTabs
       (SingleCursorState.mk (Position.mk 1 2) 0 (Position.mk 3 5) 0 false)
       true 1
     = Ok (SingleCursorState.mk (Position.mk 1 2) 0 (Position.mk 3 5) 0
             false).
Proof.
  assert (H1 : 1 <= Model.getLineCount bufferTabs)
    by (vm_compute; discriminate).
  split; [exact H1|]. split; [reflexivity|].
  exact (proj2 (horizontal_move_at_buffer_boundary_changes_nothing
                  strings.surrogatePairs tab4 bufferTabs selectionOnTabs true H1)).
Defined.

(* ===================================================================== *)
(** ** The line-relative moves *)

Lemma firstNonWhitespaceIndexFrom_upper str : forall i k,
  strings.firstNonWhitespaceIndexFrom str i = Some k -> k < i + strlen str.
Proof.
  unfold strlen.
  induction str as [|chCode rest IH]; intros i k; cbn [length];
    cbn [strings.firstNonWhitespaceIndexFrom]; [discriminate|].
  destruct (_ || _).
  - intros H. apply IH in H. lia.
  - intros [= <-]. lia.
Qed.

Lemma firstNonBlankColumnOf_upper text :
  firstNonBlankColumnOf text <= strlen text + 1.
Proof.
  unfold firstNonBlankColumnOf, strings.firstNonWhitespaceIndex.
  destruct (strings.firstNonWhitespaceIndexFrom text 0) as [k|] eqn:E.
  - apply firstNonWhitespaceIndexFrom_upper in E. lia.
  - unfold strlen. lia.
Qed.

(** X16.  When the floating end is on a line of the buffer, whatever its
    column, [moveToBeginningOfLine] and [moveToEndOfLine] return; the
    floating end they return is on the same line, at a valid position, with
    leftover 0, and [moveToEndOfLine] puts it on the line's max column. *)
Theorem line_relative_moves_stay_on_the_line_at_a_valid_position :
  forall config model cursor inSelectionMode,
    let l := Position.lineNumber (SingleCursorState.position cursor) in
    validLine model l = true ->
    (exists cursor',
       MoveOperations.moveToBeginningOfLine config model cursor
         inSelectionMode = Ok cursor'
       /\ Position.lineNumber (SingleCursorState.position cursor') = l
       /\ validPosition model (SingleCursorState.position cursor') = true
       /\ SingleCursorState.leftoverVisibleColumns cursor' = 0)
    /\
    (exists cursor',
       MoveOperations.moveToEndOfLine config model cursor inSelectionMode
       = Ok cursor'
       /\ SingleCursorState.position cursor'
          = Position.mk l (maxColumnOf model l)
       /\ validPosition model (SingleCursorState.position cursor') = true
       /\ SingleCursorState.leftoverVisibleColumns cursor' = 0).
Proof.
  intros config model cursor sel l Hl.
  pose proof (proj1 (validLine_bounds _ _) Hl) as Hlb.
  pose proof (maxColumnOf_pos model l) as Hmax.
  split.
  - rewrite (moveToBeginningOfLine_valid config model cursor sel Hl).
    fold l. eexists. split; [reflexivity|].
    rewrite position_of_move, leftover_of_move.
    cbn [Position.lineNumber]. split; [reflexivity|].
    split; [|reflexivity].
    apply validPosition_intro; [lia|].
    pose proof (firstNonBlankColumnOf_pos (lineText model l)).
    pose proof (firstNonBlankColumnOf_upper (lineText model l)).
    unfold maxColumnOf in *. destruct (_ =? _); lia.
  - unfold MoveOperations.moveToEndOfLine. fold l.
    rewrite (getLineMaxColumn_valid _ _ Hl). cbn [bind].
    eexists. split; [reflexivity|].
    rewrite position_of_move, leftover_of_move.
    split; [reflexivity|]. split; [|reflexivity].
    apply validPosition_intro; lia.
Qed.

Lemma line_relative_moves_witness :
  validLine bufferHello
    (Position.lineNumber
       (SingleCursorState.position (caretAt (Position.mk 1 40)))) = true
  /\ (exists cursor',
        MoveOperations.moveToBeginningOfLine tab4 bufferHello
          (caretAt (Position.mk 1 40)) false = Ok cursor'
        /\ SingleCursorState.position cursor' = Position.mk 1 4)
  /\ (exists cursor',
        MoveOperations.moveToEndOfLine tab4 bufferHello
          (caretAt (Position.mk 1 40)) false = Ok cursor'
        /\ SingleCursorState.position cursor' = Position.mk 1 9).
Proof.
  destruct (line_relative_moves_stay_on_the_line_at_a_valid_position tab4
              bufferHello (caretAt (Position.mk 1 40)) false eq_refl)
    as [(home & Hhome & _) (fin & Hfin & Hpos & _)].
  split; [reflexivity|]. split.
  - exists home. split; [exact Hhome|].
    cbn in Hhome. injection Hhome as <-. reflexivity.
  - exists fin. split; [exact Hfin|exact Hpos].
Defined.

(* ===================================================================== *)
(** ** Sticky end-of-line over repeated one-line moves *)

Lemma moveStart_of_move cursor sel l c lo sticky :
  moveDownStart (SingleCursorState.move cursor sel l c lo sticky) sel
  = Position.mk l c
  /\ moveUpStart (SingleCursorState.move cursor sel l c lo sticky) sel
     = Position.mk l c.
Proof.
  destruct sel; [|apply moveStart_of_plain_move].
  unfold moveDownStart, moveUpStart. rewrite andb_false_r.
  now rewrite position_of_move.
Qed.

Lemma sticky_moveDown_one_line config model cursor sel :
  let l := Position.lineNumber (moveDownStart cursor sel) in
  SingleCursorState.isEnd cursor = true ->
  validLine model l = true ->
  validLine model (l + 1) = true ->
  exists lo,
    MoveOperations.moveDown config model cursor sel 1
    = Ok (SingleCursorState.move cursor sel (l + 1)
            (maxColumnOf model (l + 1)) lo true).
Proof.
  intros l Hsticky Hl Hnext. unfold MoveOperations.moveDown.
  rewrite moveDown_start_eq. fold l. rewrite Hsticky.
  rewrite (getLineMaxColumn_valid _ _ Hnext). cbn [bind].
  rewrite (down_unclamped _ _ _ _ _ _ _ Hl Hnext). cbn zeta.
  rewrite (columnFromVisibleColumn2_valid _ _ _ _ Hnext). cbn [bind].
  eexists. reflexivity.
Qed.

Lemma sticky_moveUp_one_line config model cursor sel :
  let l := Position.lineNumber (moveUpStart cursor sel) in
  SingleCursorState.isEnd cursor = true ->
  validLine model l = true ->
  validLine model (l - 1) = true ->
  exists lo,
    MoveOperations.moveUp config model cursor sel 1
    = Ok (SingleCursorState.move cursor sel (l - 1)
            (maxColumnOf model (l - 1)) lo true).
Proof.
  intros l Hsticky Hl Hprev. unfold MoveOperations.moveUp.
  rewrite moveUp_start_eq. fold l. rewrite Hsticky.
  rewrite (getLineMaxColumn_valid _ _ Hprev). cbn [bind].
  rewrite (up_unclamped _ _ _ _ _ _ _ Hl Hprev). cbn zeta.
  rewrite (columnFromVisibleColumn2_valid _ _ _ _ Hprev). cbn [bind].
  eexists. reflexivity.
Qed.

Lemma moveDownTimes_sticky config model sel : forall (k : nat) cursor,
  SingleCursorState.isEnd cursor = true ->
  validLine model (Position.lineNumber (moveDownStart cursor sel)) = true ->
  validLine model
    (Position.lineNumber (moveDownStart cursor sel) + Z.of_nat (S k)) = true ->
  exists cursor',
    moveDownTimes config model (S k) sel cursor = Ok cursor'
    /\ SingleCursorState.position cursor'
       = Position.mk
           (Position.lineNumber (moveDownStart cursor sel) + Z.of_nat (S k))
           (maxColumnOf model
              (Position.lineNumber (moveDownStart cursor sel)
               + Z.of_nat (S k)))
    /\ SingleCursorState.isEnd cursor' = true.
Proof.
  induction k as [|k IH]; intros cursor Hsticky Hl Hend;
    set (l := Position.lineNumber (moveDownStart cursor sel)) in *;
    pose proof (proj1 (validLine_bounds _ _) Hl) as Hlb;
    pose proof (proj1 (validLine_bounds _ _) Hend) as Hendb;
    assert (Hnext : validLine model (l + 1) = true)
      by (apply validLine_bounds; lia);
    destruct (sticky_moveDown_one_line config model cursor sel Hsticky Hl
                Hnext) as [lo Hstep]; fold l in Hstep;
    cbn [moveDownTimes]; rewrite Hstep; cbn [bind].
  - eexists. split; [reflexivity|].
    now rewrite position_of_move, isEnd_of_move.
  - set (next := SingleCursorState.move cursor sel (l + 1)
                   (maxColumnOf model (l + 1)) lo true).
    assert (Hstart : moveDownStart next sel
                     = Position.mk (l + 1) (maxColumnOf model (l + 1)))
      by apply moveStart_of_move.
    destruct (IH next) as (cursor' & Hrun & Hpos & Hflag).
    + apply isEnd_of_move.
    + now rewrite Hstart.
    + rewrite Hstart. cbn [Position.lineNumber].
      now replace (l + 1 + Z.of_nat (S k)) with (l + Z.of_nat (S (S k)))
        by lia.
    + exists cursor'. split; [exact Hrun|]. split; [|exact Hflag].
      rewrite Hpos, Hstart. cbn [Position.lineNumber].
      now replace (l + 1 + Z.of_nat (S k)) with (l + Z.of_nat (S (S k)))
        by lia.
Qed.

Lemma moveUpTimes_sticky config model sel : forall (k : nat) cursor,
  SingleCursorState.isEnd cursor = true ->
  validLine model (Position.lineNumber (moveUpStart cursor sel)) = true ->
  validLine model
    (Position.lineNumber (moveUpStart cursor sel) - Z.of_nat (S k)) = true ->
  exists cursor',
    moveUpTimes config model (S k) sel cursor = Ok cursor'
    /\ SingleCursorState.position cursor'
       = Position.mk
           (Position.lineNumber (moveUpStart cursor sel) - Z.of_nat (S k))
           (maxColumnOf model
              (Position.lineNumber (moveUpStart cursor sel)
               - Z.of_nat (S k)))
    /\ SingleCursorState.isEnd cursor' = true.
Proof.
  induction k as [|k IH]; intros cursor Hsticky Hl Hend;
    set (l := Position.lineNumber (moveUpStart cursor sel)) in *;
    pose proof (proj1 (validLine_bounds _ _) Hl) as Hlb;
    pose proof (proj1 (validLine_bounds _ _) Hend) as Hendb;
    assert (Hprev : validLine model (l - 1) = true)
      by (apply validLine_bounds; lia);
    destruct (sticky_moveUp_one_line config model cursor sel Hsticky Hl
                Hprev) as [lo Hstep]; fold l in Hstep;
    cbn [moveUpTimes]; rewrite Hstep; cbn [bind].
  - eexists. split; [reflexivity|].
    now rewrite position_of_move, isEnd_of_move.
  - set (next := SingleCursorState.move cursor sel (l - 1)
                   (maxColumnOf model (l - 1)) lo true).
    assert (Hstart : moveUpStart next sel
                     = Position.mk (l - 1) (maxColumnOf model (l - 1)))
      by apply moveStart_of_move.
    destruct (IH next) as (cursor' & Hrun & Hpos & Hflag).
    + apply isEnd_of_move.
    + now rewrite Hstart.
    + rewrite Hstart. cbn [Position.lineNumber].
      now replace (l - 1 - Z.of_nat (S k)) with (l - Z.of_nat (S (S k)))
        by lia.
    + exists cursor'. split; [exact Hrun|]. split; [|exact Hflag].
      rewrite Hpos, Hstart. cbn [Position.lineNumber].
      now replace (l - 1 - Z.of_nat (S k)) with (l - Z.of_nat (S (S k)))
        by lia.
Qed.

(** X17.  A sticky cursor taken down (up) one line at a time, [k >= 1]
    times with the same extend-selection flag and without leaving the
    buffer, ends on line [l + k] ([l - k]) at that line's max column and
    is still sticky, whatever the lengths of the lines passed. *)
Theorem repeated_one_line_sticky_moves_track_line_ends :
  forall config model inSelectionMode (k : nat) cursor,
    (1 <= k)%nat ->
    SingleCursorState.isEnd cursor = true ->
    (let l := Position.lineNumber (moveDownStart cursor inSelectionMode) in
     validLine model l = true ->
     validLine model (l + Z.of_nat k) = true ->
     exists cursor',
       moveDownTimes config model k inSelectionMode cursor = Ok cursor'
       /\ SingleCursorState.position cursor'
          = Position.mk (l + Z.of_nat k)
              (maxColumnOf model (l + Z.of_nat k))
       /\ SingleCursorState.isEnd cursor' = true)
    /\
    (let l := Position.lineNumber (moveUpStart cursor inSelectionMode) in
     validLine model l = true ->
     validLine model (l - Z.of_nat k) = true ->
     exists cursor',
       moveUpTimes config model k inSelectionMode cursor = Ok cursor'
       /\ SingleCursorState.position cursor'
          = Position.mk (l - Z.of_nat k)
              (maxColumnOf model (l - Z.of_nat k))
       /\ SingleCursorState.isEnd cursor' = true).
Proof.
  intros config model sel k cursor Hk Hsticky.
  destruct k as [|k]; [lia|]. split; intros l Hl Hend.
  - now apply moveDownTimes_sticky.
  - now apply moveUpTimes_sticky.
Qed.

Lemma repeated_one_line_sticky_moves_witness :
  (1 <= 2)%nat
  /\ SingleCursorState.isEnd (stickyCaretAt (Position.mk 1 7)) = true
  /\ validLine bufferTabs 1 = true
  /\ validLine bufferTabs (1 + Z.of_nat 2) = true
  /\ (exists cursor',
        moveDownTimes tab4 bufferTabs 2 true
          (stickyCaretAt (Position.mk 1 7)) = Ok cursor'
        /\ SingleCursorState.position cursor' = Position.mk 3 5
        /\ SingleCursorState.isEnd cursor' = true).
Proof.
  assert (H1 : (1 <= 2)%nat) by lia.
  split; [exact H1|]. split; [reflexivity|]. split; [reflexivity|].
  split; [reflexivity|].
  exact (proj1 (repeated_one_line_sticky_moves_track_line_ends tab4
                  bufferTabs true 2 (stickyCaretAt (Position.mk 1 7))
                  H1 eq_refl) eq_refl eq_refl).
Defined.

(* ===================================================================== *)
(** ** Well-formed cursors *)

Lemma leftPosition_valid rule model p :
  validPosition model p = true ->
  exists q,
    MoveOperations.leftPosition rule model (Position.lineNumber p)
      (Position.column p) = Ok q
    /\ validPosition model q = true.
Proof.
  destruct p as [l c]. intros Hvalid.
  pose proof (proj1 (validPosition_bounds _ _) Hvalid) as [Hl Hc].
  cbn [Position.lineNumber Position.column] in *.
  pose proof (proj1 (validLine_bounds _ _) Hl) as Hlb.
  destruct (leftPosition_cases rule _ _ _ Hvalid)
    as [(Hgt & k & Hk & Hlow & ->)|[(-> & Hgt & ->)|(-> & -> & ->)]];
    eexists; (split; [reflexivity|]).
  - apply validPosition_intro; lia.
  - apply validPosition_intro; [lia|].
    pose proof (maxColumnOf_pos model (l - 1)). lia.
  - exact Hvalid.
Qed.

Lemma rightPosition_valid rule model p :
  validPosition model p = true ->
  exists q,
    MoveOperations.rightPosition rule model (Position.lineNumber p)
      (Position.column p) = Ok q
    /\ validPosition model q = true.
Proof.
  destruct p as [l c]. intros Hvalid.
  pose proof (proj1 (validPosition_bounds _ _) Hvalid) as [Hl Hc].
  cbn [Position.lineNumber Position.column] in *.
  pose proof (proj1 (validLine_bounds _ _) Hl) as Hlb.
  destruct (rightPosition_cases rule _ _ _ Hvalid)
    as [(Hlt & k & Hk & Hhigh & ->)|[(-> & Hlt & ->)|(-> & -> & ->)]];
    eexists; (split; [reflexivity|]).
  - apply validPosition_intro; lia.
  - apply validPosition_intro; [lia|].
    pose proof (maxColumnOf_pos model (l + 1)). lia.
  - exact Hvalid.
Qed.

Lemma wellFormed_move model cursor sel l c lo sticky :
  wellFormed model cursor = true ->
  validPosition model (Position.mk l c) = true ->
  wellFormed model (SingleCursorState.move cursor sel l c lo sticky) = true.
Proof.
  unfold wellFormed. intros Hw Hv. apply andb_true_iff in Hw as [Ha Hp].
  destruct sel; cbn; rewrite Hv; [now rewrite Ha|reflexivity].
Qed.

Lemma selection_ends_valid model cursor :
  wellFormed model cursor = true ->
  validPosition model
    (Selection.getStartPosition (SingleCursorState.selection cursor)) = true
  /\ validPosition model
       (Selection.getEndPosition (SingleCursorState.selection cursor))
     = true.
Proof.
  unfold wellFormed. intros Hw. apply andb_true_iff in Hw as [Ha Hp].
  unfold Selection.getStartPosition, Selection.getEndPosition,
    Selection.anchor, Selection.floatingEnd, SingleCursorState.selection.
  cbn [Selection.selectionStartLineNumber Selection.selectionStartColumn
       Selection.positionLineNumber Selection.positionColumn].
  rewrite !Position_eta. destruct (Position.isBeforeOrEqual _ _); tauto.
Qed.

Lemma moveStart_valid model cursor sel :
  wellFormed model cursor = true ->
  validPosition model (moveDownStart cursor sel) = true
  /\ validPosition model (moveUpStart cursor sel) = true.
Proof.
  intros Hw. destruct (selection_ends_valid _ _ Hw) as [Hs He].
  unfold moveDownStart, moveUpStart.
  apply andb_true_iff in Hw as [_ Hp]. destruct (_ && _); tauto.
Qed.

(** X18.  A cursor whose anchor and floating end are valid positions stays
    such a cursor under every operation that moves by a single character,
    by a count of lines that is not negative (the cursor not being
    sticky), or by no count at all: the operation returns, and the anchor
    and the floating end of the cursor it returns are valid positions. *)
Theorem single_step_operations_keep_the_cursor_well_formed :
  forall rule config model cursor command,
    wellFormed model cursor = true ->
    singleStepCommand cursor command = true ->
    exists cursor',
      execute rule config model cursor command = Ok cursor'
      /\ wellFormed model cursor' = true.
Proof.
  intros rule config model cursor command Hw Hstep.
  pose proof Hw as Hw'. unfold wellFormed in Hw'.
  apply andb_true_iff in Hw' as [Ha Hp].
  pose proof (proj1 (validPosition_bounds _ _) Ha) as [Hal Hac].
  pose proof (proj1 (validPosition_bounds _ _) Hp) as [Hpl Hpc].
  pose proof (proj1 (validLine_bounds _ _) Hpl) as Hplb.
  destruct (selection_ends_valid _ _ Hw) as [Hstart Hend].
  destruct command as [sel n|sel n|sel n| |sel n| |sel|sel|sel|sel];
    cbn [execute singleStepCommand] in *.
  - apply Z.eqb_eq in Hstep. subst n. unfold MoveOperations.moveLeft.
    destruct (_ && _).
    + cbn [bind Position.lineNumber Position.column].
      eexists. split; [reflexivity|]. apply wellFormed_move; [exact Hw|].
      unfold Selection.startLineNumber, Selection.startColumn.
      now rewrite Position_eta.
    + unfold MoveOperations.left.
      replace (Position.column (SingleCursorState.position cursor) - (1 - 1))
        with (Position.column (SingleCursorState.position cursor)) by lia.
      destruct (leftPosition_valid rule _ _ Hp) as (q & -> & Hq).
      cbn [bind CursorPosition.lineNumber CursorPosition.column
           Position.lineNumber Position.column].
      eexists. split; [reflexivity|]. apply wellFormed_move; [exact Hw|].
      now rewrite Position_eta.
  - apply Z.eqb_eq in Hstep. subst n. unfold MoveOperations.moveRight.
    destruct (_ && _).
    + cbn [bind Position.lineNumber Position.column].
      eexists. split; [reflexivity|]. apply wellFormed_move; [exact Hw|].
      unfold Selection.endLineNumber, Selection.endColumn.
      now rewrite Position_eta.
    + unfold MoveOperations.right.
      replace (Position.column (SingleCursorState.position cursor) + (1 - 1))
        with (Position.column (SingleCursorState.position cursor)) by lia.
      destruct (rightPosition_valid rule _ _ Hp) as (q & -> & Hq).
      cbn [bind CursorPosition.lineNumber CursorPosition.column
           Position.lineNumber Position.column].
      eexists. split; [reflexivity|]. apply wellFormed_move; [exact Hw|].
      now rewrite Position_eta.
  - apply andb_true_iff in Hstep as [Hsticky Hn].
    apply negb_true_iff in Hsticky. apply Z.leb_le in Hn.
    destruct (moveStart_valid model cursor sel Hw) as [Hs _].
    apply validPosition_bounds in Hs as [Hsl _].
    unfold MoveOperations.moveDown.
    rewrite moveDown_start_eq, Hsticky. cbn [bind].
    destruct (down_lands config model _
                (Position.column (moveDownStart cursor sel))
                (SingleCursorState.leftoverVisibleColumns cursor) n true
                Hsl Hn (or_introl eq_refl)) as (r & -> & _ & Hr).
    cbn [bind]. eexists. split; [reflexivity|].
    now apply wellFormed_move.
  - destruct (selection_fields cursor) as (E1 & E2 & E3 & E4).
    unfold MoveOperations.translateDown. rewrite E1, E2, E3, E4.
    destruct (down_lands config model _
                (Position.column (SingleCursorState.selectionStart cursor))
                (SingleCursorState.selectionStartLeftoverVisibleColumns
                   cursor) 1 false Hal ltac:(lia)
                (or_intror (proj1 Hac))) as (ra & -> & _ & Hra).
    destruct (down_lands config model _
                (Position.column (SingleCursorState.position cursor))
                (SingleCursorState.leftoverVisibleColumns cursor) 1 false
                Hpl ltac:(lia) (or_intror (proj1 Hpc)))
      as (rp & -> & _ & Hrp).
    cbn [bind]. eexists. split; [reflexivity|].
    unfold wellFormed. cbn. now rewrite Hra, Hrp.
  - apply andb_true_iff in Hstep as [Hsticky Hn].
    apply negb_true_iff in Hsticky. apply Z.leb_le in Hn.
    destruct (moveStart_valid model cursor sel Hw) as [_ Hs].
    apply validPosition_bounds in Hs as [Hsl _].
    unfold MoveOperations.moveUp.
    rewrite moveUp_start_eq, Hsticky. cbn [bind].
    destruct (up_lands config model _
                (Position.column (moveUpStart cursor sel))
                (SingleCursorState.leftoverVisibleColumns cursor) n true
                Hsl Hn (or_introl eq_refl)) as (r & -> & _ & Hr).
    cbn [bind]. eexists. split; [reflexivity|].
    now apply wellFormed_move.
  - destruct (selection_fields cursor) as (E1 & E2 & E3 & E4).
    unfold MoveOperations.translateUp. rewrite E1, E2, E3, E4.
    destruct (up_lands config model _
                (Position.column (SingleCursorState.selectionStart cursor))
                (SingleCursorState.selectionStartLeftoverVisibleColumns
                   cursor) 1 false Hal ltac:(lia)
                (or_intror (proj1 Hac))) as (ra & -> & _ & Hra).
    destruct (up_lands config model _
                (Position.column (SingleCursorState.position cursor))
                (SingleCursorState.leftoverVisibleColumns cursor) 1 false
                Hpl ltac:(lia) (or_intror (proj1 Hpc)))
      as (rp & -> & _ & Hrp).
    cbn [bind]. eexists. split; [reflexivity|].
    unfold wellFormed. cbn. now rewrite Hra, Hrp.
  - rewrite (moveToBeginningOfLine_valid config model cursor sel Hpl).
    eexists. split; [reflexivity|]. apply wellFormed_move; [exact Hw|].
    apply validPosition_intro; [lia|].
    pose proof (firstNonBlankColumnOf_pos
                  (lineText model
                     (Position.lineNumber
                        (SingleCursorState.position cursor)))).
    pose proof (firstNonBlankColumnOf_upper
                  (lineText model
                     (Position.lineNumber
                        (SingleCursorState.position cursor)))).
    unfold maxColumnOf in *. destruct (_ =? _); lia.
  - unfold MoveOperations.moveToEndOfLine.
    rewrite (getLineMaxColumn_valid _ _ Hpl). cbn [bind].
    eexists. split; [reflexivity|]. apply wellFormed_move; [exact Hw|].
    apply validPosition_intro; [lia|].
    pose proof (maxColumnOf_pos model
                  (Position.lineNumber (SingleCursorState.position cursor))).
    lia.
  - unfold MoveOperations.moveToBeginningOfBuffer.
    eexists. split; [reflexivity|]. apply wellFormed_move; [exact Hw|].
    apply validPosition_intro; [lia|].
    pose proof (maxColumnOf_pos model 1). lia.
  - unfold MoveOperations.moveToEndOfBuffer.
    rewrite getLineMaxColumn_valid by (apply validLine_bounds; lia).
    cbn [bind].
    eexists. split; [reflexivity|]. apply wellFormed_move; [exact Hw|].
    apply validPosition_intro; [lia|].
    pose proof (maxColumnOf_pos model (Model.getLineCount model)). lia.
Qed.

Lemma single_step_operations_witness :
  wellFormed bufferTabs selectionOnTabs = true
  /\ singleStepCommand selectionOnTabs TranslateDown = true
  /\ (exists cursor',
        execute strings.surrogatePairs tab4 bufferTabs selectionOnTabs TranslateDown = Ok cursor'
        /\ wellFormed bufferTabs cursor' = true).
Proof.
  split; [reflexivity|]. split; [reflexivity|].
  exact (single_step_operations_keep_the_cursor_well_formed
           strings.surrogatePairs tab4 bufferTabs
           selectionOnTabs TranslateDown eq_refl eq_refl).
Defined.

(** X19.  At a boundary of the buffer the multi-column moves keep the
    shifted column as it is: for a cursor without a selection (or with the
    extend-selection flag set) on line 1 whose column shifted left by
    [noOfColumns - 1] is at most 1, [moveLeft] returns line 1 at exactly
    that shifted column, which may lie below the min column; on the last
    line, when the column shifted right by [noOfColumns - 1] is at least
    the max column, [moveRight] returns exactly that shifted column, which
    may lie beyond the max column. *)
Theorem multi_column_move_keeps_shifted_column_at_buffer_boundary :
  forall rule config model cursor inSelectionMode noOfColumns,
    let l := Position.lineNumber (SingleCursorState.position cursor) in
    let c := Position.column (SingleCursorState.position cursor) in
    SingleCursorState.hasSelection cursor && negb inSelectionMode = false ->
    1 <= Model.getLineCount model ->
    (l = 1 ->
     c - (noOfColumns - 1) <= 1 ->
     MoveOperations.moveLeft rule config model cursor inSelectionMode noOfColumns
     = Ok (SingleCursorState.move cursor inSelectionMode 1
             (c - (noOfColumns - 1)) 0 false))
    /\
    (l = Model.getLineCount model ->
     maxColumnOf model l <= c + (noOfColumns - 1) ->
     MoveOperations.moveRight rule config model cursor inSelectionMode noOfColumns
     = Ok (SingleCursorState.move cursor inSelectionMode l
             (c + (noOfColumns - 1)) 0 false)).
Proof.
  intros rule config model cursor sel n l c Hplain Hlines. split.
  - intros Hl Hc. unfold MoveOperations.moveLeft, MoveOperations.left.
    rewrite Hplain. fold l c. rewrite Hl.
    rewrite leftPosition_at_buffer_start
      by (try apply validLine_bounds; lia).
    reflexivity.
  - intros Hl Hc. unfold MoveOperations.moveRight, MoveOperations.right.
    rewrite Hplain. fold l c. rewrite Hl in *.
    rewrite rightPosition_at_buffer_end
      by (try apply validLine_bounds; lia).
    reflexivity.
Qed.

Lemma multi_column_move_at_buffer_boundary_witness :
  SingleCursorState.hasSelection (caretAt (Position.mk 1 2)) && negb false
  = false
  /\ 1 <= Model.getLineCount bufferHello
  /\ 2 - (4 - 1) <= 1
  /\ MoveOperations.moveLeft strings.surrogatePairs tab4 bufferHello (caretAt (Position.mk 1 2))
       false 4
     = Ok (caretAt (Position.mk 1 (-1)))
  /\ validPosition bufferHello (Position.mk 1 (-1)) = false.
Proof.
  assert (H1 : 1 <= Model.getLineCount bufferHello)
    by (vm_compute; discriminate).
  assert (H2 : 2 - (4 - 1) <= 1) by lia.
  split; [reflexivity|]. split; [exact H1|]. split; [exact H2|]. split.
  - exact (proj1 (multi_column_move_keeps_shifted_column_at_buffer_boundary
                    strings.surrogatePairs tab4 bufferHello (caretAt (Position.mk 1 2)) false 4
                    eq_refl H1) eq_refl H2).
  - reflexivity.
Defined.
